(** * Customer-churn prediction service: a shallow embedding

    The development follows the three source files of the repository:

    - [app.py]            the form-rendering service ([App]);
    - [app_corrected.py]  the same service with an added JSON endpoint
                          ([AppCorrected]);
    - [main.py]           the training script ([Main]).

    Python values, dictionaries, exceptions, [str.join] and the [.2f] float
    format are modelled in [Py]; the one-row data frame of pandas in
    [Pandas]; the estimator objects of scikit-learn, as the constructor
    calls of [main.py] configure them, in [Sklearn].  The fitted artifact
    ([model.pkl]) is an opaque pair of operations, as the handlers see it.

    Floating-point numbers are the kernel's binary64 floats, so that
    [probability * 100] rounds as it does in Python. *)

From Stdlib Require Import ZArith NArith List String Ascii Bool Lia.
From Stdlib Require Import Floats DecimalString.
Import ListNotations.

#[local] Set Warnings "-inexact-float,-register-all".
#[local] Open Scope string_scope.

(* ================================================================= *)
(** ** Python values and built-ins *)

Module Py.

(** The values that travel through the handlers: form fields are [VStr],
    a parsed JSON body may hold any of the constructors, template contexts
    and JSON responses are [VDict]s.  A Python [dict] keeps insertion
    order, so it is an association list. *)
Inductive value : Type :=
| VNone
| VBool (b : bool)
| VInt (z : Z)
| VFloat (f : float)
| VStr (s : string)
| VList (l : list value)
| VDict (d : list (string * value)).

Definition dict := list (string * value).

(** [k in d] *)
Definition dict_mem (d : dict) (k : string) : bool :=
  existsb (fun kv => String.eqb (fst kv) k) d.

(** [d.get(k)] *)
Fixpoint dict_get (d : dict) (k : string) : option value :=
  match d with
  | [] => None
  | (k', v) :: d' => if String.eqb k' k then Some v else dict_get d' k
  end.

(** [d] after [del d[k]] *)
Definition dict_remove (d : dict) (k : string) : dict :=
  filter (fun kv => negb (String.eqb (fst kv) k)) d.

(** [d.pop(k, None)]: the value popped ([None] when the key is absent)
    and the dictionary that is left. *)
Definition dict_pop (d : dict) (k : string) : value * dict :=
  match dict_get d k with
  | Some v => (v, dict_remove d k)
  | None => (VNone, d)
  end.

Definition dict_keys (d : dict) : list string := map fst d.

(** [sep.join(xs)] *)
Fixpoint join (sep : string) (xs : list string) : string :=
  match xs with
  | [] => ""
  | [x] => x
  | x :: rest => x ++ sep ++ join sep rest
  end.

(** *** Exceptions

    [exn] stands for an instance of [Exception]; [exn_str] is [str(e)].
    [ValueError] also stands for its subclasses (scikit-learn's
    [NotFittedError] is one), which [except ValueError] catches alike;
    [OtherException] is a class that derives from none of the five
    named. *)
Inductive exn_class : Type :=
| ValueError
| KeyError
| IndexError
| TypeError
| AttributeError
| OtherException (name : string).

Record exn : Type := mkExn { exn_cls : exn_class; exn_str : string }.

(** [isinstance(e, ValueError)] *)
Definition is_ValueError (e : exn) : bool :=
  match exn_cls e with
  | ValueError => true
  | _ => false
  end.

Inductive result (A : Type) : Type :=
| Ok (a : A)
| Raise (e : exn).
Arguments Ok {A} a.
Arguments Raise {A} e.

(** [type(v).__name__] *)
Definition type_name (v : value) : string :=
  match v with
  | VNone => "NoneType"
  | VBool _ => "bool"
  | VInt _ => "int"
  | VFloat _ => "float"
  | VStr _ => "str"
  | VList _ => "list"
  | VDict _ => "dict"
  end.

(** [v.pop(k, None)] on an arbitrary value: only a [dict] has that
    method; a [list] has a one-argument [pop], anything else has none. *)
Definition pop (v : value) (k : string) : result (value * dict) :=
  match v with
  | VDict d => Ok (dict_pop d k)
  | VList _ => Raise (mkExn TypeError "pop expected at most 1 argument, got 2")
  | _ => Raise (mkExn AttributeError
                  ("'" ++ type_name v ++ "' object has no attribute 'pop'"))
  end.

(** [str(n)] for a natural number. *)
Definition decimal (n : N) : string := NilZero.string_of_uint (N.to_uint n).

(** [xs[i]] on an array: the entry, or the [IndexError] of numpy. *)
Definition index {A : Type} (xs : list A) (i : nat) : result A :=
  match nth_error xs i with
  | Some x => Ok x
  | None =>
      Raise (mkExn IndexError
               ("index " ++ decimal (N.of_nat i)
                  ++ " is out of bounds for axis 0 with size "
                  ++ decimal (N.of_nat (List.length xs))))
  end.

(** *** [f"{x:.2f}"]

    The format is the correctly rounded decimal expansion of the exact
    binary value, ties to even, with two digits after the point. *)

Definition round_half_even_div (n d : N) : N :=
  let q := (n / d)%N in
  let r := (n mod d)%N in
  match (2 * r ?= d)%N with
  | Lt => q
  | Gt => (q + 1)%N
  | Eq => if N.even q then q else (q + 1)%N
  end.

(** [m * 2^e * 100], rounded to an integer (the number of hundredths). *)
Definition hundredths (m : positive) (e : Z) : N :=
  match e with
  | Z0 => (100 * Npos m)%N
  | Zpos k => (100 * Npos m * 2 ^ Npos k)%N
  | Zneg k => round_half_even_div (100 * Npos m) (2 ^ Npos k)
  end.


Definition two_digits (n : N) : string :=
  if (n <? 10)%N then "0" ++ decimal n else decimal n.

Definition fixed2 (h : N) : string :=
  decimal (h / 100) ++ "." ++ two_digits (h mod 100).

Definition sign_str (s : bool) : string := if s then "-" else "".

Definition format_2f (x : float) : string :=
  match Prim2SF x with
  | S754_nan => "nan"
  | S754_infinity s => sign_str s ++ "inf"
  | S754_zero s => sign_str s ++ "0.00"
  | S754_finite s m e => sign_str s ++ fixed2 (hundredths m e)
  end.

(** [math.isnan(x)] and [math.isfinite(x)] *)
Definition is_nan (x : float) : bool :=
  match Prim2SF x with
  | S754_nan => true
  | _ => false
  end.

Definition SF_is_finite (x : spec_float) : bool :=
  match x with
  | S754_zero _ | S754_finite _ _ _ => true
  | _ => false
  end.

Definition is_finite (x : float) : bool := SF_is_finite (Prim2SF x).

(** *** Reading strings *)

Definition is_digit (c : ascii) : bool :=
  let n := nat_of_ascii c in (48 <=? n)%nat && (n <=? 57)%nat.

Fixpoint all_digits (s : string) : bool :=
  match s with
  | EmptyString => true
  | String c s' => is_digit c && all_digits s'
  end.

(** digit digit [%] *)
Definition two_digits_percent (s : string) : bool :=
  match s with
  | String d1 (String d2 (String c EmptyString)) =>
      is_digit d1 && is_digit d2 && Ascii.eqb c "%"
  | _ => false
  end.

(** digits [.] digit digit [%], with at least one digit before the
    point. *)
Fixpoint unsigned_two_decimal_percent (seen : bool) (s : string) : bool :=
  match s with
  | EmptyString => false
  | String c s' =>
      if Ascii.eqb c "." then seen && two_digits_percent s'
      else is_digit c && unsigned_two_decimal_percent true s'
  end.

(** A percentage with exactly two decimal places, possibly signed. *)
Definition two_decimal_percent (s : string) : bool :=
  match s with
  | EmptyString => false
  | String c s' =>
      if Ascii.eqb c "-" then unsigned_two_decimal_percent false s'
      else unsigned_two_decimal_percent false s
  end.

End Py.

Import Py.

(* ================================================================= *)
(** ** The request surface: Flask and werkzeug *)

Module Flask.

(** [request.form] is a multi-dictionary: the submitted fields in the
    order received, a name possibly repeated. *)
Definition MultiDict := list (string * string).

(** [form.to_dict()]: each name once, in the order of its first
    occurrence, with the first value submitted for it. *)
Definition to_dict (form : MultiDict) : dict :=
  fold_left
    (fun acc kv => if dict_mem acc (fst kv) then acc
                   else (acc ++ [(fst kv, VStr (snd kv))])%list)
    form [].

End Flask.

(* ================================================================= *)
(** ** pandas: the one-row frame the handlers build *)

Module Pandas.

(** A frame with a single row: the column labels, each with its cell. *)
Definition DataFrame := list (string * value).

(** [pd.DataFrame([record])] *)
Definition DataFrame_of_record (record : dict) : DataFrame := record.

(** [df.columns] *)
Definition columns (df : DataFrame) : list string := map fst df.

(** [col in df.columns] *)
Definition has_column (df : DataFrame) (col : string) : bool :=
  existsb (String.eqb col) (columns df).

Definition quote (s : string) : string := "'" ++ s ++ "'".

(** [df[cols]]: the columns named, in the order named; a label that is
    not a column raises [KeyError]. *)
Definition getitem (df : DataFrame) (cols : list string) : result DataFrame :=
  match filter (fun c => negb (has_column df c)) cols with
  | [] =>
      Ok (flat_map (fun c => match dict_get df c with
                             | Some v => [(c, v)]
                             | None => []
                             end) cols)
  | absent =>
      Raise (mkExn KeyError
               ("[" ++ join ", " (map quote absent) ++ "] not in index"))
  end.

End Pandas.

Import Pandas.

(* ================================================================= *)
(** ** The loaded artifact and the effects of a handler *)

Module Runtime.

(** [model = joblib.load("model.pkl")]: whatever was pickled, seen
    through the two operations the handlers call.  Each returns an array
    or raises. *)
Record Artifact : Type := mkArtifact {
  model_predict : DataFrame -> result (list Z);
  model_predict_proba : DataFrame -> result (list (list float))
}.

(** What a handler does besides returning: it invokes the artifact and
    writes a line to the server log ([app.logger.error]). *)
Inductive event : Type :=
| EvPredict (df : DataFrame)
| EvPredictProba (df : DataFrame)
| EvLogError (line : string).

Definition is_invocation (ev : event) : bool :=
  match ev with
  | EvPredict _ | EvPredictProba _ => true
  | EvLogError _ => false
  end.

(** A computation returns or raises, and leaves a trace of events. *)
Definition M (A : Type) : Type := result A * list event.

Definition ret {A : Type} (a : A) : M A := (Ok a, []).

Definition raise {A : Type} (e : exn) : M A := (Raise e, []).

Definition lift {A : Type} (r : result A) : M A := (r, []).

Definition bind {A B : Type} (m : M A) (k : A -> M B) : M B :=
  match m with
  | (Ok a, t) => let '(r, t') := k a in (r, (t ++ t')%list)
  | (Raise e, t) => (Raise e, t)
  end.

(** [model.predict(df)] and [model.predict_proba(df)] *)
Definition call_predict (model : Artifact) (df : DataFrame) : M (list Z) :=
  (model_predict model df, [EvPredict df]).

Definition call_predict_proba (model : Artifact) (df : DataFrame)
  : M (list (list float)) :=
  (model_predict_proba model df, [EvPredictProba df]).

End Runtime.

Import Runtime.

Declare Scope py_scope.
Notation "x <- c ;; k" := (bind c (fun x => k))
  (at level 61, c at next level, right associativity) : py_scope.
#[local] Open Scope py_scope.

(* ================================================================= *)
(** ** [app.py] *)

Module App.

Definition EXPECTED_COLUMNS : list string :=
  [ "gender"; "SeniorCitizen"; "Partner"; "Dependents"; "tenure";
    "PhoneService"; "MultipleLines"; "InternetService"; "OnlineSecurity";
    "OnlineBackup"; "DeviceProtection"; "TechSupport"; "StreamingTV";
    "StreamingMovies"; "Contract"; "PaperlessBilling"; "PaymentMethod";
    "MonthlyCharges"; "TotalCharges" ].

(** Lines 69-81: the risk level and its message. *)
Definition risk (prob_percentage : float) : string * string :=
  if (prob_percentage <? 30)%float then ("low", "VERY LOW RISK")
  else if (prob_percentage <? 50)%float then ("medium", "MEDIUM RISK")
  else if (prob_percentage <? 70)%float then ("high", "HIGH RISK")
  else ("very-high", "VERY HIGH RISK").

Section Handlers.

Variable model : Artifact.
(** [traceback.format_exc()] while the exception is handled. *)
Variable format_exc : exn -> string.

(** The [try] block of [predict]: the template context it renders. *)
Definition predict_try (form : Flask.MultiDict) : M dict :=
  let data := Flask.to_dict form in
  let '(customer_id, data) := dict_pop data "customerID" in
  let input_df := DataFrame_of_record data in
  let missing_columns :=
    filter (fun col => negb (has_column input_df col)) EXPECTED_COLUMNS in
  match missing_columns with
  | _ :: _ =>
      raise (mkExn ValueError
               ("Missing required columns: " ++ join ", " missing_columns))
  | [] =>
      input_df <- lift (getitem input_df EXPECTED_COLUMNS) ;;
      predictions <- call_predict model input_df ;;
      prediction <- lift (index predictions 0) ;;
      probabilities <- call_predict_proba model input_df ;;
      first_row <- lift (index probabilities 0) ;;
      probability <- lift (index first_row 1) ;;
      let churn_label := if (prediction =? 1)%Z then "Yes" else "No" in
      let prob_percentage := (probability * 100)%float in
      let '(risk_level, risk_message) := risk prob_percentage in
      ret [ ("churn", VStr churn_label);
            ("probability", VStr (format_2f prob_percentage ++ "%"));
            ("prob_percentage", VFloat prob_percentage);
            ("risk_level", VStr risk_level);
            ("risk_message", VStr risk_message);
            ("customer_id", customer_id);
            ("data", VDict data);
            ("success", VBool true) ]
  end.

(** [predict]: the context handed to [render_template], and the
    events of the request. *)
Definition predict (form : Flask.MultiDict) : dict * list event :=
  match predict_try form with
  | (Ok context, t) => (context, t)
  | (Raise e, t) =>
      if is_ValueError e then
        ([ ("error", VStr ("Input Error: " ++ exn_str e));
           ("data", VDict []);
           ("success", VBool false) ], t)
      else
        ([ ("error", VStr ("Error: " ++ exn_str e));
           ("data", VDict []);
           ("success", VBool false) ],
         (t ++ [EvLogError ("Prediction failed: " ++ format_exc e)])%list)
  end.

End Handlers.

End App.

(* ================================================================= *)
(** ** [app_corrected.py] *)

Module AppCorrected.

Definition EXPECTED_COLUMNS : list string :=
  [ "gender"; "SeniorCitizen"; "Partner"; "Dependents"; "tenure";
    "PhoneService"; "MultipleLines"; "InternetService"; "OnlineSecurity";
    "OnlineBackup"; "DeviceProtection"; "TechSupport"; "StreamingTV";
    "StreamingMovies"; "Contract"; "PaperlessBilling"; "PaymentMethod";
    "MonthlyCharges"; "TotalCharges" ].

Section Handlers.

Variable model : Artifact.
Variable format_exc : exn -> string.

(** The [try] block of [predict]. *)
Definition predict_try (form : Flask.MultiDict) : M dict :=
  let data := Flask.to_dict form in
  let '(customer_id, data) := dict_pop data "customerID" in
  let input_df := DataFrame_of_record data in
  let missing_columns :=
    filter (fun col => negb (has_column input_df col)) EXPECTED_COLUMNS in
  match missing_columns with
  | _ :: _ =>
      raise (mkExn ValueError
               ("Missing required columns: " ++ join ", " missing_columns))
  | [] =>
      input_df <- lift (getitem input_df EXPECTED_COLUMNS) ;;
      predictions <- call_predict model input_df ;;
      prediction <- lift (index predictions 0) ;;
      probabilities <- call_predict_proba model input_df ;;
      first_row <- lift (index probabilities 0) ;;
      probability <- lift (index first_row 1) ;;
      let churn_label := if (prediction =? 1)%Z then "Yes" else "No" in
      ret [ ("churn", VStr churn_label);
            ("probability", VStr (format_2f (probability * 100) ++ "%"));
            ("customer_id", customer_id);
            ("data", VDict data);
            ("success", VBool true) ]
  end.

Definition predict (form : Flask.MultiDict) : dict * list event :=
  match predict_try form with
  | (Ok context, t) => (context, t)
  | (Raise e, t) =>
      if is_ValueError e then
        ([ ("error", VStr ("Input Error: " ++ exn_str e));
           ("data", VDict []);
           ("success", VBool false) ], t)
      else
        let error_msg := "Prediction Error: " ++ exn_str e in
        ([ ("error", VStr error_msg);
           ("data", VDict []);
           ("success", VBool false) ],
         (t ++ [EvLogError ("Prediction failed: " ++ format_exc e)])%list)
  end.

(** The [try] block of [api_predict]: the JSON object and the HTTP
    status.  [get_json] is what [request.get_json()] does for the
    request: the parsed body, or the exception it raises. *)
Definition api_predict_try (get_json : result value) : M (dict * Z) :=
  json_data <- lift get_json ;;
  popped <- lift (pop json_data "customerID") ;;
  let '(customer_id, json_data) := popped in
  let input_df := DataFrame_of_record json_data in
  let missing_columns :=
    filter (fun col => negb (has_column input_df col)) EXPECTED_COLUMNS in
  match missing_columns with
  | _ :: _ =>
      ret ([ ("error", VStr ("Missing columns: " ++ join ", " missing_columns));
             ("success", VBool false) ], 400%Z)
  | [] =>
      input_df <- lift (getitem input_df EXPECTED_COLUMNS) ;;
      predictions <- call_predict model input_df ;;
      prediction <- lift (index predictions 0) ;;
      probabilities <- call_predict_proba model input_df ;;
      first_row <- lift (index probabilities 0) ;;
      probability <- lift (index first_row 1) ;;
      ret ([ ("success", VBool true);
             ("customer_id", customer_id);
             ("churn_prediction",
              VStr (if (prediction =? 1)%Z then "Yes" else "No"));
             ("churn_probability", VFloat probability);
             ("confidence", VStr (format_2f (probability * 100) ++ "%")) ],
           200%Z)
  end.

Definition api_predict (get_json : result value) : (dict * Z) * list event :=
  match api_predict_try get_json with
  | (Ok response, t) => (response, t)
  | (Raise e, t) =>
      (([ ("error", VStr (exn_str e)); ("success", VBool false) ], 500%Z),
       (t ++ [EvLogError ("API prediction failed: " ++ format_exc e)])%list)
  end.

End Handlers.

End AppCorrected.

(* ================================================================= *)
(** ** scikit-learn: estimators as [main.py] constructs them *)

Module Sklearn.

(** An estimator object as its constructor call leaves it: the class and
    the parameters passed, nothing fitted. *)
Inductive estimator : Type :=
| SimpleImputer (strategy : string)
| StandardScaler
| OneHotEncoder (handle_unknown : string) (drop : string)
| LogisticRegression (max_iter : Z) (class_weight : string)
| Pipeline (steps : list (string * estimator))
| ColumnTransformer (transformers : list (string * estimator * list string)).

Definition is_classifier (e : estimator) : bool :=
  match e with
  | LogisticRegression _ _ => true
  | _ => false
  end.

(** Does the composite hold a classifier at any depth? *)
Fixpoint contains_classifier (e : estimator) : bool :=
  match e with
  | Pipeline steps =>
      (fix go (l : list (string * estimator)) : bool :=
         match l with
         | [] => false
         | (_, s) :: l' => contains_classifier s || go l'
         end) steps
  | ColumnTransformer transformers =>
      (fix go (l : list (string * estimator * list string)) : bool :=
         match l with
         | [] => false
         | (_, s, _) :: l' => contains_classifier s || go l'
         end) transformers
  | other => is_classifier other
  end.

(** The step of a pipeline with the given name. *)
Fixpoint named_step (steps : list (string * estimator)) (name : string)
  : option estimator :=
  match steps with
  | [] => None
  | (n, s) :: steps' => if String.eqb n name then Some s else named_step steps' name
  end.

End Sklearn.

(* ================================================================= *)
(** ** [main.py] *)

Module Main.

Import Sklearn.

Definition build_pipeline (num_attribs cat_attribs : list string) : estimator :=
  let num_pipeline :=
    Pipeline [ ("imputer", SimpleImputer "median");
               ("scaler", StandardScaler) ] in
  let cat_pipeline :=
    Pipeline [ ("imputer", SimpleImputer "most_frequent");
               ("onehot", OneHotEncoder "ignore" "first") ] in
  let preprocessor :=
    ColumnTransformer [ ("num", num_pipeline, num_attribs);
                        ("cat", cat_pipeline, cat_attribs) ] in
  preprocessor.

(** Lines 75-83: the training branch composes the classifier around what
    the builder returned. *)
Definition final_model (num_attribs cat_attribs : list string) : estimator :=
  let preprocessor := build_pipeline num_attribs cat_attribs in
  Pipeline [ ("preprocessing", preprocessor);
             ("classifier", LogisticRegression 1000 "balanced") ].

(** A cell of the [Churn] column as [read_csv] delivers it: the text of
    the field, or a missing value for an empty field. *)
Inductive cell : Type :=
| Text (s : string)
| NaN.

(** [series.map(mapping)]: each cell is looked up in the mapping; a cell
    that is not a key becomes a missing value; no row is added, dropped
    or moved.  A number of the result is [Some], a missing value [None]. *)
Definition Series_map (mapping : list (string * Z)) (series : list cell)
  : list (option Z) :=
  map (fun c =>
         match c with
         | Text s =>
             match find (fun kv => String.eqb (fst kv) s) mapping with
             | Some kv => Some (snd kv)
             | None => None
             end
         | NaN => None
         end) series.

(** Line 48: [churn_data["Churn"].map({"Yes": 1, "No": 0})] *)
Definition map_churn (churn : list cell) : list (option Z) :=
  Series_map [("Yes", 1%Z); ("No", 0%Z)] churn.

End Main.

(* ================================================================= *)
(** ** Notions the statements use *)

Module Request.

Definition EXPECTED_COLUMNS : list string := App.EXPECTED_COLUMNS.

(** The record a form handler validates: the submitted fields without
    the caller's identifier. *)
Definition form_record (form : Flask.MultiDict) : dict :=
  snd (dict_pop (Flask.to_dict form) "customerID").

(** The same for the parsed object of the JSON endpoint. *)
Definition json_record (body : dict) : dict :=
  snd (dict_pop body "customerID").

(** Do the names submitted cover every expected attribute? *)
Definition has_all_expected (names : list string) : bool :=
  forallb (fun col => existsb (String.eqb col) names) EXPECTED_COLUMNS.

(** The expected attributes that are not among the names submitted, in
    the order of [EXPECTED_COLUMNS]. *)
Definition missing_from (names : list string) : list string :=
  filter (fun col => negb (existsb (String.eqb col) names)) EXPECTED_COLUMNS.

(** The frame with exactly the expected columns, in their order, each
    with the value the record holds for it. *)
Definition expected_frame (record : dict) : DataFrame :=
  flat_map (fun c => match dict_get record c with
                     | Some v => [(c, v)]
                     | None => []
                     end) EXPECTED_COLUMNS.

(** What the artifact answers on a frame, when both operations return
    arrays that hold the entries the handlers read: the first predicted
    class and the second probability of the first row. *)
Definition artifact_answer (model : Artifact) (df : DataFrame)
  : option (Z * float) :=
  match model_predict model df, model_predict_proba model df with
  | Ok (prediction :: _), Ok ((_ :: probability :: _) :: _) =>
      Some (prediction, probability)
  | _, _ => None
  end.

(** The six steps from [model.predict] to [probability], which the three
    handlers share line for line. *)
Definition invoke (model : Artifact) (df : DataFrame) : M (Z * float) :=
  predictions <- call_predict model df ;;
  prediction <- lift (index predictions 0) ;;
  probabilities <- call_predict_proba model df ;;
  first_row <- lift (index probabilities 0) ;;
  probability <- lift (index first_row 1) ;;
  ret (prediction, probability).

Definition label (prediction : Z) : string :=
  if (prediction =? 1)%Z then "Yes" else "No".

(** A probability, as a float: [0 <= p <= 1]. *)
Definition is_probability (p : float) : bool :=
  ((0 <=? p) && (p <=? 1))%float.

(** The keys by which the rendering of [app.py] exceeds that of
    [app_corrected.py]. *)
Definition risk_keys : list string :=
  ["prob_percentage"; "risk_level"; "risk_message"].

Definition without_keys (keys : list string) (d : dict) : dict :=
  filter (fun kv => negb (existsb (String.eqb (fst kv)) keys)) d.

End Request.

Import Request.

(* ================================================================= *)
(** ** Sample inputs *)

Module Sample.

(** The end-to-end scenario of the specification. *)
Definition form : Flask.MultiDict :=
  [ ("customerID", "CUST001");
    ("gender", "Female"); ("SeniorCitizen", "0"); ("Partner", "No");
    ("Dependents", "No"); ("tenure", "1"); ("PhoneService", "No");
    ("MultipleLines", "No"); ("InternetService", "No");
    ("OnlineSecurity", "No"); ("OnlineBackup", "No");
    ("DeviceProtection", "No"); ("TechSupport", "No");
    ("StreamingTV", "No"); ("StreamingMovies", "No");
    ("Contract", "Month-to-month"); ("PaperlessBilling", "No");
    ("PaymentMethod", "Mailed check"); ("MonthlyCharges", "70.35");
    ("TotalCharges", "70.35") ].

(** The same fields in reverse order, with a field the service does not
    know and another identifier. *)
Definition shuffled_form : Flask.MultiDict :=
  (rev (tl form) ++ [("campaign", "spring"); ("customerID", "CUST002")])%list.

(** A submission without [tenure] and [Contract]. *)
Definition incomplete_form : Flask.MultiDict :=
  filter (fun kv => negb (String.eqb (fst kv) "tenure"
                      || String.eqb (fst kv) "Contract")) form.

Definition body : dict := Flask.to_dict form.
Definition shuffled_body : dict := Flask.to_dict shuffled_form.
Definition incomplete_body : dict := Flask.to_dict incomplete_form.

Definition format_exc (e : exn) : string :=
  "Traceback (most recent call last): ... " ++ exn_str e.

(** An artifact that answers class 0 with probability 0.4217. *)
Definition steady : Artifact :=
  mkArtifact (fun _ => Ok [0%Z]) (fun _ => Ok [[0.5783; 0.4217]%float]).

(** An artifact whose decision score is zero: the linear classifier
    predicts class 1 for a positive score only, and the logistic of zero
    is one half. *)
Definition on_the_boundary : Artifact :=
  mkArtifact (fun _ => Ok [0%Z]) (fun _ => Ok [[0.5; 0.5]%float]).

(** The sample submission with a tenure that is no number. *)
Definition malformed_form : Flask.MultiDict :=
  map (fun kv => if String.eqb (fst kv) "tenure" then (fst kv, "abc") else kv)
      form.

(** The [ValueError] of the median imputer for such a tenure; its message
    has two lines. *)
Definition imputer_error : exn :=
  mkExn ValueError
        ("Cannot use median strategy with non-numeric data:"
           ++ String "010" "could not convert string to float: 'abc'").

(** An artifact whose preprocessing cannot convert such a tenure and
    raises the [ValueError] of the median imputer; on any other frame it
    answers as [steady] does. *)
Definition rejecting : Artifact :=
  let unless_malformed {A : Type} (answer : A) (df : DataFrame) : result A :=
    match dict_get df "tenure" with
    | Some (VStr "abc") => Raise imputer_error
    | _ => Ok answer
    end in
  mkArtifact (unless_malformed [0%Z])
             (unless_malformed [[0.5783; 0.4217]%float]).

(** The [AttributeError] of an artifact pickled by another version of the
    library, which is no [ValueError]. *)
Definition unpickled_error : exn :=
  mkExn AttributeError
        "'SimpleImputer' object has no attribute '_fill_dtype'".

(** An artifact that fails with this exception on every frame. *)
Definition broken : Artifact :=
  mkArtifact (fun _ => Raise unpickled_error) (fun _ => Raise unpickled_error).

End Sample.


(* ================================================================= *)
(** ** What a successful request renders *)

Module Rendered.

(** The context of [app.py] for a prediction and a probability. *)
Definition by_app (customer_id : value) (data : dict)
           (prediction : Z) (probability : float) : dict :=
  let prob_percentage := (probability * 100)%float in
  [ ("churn", VStr (label prediction));
    ("probability", VStr (format_2f prob_percentage ++ "%"));
    ("prob_percentage", VFloat prob_percentage);
    ("risk_level", VStr (fst (App.risk prob_percentage)));
    ("risk_message", VStr (snd (App.risk prob_percentage)));
    ("customer_id", customer_id);
    ("data", VDict data);
    ("success", VBool true) ].

(** The context of [app_corrected.py]. *)
Definition by_corrected (customer_id : value) (data : dict)
           (prediction : Z) (probability : float) : dict :=
  [ ("churn", VStr (label prediction));
    ("probability", VStr (format_2f (probability * 100) ++ "%"));
    ("customer_id", customer_id);
    ("data", VDict data);
    ("success", VBool true) ].

(** The JSON object of [api_predict]. *)
Definition by_api (customer_id : value)
           (prediction : Z) (probability : float) : dict :=
  [ ("success", VBool true);
    ("customer_id", customer_id);
    ("churn_prediction", VStr (label prediction));
    ("churn_probability", VFloat probability);
    ("confidence", VStr (format_2f (probability * 100) ++ "%")) ].

(** The context of a failed form request, with the prefix of its message. *)
Definition failure (prefix : string) (e : exn) : dict :=
  [ ("error", VStr (prefix ++ exn_str e));
    ("data", VDict []);
    ("success", VBool false) ].

(** The error object of the JSON endpoint. *)
Definition api_error (message : string) : dict :=
  [ ("error", VStr message); ("success", VBool false) ].

Definition missing_error (names : list string) : exn :=
  mkExn ValueError
        ("Missing required columns: " ++ join ", " (missing_from names)).

(** The identifier a request carries, [None] when it carries none. *)
Definition customer_id (d : dict) : value := fst (dict_pop d "customerID").

End Rendered.

(* ================================================================= *)
(** ** The order of binary64 numbers *)

Module Binary64.

(** The place of a number on the line: the sign class first, then the
    exponent and the mantissa, both reversed for negative numbers. *)
Definition rank (x : spec_float) : Z * Z * Z :=
  match x with
  | S754_nan => (0, 0, 0)
  | S754_infinity true => (-2, 0, 0)
  | S754_infinity false => (2, 0, 0)
  | S754_zero _ => (0, 0, 0)
  | S754_finite true m e => (-1, - e, - Zpos m)
  | S754_finite false m e => (1, e, Zpos m)
  end%Z.

Definition rank_lt (a b : Z * Z * Z) : Prop :=
  let '(a1, a2, a3) := a in
  let '(b1, b2, b3) := b in
  (a1 < b1 \/ (a1 = b1 /\ (a2 < b2 \/ (a2 = b2 /\ a3 < b3))))%Z.

End Binary64.

Import Binary64.

(* ================================================================= *)
(** ** Traces *)

Module Trace.

(** The trace shows the artifact invoked on the given frame, [predict]
    first and [predict_proba], if at all, after it, and on no other. *)
Definition invoked_on (df : DataFrame) (t : list event) : Prop :=
  filter is_invocation t = [EvPredict df]
  \/ filter is_invocation t = [EvPredict df; EvPredictProba df].

(** The lines written to the server log. *)
Definition logged (t : list event) : list string :=
  flat_map (fun ev => match ev with
                      | EvLogError line => [line]
                      | _ => []
                      end) t.

End Trace.

Import Trace.

(* ================================================================= *)
(** ** Reading a submission *)

Module Submission.

(** The first value submitted under a name, if any. *)
Definition first_value (form : Flask.MultiDict) (k : string) : option string :=
  option_map snd (find (fun kv => String.eqb (fst kv) k) form).

(** The cell a form field becomes, and the identifier rendered. *)
Definition cell (field : option string) : option value := option_map VStr field.

Definition identifier (field : option value) : value :=
  match field with
  | Some v => v
  | None => VNone
  end.

(** The four tiers, in their order. *)
Definition tier_rank (tier : string) : nat :=
  if String.eqb tier "low" then 0
  else if String.eqb tier "medium" then 1
  else if String.eqb tier "high" then 2
  else 3.

Definition rank_le (a b : Z * Z * Z) : Prop :=
  rank_lt a b \/ a = b.

End Submission.

Import Submission.

(* ================================================================= *)
(** ** Artifacts at the edges *)

Module Edge.

(** An artifact that predicts for no row. *)
Definition no_rows : Artifact :=
  mkArtifact (fun _ => Ok []) (fun _ => Ok []).

(** An artifact whose probabilities have the column of one class only. *)
Definition one_class : Artifact :=
  mkArtifact (fun _ => Ok [1%Z]) (fun _ => Ok [[1]%float]).

(** An artifact whose probability is not a number. *)
Definition undefined : Artifact :=
  mkArtifact (fun _ => Ok [0%Z]) (fun _ => Ok [[nan; nan]%float]).

End Edge.

(* ================================================================= *)
(** ** Answers that are too short *)

Module Short.

(** Neither operation raises on the frame, but an array lacks the entry
    the handlers read: [predict] returned no entry, or [predict_proba]
    returned no row, or a first row with fewer than two entries. *)
Definition short_answer (model : Artifact) (df : DataFrame) : bool :=
  match model_predict model df with
  | Ok [] => true
  | Ok (_ :: _) =>
      match model_predict_proba model df with
      | Ok [] => true
      | Ok ((_ :: _ :: _) :: _) => false
      | Ok (_ :: _) => true
      | Raise _ => false
      end
  | Raise _ => false
  end.

End Short.

Import Short.

(* ================================================================= *)
(** ** pandas: a table with several rows *)

Module Frame.

(** The row count and the columns in their order, each with one cell per
    row. *)
Record Table : Type := mkTable {
  nrows : nat;
  table_columns : list (string * list value)
}.

Definition well_formed (df : Table) : bool :=
  forallb (fun c => Nat.eqb (List.length (snd c)) (nrows df)) (table_columns df).

Definition labels (df : Table) : list string := map fst (table_columns df).

(** [float("nan")], the missing value of pandas. *)
Definition NaN : value := VFloat nan.

(** [df[name]] read: the cells of the column, or [KeyError]. *)
Definition column (df : Table) (name : string) : result (list value) :=
  match find (fun c => String.eqb (fst c) name) (table_columns df) with
  | Some c => Ok (snd c)
  | None => Raise (mkExn KeyError (quote name))
  end.

(** The columns with the one named replaced where it stands, or added at
    the end. *)
Fixpoint set_column (cols : list (string * list value)) (name : string)
         (cells : list value) : list (string * list value) :=
  match cols with
  | [] => [(name, cells)]
  | (n, c) :: rest =>
      if String.eqb n name then (n, cells) :: rest
      else (n, c) :: set_column rest name cells
  end.

(** [df[name] = cells].  The cells must be as many as the rows; a table
    without rows takes the length of the cells instead, its other columns
    filled with missing values. *)
Definition setitem (df : Table) (name : string) (cells : list value)
  : result Table :=
  if Nat.eqb (List.length cells) (nrows df) then
    Ok (mkTable (nrows df) (set_column (table_columns df) name cells))
  else if Nat.eqb (nrows df) 0 then
    Ok (mkTable (List.length cells)
          (set_column
             (map (fun c => (fst c, repeat NaN (List.length cells)))
                  (table_columns df))
             name cells))
  else
    Raise (mkExn ValueError
             ("Length of values (" ++ decimal (N.of_nat (List.length cells))
                ++ ") does not match length of index ("
                ++ decimal (N.of_nat (nrows df)) ++ ")")).

(** [df.drop(names, axis=1)]: the table without the columns named, or
    [KeyError] when one of them is no column. *)
Definition drop (df : Table) (names : list string) : result Table :=
  match filter (fun n => negb (existsb (String.eqb n) (labels df))) names with
  | [] =>
      Ok (mkTable (nrows df)
            (filter (fun c => negb (existsb (String.eqb (fst c)) names))
                    (table_columns df)))
  | absent =>
      Raise (mkExn KeyError
               ("[" ++ join ", " (map quote absent) ++ "] not found in axis"))
  end.

(** [array[:, i]] on a two-dimensional array, given by its columns (so
    that an array without rows still has its width). *)
Definition take_column (i : nat) (array : list (list float))
  : result (list float) :=
  match nth_error array i with
  | Some cells => Ok cells
  | None =>
      Raise (mkExn IndexError
               ("index " ++ decimal (N.of_nat i)
                  ++ " is out of bounds for axis 1 with size "
                  ++ decimal (N.of_nat (List.length array))))
  end.

End Frame.

Import Frame.

(* ================================================================= *)
(** ** [main.py]: the two branches of the script *)

Module Script.

(** *** Lines 40-56: the training table *)

Definition then_ {A B : Type} (r : result A) (k : A -> result B) : result B :=
  match r with
  | Ok a => k a
  | Raise e => Raise e
  end.

Definition true_num_cols : list string :=
  ["SeniorCitizen"; "tenure"; "MonthlyCharges"; "TotalCharges"].

(** A cell of the [Churn] column as the label mapping sees it: only a
    string can be a key of the mapping. *)
Definition as_cell (v : value) : Main.cell :=
  match v with
  | VStr s => Main.Text s
  | _ => Main.NaN
  end.

Definition of_label (l : option Z) : value :=
  match l with
  | Some z => VInt z
  | None => NaN
  end.

Section Training.

(** [pd.to_numeric(series, errors="coerce")] *)
Variable to_numeric : list value -> list value.

(** Lines 44-45, the loop over [true_num_cols]. *)
Fixpoint convert (cols : list string) (churn_data : Table) : result Table :=
  match cols with
  | [] => Ok churn_data
  | c :: rest =>
      then_ (column churn_data c) (fun series =>
      then_ (setitem churn_data c (to_numeric series)) (fun churn_data =>
      convert rest churn_data))
  end.

(** From the table read to the features and the labels. *)
Definition prepare (churn_data : Table) : result (Table * list value) :=
  then_ (convert true_num_cols churn_data) (fun churn_data =>
  then_ (column churn_data "Churn") (fun churn =>
  then_ (setitem churn_data "Churn"
           (map of_label (Main.map_churn (map as_cell churn))))
        (fun churn_data =>
  then_ (drop churn_data ["Churn"; "customerID"]) (fun customer_features =>
  then_ (column churn_data "Churn") (fun churn_labels =>
  Ok (customer_features, churn_labels)))))).

End Training.

(** *** Lines 59-64: the stratified split *)

(** A label is missing. *)
Definition is_missing (v : value) : bool :=
  match v with
  | VFloat f => is_nan f
  | _ => false
  end.

Section Split.

(** The indices the splitter draws for labels it has accepted. *)
Variable draw : Table -> list value -> result (list nat * list nat).

(** [split.split(customer_features, churn_labels)]: scikit-learn validates
    the labels before it draws, and refuses a missing label with
    [ValueError]. *)
Definition split (customer_features : Table) (churn_labels : list value)
  : result (list nat * list nat) :=
  if existsb is_missing churn_labels
  then Raise (mkExn ValueError "Input y contains NaN.")
  else draw customer_features churn_labels.

(** Lines 40-69: from the table read to the features, the labels and the
    indices of the training and the test rows. *)
Definition training_sets (to_numeric : list value -> list value)
           (churn_data : Table)
  : result (Table * list value * (list nat * list nat)) :=
  then_ (prepare to_numeric churn_data) (fun prepared =>
  then_ (split (fst prepared) (snd prepared)) (fun indices =>
  Ok (fst prepared, snd prepared, indices))).

End Split.

(** *** Lines 94-114: batch inference *)

(** The artifact, invoked on a whole table: the classes, one per row, and
    the array of probabilities, one column per class. *)
Record BatchArtifact : Type := mkBatchArtifact {
  batch_predict : Table -> result (list Z);
  batch_predict_proba : Table -> result (list (list float))
}.

Inductive effect : Type :=
| Predicted (df : Table)
| ProbaPredicted (df : Table)
| WrittenCsv (path : string) (df : Table).

Definition W (A : Type) : Type := result A * list effect.

Definition pure {A : Type} (r : result A) : W A := (r, []).

Definition and_then {A B : Type} (m : W A) (k : A -> W B) : W B :=
  match m with
  | (Ok a, t) => let '(r, t') := k a in (r, (t ++ t')%list)
  | (Raise e, t) => (Raise e, t)
  end.

(** Lines 106-109: [.map({1: "Yes", 0: "No"})] on a cell of the prediction
    column, which is a class or a missing value. *)
Definition churn_label (v : value) : value :=
  match v with
  | VInt 1 => VStr "Yes"
  | VInt 0 => VStr "No"
  | _ => NaN
  end.

Definition OUTPUT_FILE : string := "test_customers_with_predictions.csv".

(** The [else] branch, from the table read from [test_customers.csv] to
    the table written. *)
Definition inference (model : BatchArtifact) (test_data : Table) : W Table :=
  and_then (batch_predict model test_data, [Predicted test_data])
    (fun churn_predictions =>
  and_then (batch_predict_proba model test_data, [ProbaPredicted test_data])
    (fun churn_probabilities =>
  and_then (pure (setitem test_data "Churn_Prediction"
                    (map VInt churn_predictions)))
    (fun test_data =>
  and_then (pure (take_column 1 churn_probabilities))
    (fun second_column =>
  and_then (pure (setitem test_data "Churn_Probability"
                    (map VFloat second_column)))
    (fun test_data =>
  and_then (pure (column test_data "Churn_Prediction"))
    (fun predictions =>
  and_then (pure (setitem test_data "Churn_Label"
                    (map churn_label predictions)))
    (fun test_data =>
  (Ok test_data, [WrittenCsv OUTPUT_FILE test_data])))))))).

(** The files a run has written. *)
Definition written (t : list effect) : list (string * Table) :=
  flat_map (fun ev => match ev with
                      | WrittenCsv path df => [(path, df)]
                      | _ => []
                      end) t.

Definition invocations (t : list effect) : list effect :=
  filter (fun ev => match ev with
                    | WrittenCsv _ _ => false
                    | _ => true
                    end) t.

(** A table of two customers and an artifact for it. *)
Definition two_customers : Table :=
  mkTable 2 [ ("customerID", [VStr "A"; VStr "B"]);
              ("tenure", [VInt 1; VInt 40]);
              ("Contract", [VStr "Month-to-month"; VStr "Two year"]) ].

Definition two_answers : BatchArtifact :=
  mkBatchArtifact (fun _ => Ok [1%Z; 0%Z])
                  (fun _ => Ok [[0.25; 0.875]%float; [0.75; 0.125]%float]).

(** An artifact with a third class. *)
Definition three_classes : BatchArtifact :=
  mkBatchArtifact (fun _ => Ok [2%Z; 0%Z])
                  (fun _ => Ok [[0.25; 0.5]%float; [0.25; 0.25]%float;
                                [0.5; 0.25]%float]).

(** An artifact fitted on customers of one class only. *)
Definition single_class : BatchArtifact :=
  mkBatchArtifact (fun _ => Ok [0%Z; 0%Z])
                  (fun _ => Ok [[1; 1]%float]).

(** A training table of three customers, and a coercion that leaves a
    column as it is. *)
Definition three_labelled : Table :=
  mkTable 3 [ ("customerID", [VStr "A"; VStr "B"; VStr "C"]);
              ("SeniorCitizen", [VInt 0; VInt 1; VInt 0]);
              ("Partner", [VStr "Yes"; VStr "No"; VStr "No"]);
              ("tenure", [VInt 1; VInt 40; VInt 7]);
              ("MonthlyCharges", [VFloat 70.35; VFloat 20.5; VFloat 99]);
              ("TotalCharges", [VFloat 70.35; VFloat 820; VFloat 693]);
              ("Churn", [VStr "Yes"; VStr "No"; VStr "no"]) ].

Definition as_read (series : list value) : list value := series.

(** A draw that takes every row for training. *)
Definition all_for_training (customer_features : Table)
           (churn_labels : list value) : result (list nat * list nat) :=
  Ok (seq 0 (nrows customer_features), []).

End Script.

(* ================================================================= *)
(** * Properties *)

(** ** Dictionaries and frames *)

Lemma existsb_eqb_In (c : string) (names : list string) :
  existsb (String.eqb c) names = true <-> In c names.
Proof.
  rewrite existsb_exists. split.
  - intros [x [Hin Heq]]. apply String.eqb_eq in Heq. now subst.
  - intros Hin. exists c. split; [assumption | apply String.eqb_refl].
Qed.

Lemma existsb_eqb_app (c : string) (xs ys : list string) :
  existsb (String.eqb c) (xs ++ ys)%list
  = existsb (String.eqb c) xs || existsb (String.eqb c) ys.
Proof. apply existsb_app. Qed.

Lemma dict_mem_has_column (d : dict) (k : string) :
  dict_mem d k = has_column d k.
Proof.
  unfold dict_mem, has_column, columns.
  induction d as [|[k' v] d IH]; simpl; [reflexivity|].
  rewrite IH, (String.eqb_sym k' k). reflexivity.
Qed.

Lemma to_dict_fold_columns (form : Flask.MultiDict) :
  forall (acc : dict) (k : string),
    has_column
      (fold_left
         (fun acc kv => if dict_mem acc (fst kv) then acc
                        else (acc ++ [(fst kv, VStr (snd kv))])%list)
         form acc) k
    = has_column acc k || existsb (String.eqb k) (map fst form).
Proof.
  induction form as [|[k' v] form IH]; intros acc k; simpl.
  - now rewrite orb_false_r.
  - rewrite IH. destruct (dict_mem acc k') eqn:Hmem.
    + rewrite dict_mem_has_column in Hmem.
      destruct (String.eqb k k') eqn:Hk; simpl; [|reflexivity].
      apply String.eqb_eq in Hk. subst. now rewrite Hmem.
    + unfold has_column, columns. rewrite map_app, existsb_eqb_app. simpl.
      now rewrite orb_false_r, orb_assoc.
Qed.

(** [to_dict] keeps exactly the names submitted. *)
Lemma to_dict_columns (form : Flask.MultiDict) (k : string) :
  has_column (Flask.to_dict form) k = existsb (String.eqb k) (map fst form).
Proof. unfold Flask.to_dict. now rewrite to_dict_fold_columns. Qed.

Lemma has_column_remove (d : dict) (k0 k : string) :
  k <> k0 -> has_column (dict_remove d k0) k = has_column d k.
Proof.
  intros Hne. unfold has_column, columns, dict_remove.
  induction d as [|[k' v] d IH]; simpl; [reflexivity|].
  destruct (String.eqb k' k0) eqn:Hk'; simpl.
  - apply String.eqb_eq in Hk'. subst.
    apply String.eqb_neq in Hne. now rewrite Hne.
  - now rewrite IH.
Qed.

Lemma dict_get_remove (d : dict) (k0 k : string) :
  k <> k0 -> dict_get (dict_remove d k0) k = dict_get d k.
Proof.
  intros Hne. unfold dict_remove.
  induction d as [|[k' v] d IH]; simpl; [reflexivity|].
  destruct (String.eqb k' k0) eqn:Hk'; simpl.
  - apply String.eqb_eq in Hk'. subst.
    assert (String.eqb k0 k = false) as -> by (apply String.eqb_neq; congruence).
    exact IH.
  - now rewrite IH.
Qed.

(** Popping the identifier leaves every other name and value alone. *)
Lemma has_column_pop (d : dict) (k0 k : string) :
  k <> k0 -> has_column (snd (dict_pop d k0)) k = has_column d k.
Proof.
  intros Hne. unfold dict_pop.
  destruct (dict_get d k0); simpl; [now apply has_column_remove | reflexivity].
Qed.

Lemma dict_get_pop (d : dict) (k0 k : string) :
  k <> k0 -> dict_get (snd (dict_pop d k0)) k = dict_get d k.
Proof.
  intros Hne. unfold dict_pop.
  destruct (dict_get d k0); simpl; [now apply dict_get_remove | reflexivity].
Qed.

Lemma has_column_dict_get (d : dict) (k : string) :
  has_column d k = true <-> dict_get d k <> None.
Proof.
  unfold has_column, columns.
  induction d as [|[k' v] d IH]; simpl.
  - split; [discriminate | congruence].
  - rewrite (String.eqb_sym k k'). destruct (String.eqb k' k); simpl.
    + split; [discriminate | reflexivity].
    + exact IH.
Qed.

(** The identifier is not an expected attribute. *)
Lemma expected_not_customerID (c : string) :
  In c EXPECTED_COLUMNS -> c <> "customerID".
Proof.
  intros Hin ->. apply existsb_eqb_In in Hin. vm_compute in Hin. discriminate.
Qed.

Lemma expected_columns_agree : AppCorrected.EXPECTED_COLUMNS = App.EXPECTED_COLUMNS.
Proof. reflexivity. Qed.

Lemma expected_columns_19 :
  List.length EXPECTED_COLUMNS = 19%nat /\ NoDup EXPECTED_COLUMNS.
Proof.
  split; [reflexivity|].
  unfold EXPECTED_COLUMNS, App.EXPECTED_COLUMNS.
  repeat (constructor; [simpl; intuition discriminate|]). constructor.
Qed.

(** What the validation of a handler computes, in terms of the names
    submitted. *)
Lemma missing_columns_form (form : Flask.MultiDict) :
  filter (fun col => negb (has_column (DataFrame_of_record (form_record form)) col))
         EXPECTED_COLUMNS
  = missing_from (map fst form).
Proof.
  unfold missing_from. apply filter_ext_in. intros c Hin.
  unfold DataFrame_of_record, form_record.
  rewrite has_column_pop by now apply expected_not_customerID.
  now rewrite to_dict_columns.
Qed.

Lemma missing_columns_json (body : dict) :
  filter (fun col => negb (has_column (DataFrame_of_record (json_record body)) col))
         EXPECTED_COLUMNS
  = missing_from (dict_keys body).
Proof.
  unfold missing_from. apply filter_ext_in. intros c Hin.
  unfold DataFrame_of_record, json_record.
  rewrite has_column_pop by now apply expected_not_customerID.
  reflexivity.
Qed.

Lemma missing_from_spec (names : list string) (c : string) :
  In c (missing_from names) <-> In c EXPECTED_COLUMNS /\ ~ In c names.
Proof.
  unfold missing_from. rewrite filter_In, negb_true_iff.
  rewrite <- (existsb_eqb_In c names), not_true_iff_false. reflexivity.
Qed.

Lemma missing_from_nil (names : list string) :
  missing_from names = [] <-> has_all_expected names = true.
Proof.
  unfold missing_from, has_all_expected.
  induction EXPECTED_COLUMNS as [|c cols IH]; simpl.
  - tauto.
  - destruct (existsb (String.eqb c) names); simpl.
    + exact IH.
    + split; discriminate.
Qed.

(** ** The monad of handlers *)

Lemma bind_assoc {A B C : Type} (m : M A) (f : A -> M B) (g : B -> M C) :
  bind (bind m f) g = bind m (fun x => bind (f x) g).
Proof.
  destruct m as [[a|e] t]; simpl; [|reflexivity].
  destruct (f a) as [[b|e] t']; simpl; [|reflexivity].
  destruct (g b) as [r t'']. now rewrite app_assoc.
Qed.

Lemma bind_lift_ok {A B : Type} (a : A) (k : A -> M B) :
  bind (lift (Ok a)) k = k a.
Proof. unfold bind, lift. now destruct (k a). Qed.

Lemma bind_ret_r {A : Type} (m : M A) : bind m ret = m.
Proof.
  destruct m as [[a|e] t]; simpl; [|reflexivity]. now rewrite app_nil_r.
Qed.

(** ** The invocation of the artifact *)

Lemma invoke_answer (model : Artifact) (df : DataFrame) (z : Z) (p : float) :
  artifact_answer model df = Some (z, p) ->
  invoke model df = (Ok (z, p), [EvPredict df; EvPredictProba df]).
Proof.
  unfold artifact_answer, invoke, call_predict, call_predict_proba.
  destruct (model_predict model df) as [[|z' preds]|e]; try discriminate.
  destruct (model_predict_proba model df) as [[|[|p0 [|p' row]] probs]|e];
    try discriminate.
  intros [= -> ->]. reflexivity.
Qed.

Lemma invoke_ok (model : Artifact) (df : DataFrame) (z : Z) (p : float)
      (t : list event) :
  invoke model df = (Ok (z, p), t) ->
  artifact_answer model df = Some (z, p) /\ t = [EvPredict df; EvPredictProba df].
Proof.
  unfold artifact_answer, invoke, call_predict, call_predict_proba.
  destruct (model_predict model df) as [[|z' preds]|e]; simpl; try discriminate.
  destruct (model_predict_proba model df) as [[|[|p0 [|p' row]] probs]|e];
    simpl; try discriminate.
  intros [= -> -> <-]. split; reflexivity.
Qed.

(** Whatever happens, the artifact is invoked on the given frame, once or
    twice, and nothing else is done. *)
Lemma invoke_events (model : Artifact) (df : DataFrame) :
  snd (invoke model df) = [EvPredict df]
  \/ snd (invoke model df) = [EvPredict df; EvPredictProba df].
Proof.
  unfold invoke, call_predict, call_predict_proba.
  destruct (model_predict model df) as [[|z' preds]|e]; simpl; auto.
  destruct (model_predict_proba model df) as [[|[|p0 [|p' row]] probs]|e];
    simpl; auto.
Qed.

Lemma getitem_expected (record : dict) :
  filter (fun col => negb (has_column (DataFrame_of_record record) col))
         EXPECTED_COLUMNS = [] ->
  getitem (DataFrame_of_record record) EXPECTED_COLUMNS
  = Ok (expected_frame record).
Proof. intros H. unfold getitem. rewrite H. reflexivity. Qed.

(** ** The three [try] blocks, read off the source *)

Ltac run_invocation model df :=
  unfold invoke, call_predict, call_predict_proba;
  destruct (model_predict model df) as [[|? ?]|?]; simpl; try reflexivity;
  destruct (model_predict_proba model df) as [[|[|? [|? ?]] ?]|?];
  simpl; try reflexivity.

Lemma App_predict_try_run (model : Artifact) (form : Flask.MultiDict) :
  App.predict_try model form =
  match missing_from (map fst form) with
  | _ :: _ => raise (Rendered.missing_error (map fst form))
  | [] =>
      bind (invoke model (expected_frame (form_record form)))
           (fun pp => ret (Rendered.by_app
                             (Rendered.customer_id (Flask.to_dict form))
                             (form_record form) (fst pp) (snd pp)))
  end.
Proof.
  unfold App.predict_try, Rendered.missing_error, Rendered.customer_id.
  pose proof (missing_columns_form form) as Hm.
  pose proof (getitem_expected (form_record form)) as Hg.
  unfold form_record in *.
  destruct (dict_pop (Flask.to_dict form) "customerID") as [cid data].
  simpl fst in *; simpl snd in *.
  change App.EXPECTED_COLUMNS with EXPECTED_COLUMNS.
  rewrite Hm in Hg |- *.
  destruct (missing_from (map fst form)) as [|c missing]; [|reflexivity].
  rewrite (Hg eq_refl), bind_lift_ok.
  run_invocation model (expected_frame data).
  unfold Rendered.by_app. simpl.
  now destruct (App.risk _).
Qed.

Lemma Corrected_predict_try_run (model : Artifact) (form : Flask.MultiDict) :
  AppCorrected.predict_try model form =
  match missing_from (map fst form) with
  | _ :: _ => raise (Rendered.missing_error (map fst form))
  | [] =>
      bind (invoke model (expected_frame (form_record form)))
           (fun pp => ret (Rendered.by_corrected
                             (Rendered.customer_id (Flask.to_dict form))
                             (form_record form) (fst pp) (snd pp)))
  end.
Proof.
  unfold AppCorrected.predict_try, Rendered.missing_error, Rendered.customer_id.
  pose proof (missing_columns_form form) as Hm.
  pose proof (getitem_expected (form_record form)) as Hg.
  unfold form_record in *.
  destruct (dict_pop (Flask.to_dict form) "customerID") as [cid data].
  simpl fst in *; simpl snd in *.
  change AppCorrected.EXPECTED_COLUMNS with EXPECTED_COLUMNS.
  rewrite Hm in Hg |- *.
  destruct (missing_from (map fst form)) as [|c missing]; [|reflexivity].
  rewrite (Hg eq_refl), bind_lift_ok.
  run_invocation model (expected_frame data).
Qed.

Lemma api_predict_try_run (model : Artifact) (body : dict) :
  AppCorrected.api_predict_try model (Ok (VDict body)) =
  match missing_from (dict_keys body) with
  | _ :: _ =>
      ret (Rendered.api_error
             ("Missing columns: " ++ join ", " (missing_from (dict_keys body))),
           400%Z)
  | [] =>
      bind (invoke model (expected_frame (json_record body)))
           (fun pp => ret (Rendered.by_api (Rendered.customer_id body)
                                           (fst pp) (snd pp), 200%Z))
  end.
Proof.
  unfold AppCorrected.api_predict_try, Rendered.customer_id, Py.pop.
  rewrite !bind_lift_ok.
  pose proof (missing_columns_json body) as Hm.
  pose proof (getitem_expected (json_record body)) as Hg.
  unfold json_record in *.
  destruct (dict_pop body "customerID") as [cid data].
  simpl fst in *; simpl snd in *.
  change AppCorrected.EXPECTED_COLUMNS with EXPECTED_COLUMNS.
  rewrite Hm in Hg |- *.
  destruct (missing_from (dict_keys body)) as [|c missing]; [|reflexivity].
  rewrite (Hg eq_refl), bind_lift_ok.
  run_invocation model (expected_frame data).
Qed.

(** ** Missing attributes *)

Lemma lacking_missing (names : list string) :
  (exists c, In c EXPECTED_COLUMNS /\ ~ In c names) ->
  exists c rest, missing_from names = c :: rest.
Proof.
  intros [c Hc]. apply missing_from_spec in Hc.
  destruct (missing_from names) as [|c' rest]; [contradiction|].
  now exists c', rest.
Qed.

(** C1.  A record that lacks at least one of the 19 expected attribute
    names is rejected with a structural validation error: the form handlers
    render [success=False] with the message ["Input Error: Missing required
    columns: ..."], the JSON endpoint answers status 400 with ["Missing
    columns: ..."] and [success=False]; the names listed are exactly the
    expected names that were not submitted, in the order of
    [EXPECTED_COLUMNS]; and the trace of the request is empty, so neither
    [predict] nor [predict_proba] of the artifact was invoked. *)
Theorem missing_columns_rejected :
  forall (model : Artifact) (format_exc : exn -> string)
         (form : Flask.MultiDict) (body : dict),
    (exists c, In c EXPECTED_COLUMNS /\ ~ In c (map fst form)) ->
    (exists c, In c EXPECTED_COLUMNS /\ ~ In c (dict_keys body)) ->
    let missing_form := missing_from (map fst form) in
    let missing_body := missing_from (dict_keys body) in
    (forall c, In c missing_form <->
               In c EXPECTED_COLUMNS /\ ~ In c (map fst form)) /\
    (forall c, In c missing_body <->
               In c EXPECTED_COLUMNS /\ ~ In c (dict_keys body)) /\
    App.predict model format_exc form =
      ([ ("error", VStr ("Input Error: Missing required columns: "
                           ++ join ", " missing_form));
         ("data", VDict []);
         ("success", VBool false) ], []) /\
    AppCorrected.predict model format_exc form =
      ([ ("error", VStr ("Input Error: Missing required columns: "
                           ++ join ", " missing_form));
         ("data", VDict []);
         ("success", VBool false) ], []) /\
    AppCorrected.api_predict model format_exc (Ok (VDict body)) =
      (([ ("error", VStr ("Missing columns: " ++ join ", " missing_body));
          ("success", VBool false) ], 400%Z), []).
Proof.
  intros model format_exc form body Hform Hbody missing_form missing_body.
  split; [intros c; apply missing_from_spec|].
  split; [intros c; apply missing_from_spec|].
  apply lacking_missing in Hform as [c [rest Hform]].
  apply lacking_missing in Hbody as [c' [rest' Hbody]].
  unfold App.predict, AppCorrected.predict, AppCorrected.api_predict.
  rewrite App_predict_try_run, Corrected_predict_try_run, api_predict_try_run.
  subst missing_form missing_body.
  unfold Rendered.missing_error.
  rewrite Hform, Hbody. repeat split.
Qed.

Lemma missing_columns_rejected_witness :
  App.predict Sample.steady Sample.format_exc Sample.incomplete_form =
    ([ ("error", VStr "Input Error: Missing required columns: tenure, Contract");
       ("data", VDict []);
       ("success", VBool false) ], [])
  /\ AppCorrected.api_predict Sample.steady Sample.format_exc
       (Ok (VDict Sample.incomplete_body)) =
    (([ ("error", VStr "Missing columns: tenure, Contract");
        ("success", VBool false) ], 400%Z), []).
Proof.
  assert (Hform : exists c, In c EXPECTED_COLUMNS
                            /\ ~ In c (map fst Sample.incomplete_form)).
  { exists "tenure". split.
    - apply existsb_eqb_In. reflexivity.
    - intros H. apply existsb_eqb_In in H. vm_compute in H. discriminate. }
  assert (Hbody : exists c, In c EXPECTED_COLUMNS
                            /\ ~ In c (dict_keys Sample.incomplete_body)).
  { exists "tenure". split.
    - apply existsb_eqb_In. reflexivity.
    - intros H. apply existsb_eqb_In in H. vm_compute in H. discriminate. }
  destruct (missing_columns_rejected Sample.steady Sample.format_exc
              Sample.incomplete_form Sample.incomplete_body Hform Hbody)
    as [_ [_ [Happ [_ Hapi]]]].
  split; [exact Happ | exact Hapi].
Defined.

(** ** Binary64 comparisons *)

Lemma SFcompare_antisym (a b : spec_float) (c : comparison) :
  SFcompare a b = Some c -> SFcompare b a = Some (CompOpp c).
Proof.
  destruct a as [sa|sa| |sa ma ea], b as [sb|sb| |sb mb eb]; simpl;
    try discriminate;
    try (intros [= <-]; destruct sa; try destruct sb; reflexivity);
    try (intros [= <-]; destruct sb; reflexivity).
  intros [= <-]. f_equal.
  rewrite (Z.compare_antisym ea eb).
  change (Pos.compare_cont Eq mb ma) with (Pos.compare mb ma).
  change (Pos.compare_cont Eq ma mb) with (Pos.compare ma mb).
  rewrite (Pos.compare_antisym ma mb).
  destruct sa, sb; simpl; try reflexivity;
    destruct (ea ?= eb)%Z; simpl; try reflexivity;
    destruct (ma ?= mb)%positive; reflexivity.
Qed.

Lemma SFcompare_some (a b : spec_float) :
  a <> S754_nan -> b <> S754_nan -> exists c, SFcompare a b = Some c.
Proof.
  destruct a, b; simpl; intros Ha Hb; try congruence; eauto.
Qed.

(** For numbers, [x < y] fails exactly when [y <= x]. *)
Lemma ltb_false_leb (x y : float) :
  is_nan x = false -> is_nan y = false ->
  (x <? y)%float = negb (y <=? x)%float.
Proof.
  unfold is_nan. intros Hx Hy. rewrite ltb_spec, leb_spec.
  unfold SFltb, SFleb.
  destruct (SFcompare_some (Prim2SF x) (Prim2SF y)) as [c Hc].
  - intros H. now rewrite H in Hx.
  - intros H. now rewrite H in Hy.
  - rewrite Hc, (SFcompare_antisym _ _ _ Hc). now destruct c.
Qed.

(** A comparison that holds has numbers on both sides. *)
Lemma ltb_true_not_nan (x y : float) :
  (x <? y)%float = true -> is_nan x = false.
Proof.
  unfold is_nan. rewrite ltb_spec. unfold SFltb.
  destruct (Prim2SF x); simpl; try reflexivity; discriminate.
Qed.

Lemma leb_true_not_nan (x y : float) :
  (x <=? y)%float = true -> is_nan y = false.
Proof.
  unfold is_nan. rewrite leb_spec. unfold SFleb.
  destruct (Prim2SF x), (Prim2SF y); simpl; try reflexivity; discriminate.
Qed.

(** ** Binary64 rounding: a probability times 100 is finite *)

#[local] Open Scope Z_scope.

Lemma digits2_pos_size (p : positive) : digits2_pos p = Pos.size p.
Proof. induction p; simpl; congruence. Qed.

Lemma Zdigits2_bound (m k : Z) :
  0 <= k -> 0 <= m < 2 ^ k -> Zdigits2 m <= k.
Proof.
  intros Hk [Hm0 Hm]. destruct m as [|p|p]; simpl; try lia.
  rewrite digits2_pos_size.
  destruct (Z_le_gt_dec (Zpos (Pos.size p)) k) as [|Hgt]; [assumption|].
  exfalso.
  pose proof (Pos.size_le p) as Hle.
  assert (H2 : 2 ^ (k + 1) <= 2 ^ Zpos (Pos.size p))
    by (apply Z.pow_le_mono_r; lia).
  rewrite Z.pow_add_r in H2 by lia.
  assert (H3 : 2 ^ Zpos (Pos.size p) <= 2 * Zpos p).
  { change 2 with (Zpos 2) at 1. rewrite <- Pos2Z.inj_pow.
    change (2 * Zpos p) with (Zpos p~0). apply Pos2Z.pos_le_pos. exact Hle. }
  lia.
Qed.

Lemma pos_lt_pow_digits (p : positive) : Zpos p < 2 ^ Zpos (digits2_pos p).
Proof.
  rewrite digits2_pos_size.
  pose proof (Pos.size_gt p) as H.
  change 2 with (Zpos 2). rewrite <- Pos2Z.inj_pow.
  apply Pos2Z.pos_lt_pos. exact H.
Qed.

Lemma shr_1_nonneg (r : shr_record) :
  0 <= shr_m r -> 0 <= shr_m (shr_1 r) <= shr_m r.
Proof.
  destruct r as [m b s]. simpl. destruct m as [|[p|p|]|p]; simpl; lia.
Qed.

Lemma iter_shr_1_nonneg (k : positive) :
  forall r, 0 <= shr_m r -> 0 <= shr_m (iter_pos shr_1 k r) <= shr_m r.
Proof.
  induction k as [k IH|k IH|]; intros r Hr; simpl.
  - pose proof (shr_1_nonneg r Hr) as H1.
    pose proof (IH (shr_1 r) (proj1 H1)) as H2.
    pose proof (IH _ (proj1 H2)) as H3. lia.
  - pose proof (IH r Hr) as H2.
    pose proof (IH _ (proj1 H2)) as H3. lia.
  - now apply shr_1_nonneg.
Qed.

Lemma shr_m_record_of_loc m l : shr_m (shr_record_of_loc m l) = m.
Proof. destruct l as [|[]]; reflexivity. Qed.

Lemma shr_fexp_bounds (m e : Z) (l : location) (k : Z) :
  0 <= k -> 0 <= m < 2 ^ k ->
  let '(r, e') := shr_fexp prec emax m e l in
  0 <= shr_m r <= m /\ e' <= Z.max e (Z.max (k + e - prec) (SpecFloat.emin prec emax)).
Proof.
  intros Hk Hm. unfold shr_fexp, shr.
  pose proof (Zdigits2_bound m k Hk Hm) as Hd.
  unfold SpecFloat.fexp.
  destruct (Z.max (Zdigits2 m + e - prec) (SpecFloat.emin prec emax) - e) as [|n|n] eqn:Hn.
  - rewrite shr_m_record_of_loc. lia.
  - pose proof (iter_shr_1_nonneg n (shr_record_of_loc m l)) as H.
    rewrite shr_m_record_of_loc in H. split; [apply H; lia|]. lia.
  - rewrite shr_m_record_of_loc. lia.
Qed.

Lemma round_nearest_even_bounds (m : Z) (l : location) :
  m <= round_nearest_even m l <= m + 1.
Proof.
  destruct l as [|[]]; simpl; try lia. destruct (Z.even m); lia.
Qed.

Lemma binary_round_aux_finite (sx : bool) (mx : positive) (ex k : Z) :
  0 <= k <= emax -> Zpos mx < 2 ^ k ->
  ex + 2 * k + 1 <= emax - prec ->
  SF_is_finite (binary_round_aux prec emax sx (Zpos mx) ex loc_Exact) = true.
Proof.
  intros [Hk Hk'] Hm He. unfold binary_round_aux.
  pose proof (shr_fexp_bounds (Zpos mx) ex loc_Exact k Hk) as H1.
  destruct (shr_fexp prec emax (Zpos mx) ex loc_Exact) as [r1 e1].
  destruct H1 as [Hr1 He1]; [lia|].
  pose proof (round_nearest_even_bounds (shr_m r1) (loc_of_shr_record r1)) as Hr.
  set (m1 := round_nearest_even (shr_m r1) (loc_of_shr_record r1)) in *.
  assert (Hpow : 2 ^ (k + 1) = 2 * 2 ^ k) by (rewrite Z.pow_add_r; lia).
  pose proof (shr_fexp_bounds m1 e1 loc_Exact (k + 1)) as H2.
  destruct (shr_fexp prec emax m1 e1 loc_Exact) as [r2 e2].
  destruct H2 as [Hr2 He2]; [lia|lia|].
  unfold SpecFloat.emin, prec, emax in *.
  destruct (shr_m r2) as [|q|q]; simpl; try reflexivity; [|lia].
  destruct (Z.leb_spec e2 971); [reflexivity|exfalso; lia].
Qed.

Definition is_finite (x : float) : bool :=
    match Prim2SF x with
    | S754_zero _ | S754_finite _ _ _ => true
    | _ => false
    end.
Definition is_probability (p : float) : bool :=
    ((0 <=? p) && (p <=? 1))%float.


Lemma SFleb_zero_l (x : spec_float) :
  SFleb (S754_zero false) x = true ->
  (exists s, x = S754_zero s) \/ x = S754_infinity false
  \/ (exists m e, x = S754_finite false m e).
Proof.
  destruct x as [s|s| |s m e]; unfold SFleb; simpl; try discriminate.
  - intros _. left. now exists s.
  - destruct s; [discriminate|]. intros _. right. now left.
  - destruct s; [discriminate|]. intros _. right. right. now exists m, e.
Qed.

Lemma SFleb_finite_exponent (m m' : positive) (e e' : Z) :
  SFleb (S754_finite false m e) (S754_finite false m' e') = true -> e <= e'.
Proof.
  unfold SFleb, SFcompare.
  destruct (Z.compare_spec e e'); lia.
Qed.

Lemma valid_mantissa (s : bool) (m : positive) (e : Z) :
  valid_binary (S754_finite s m e) = true -> Zpos m < 2 ^ 53.
Proof.
  unfold valid_binary, bounded, canonical_mantissa. intros Hv.
  apply andb_true_iff in Hv as [Hc _]. apply Z.eqb_eq in Hc.
  unfold SpecFloat.fexp in Hc.
  pose proof (pos_lt_pow_digits m) as Hm.
  assert (Hd : Zpos (digits2_pos m) <= 53) by (unfold prec in Hc; lia).
  eapply Z.lt_le_trans; [exact Hm|]. apply Z.pow_le_mono_r; lia.
Qed.

Lemma probability_shape (p : float) :
  is_probability p = true ->
  (exists s, Prim2SF p = S754_zero s)
  \/ (exists m e, Prim2SF p = S754_finite false m e
                  /\ Zpos m < 2 ^ 53 /\ e <= -52).
Proof.
  unfold is_probability. rewrite andb_true_iff, !leb_spec.
  assert (H0 : Prim2SF 0 = S754_zero false) by reflexivity.
  assert (H1 : Prim2SF 1 = S754_finite false 4503599627370496 (-52))
    by reflexivity.
  rewrite H0, H1. clear H0 H1.
  pose proof (Prim2SF_valid p) as Hv.
  intros [Hlo Hhi].
  destruct (SFleb_zero_l _ Hlo) as [[s Hs]|[Hs|[m [e Hs]]]]; rewrite Hs in *.
  - left. now exists s.
  - discriminate.
  - right. exists m, e. split; [reflexivity|]. split.
    + now apply (valid_mantissa false m e).
    + now apply (SFleb_finite_exponent m 4503599627370496).
Qed.

Lemma percentage_is_finite (p : float) :
  is_probability p = true -> is_finite (p * 100) = true.
Proof.
  intros Hp. unfold is_finite. rewrite mul_spec.
  assert (H100 : Prim2SF 100 = S754_finite false 7036874417766400 (-46))
    by reflexivity.
  rewrite H100. clear H100.
  destruct (probability_shape p Hp) as [[s ->]|[m [e [-> [Hm He]]]]].
  - reflexivity.
  - unfold SF64mul, SFmul.
    pose proof (binary_round_aux_finite (xorb false false)
                  (m * 7036874417766400) (e + -46) 106) as H.
    unfold SF_is_finite in H.
    assert (Hf : forall x, (match x with S754_zero _ | S754_finite _ _ _ => true
                                  | _ => false end) = true ->
                 match x with S754_zero _ => true | S754_infinity _ => false
                         | S754_nan => false | S754_finite _ _ _ => true end = true)
      by (intros []; auto).
    apply Hf, H.
    + unfold emax. lia.
    + rewrite Pos2Z.inj_mul.
      replace (2 ^ 106) with (2 ^ 53 * 2 ^ 53) by (rewrite <- Z.pow_add_r; reflexivity || lia).
      assert (7036874417766400 < 2 ^ 53) by reflexivity.
      apply Z.mul_lt_mono_nonneg; lia.
    + unfold emax, prec. lia.
Qed.

#[local] Close Scope Z_scope.

(** ** The [.2f] format *)

Lemma digit_not_point (c : ascii) :
  is_digit c = true -> Ascii.eqb c "." = false /\ Ascii.eqb c "-" = false.
Proof.
  intros H. split.
  - destruct (Ascii.eqb_spec c "."); [subst; discriminate | reflexivity].
  - destruct (Ascii.eqb_spec c "-"); [subst; discriminate | reflexivity].
Qed.

Lemma NilEmpty_all_digits (d : Decimal.uint) :
  all_digits (NilEmpty.string_of_uint d) = true.
Proof. induction d; simpl; auto. Qed.

Lemma decimal_digits (n : N) :
  all_digits (decimal n) = true /\ decimal n <> "".
Proof.
  unfold decimal, NilZero.string_of_uint.
  destruct (N.to_uint n) eqn:E; try (split; [apply NilEmpty_all_digits | simpl; discriminate]).
  split; [reflexivity | discriminate].
Qed.

Lemma unsigned_digits (ds rest : string) :
  all_digits ds = true ->
  forall seen, (seen = true \/ ds <> "") ->
  two_digits_percent rest = true ->
  unsigned_two_decimal_percent seen (ds ++ "." ++ rest) = true.
Proof.
  induction ds as [|c ds IH]; intros Hd seen Hseen Hrest.
  - destruct Hseen as [->|H]; [|congruence]. simpl. exact Hrest.
  - simpl in Hd. apply andb_true_iff in Hd as [Hc Hd].
    change ((String c ds) ++ "." ++ rest) with (String c (ds ++ "." ++ rest)).
    cbn [unsigned_two_decimal_percent].
    destruct (digit_not_point c Hc) as [-> _]. rewrite Hc. simpl.
    apply IH; auto.
Qed.

Lemma two_digits_below_100 (r : N) :
  (r < 100)%N -> two_digits_percent (two_digits r ++ "%") = true.
Proof.
  intros Hr.
  assert (Hall : forallb (fun k => two_digits_percent (two_digits (N.of_nat k) ++ "%"))
                   (seq 0 100) = true) by (vm_compute; reflexivity).
  rewrite forallb_forall in Hall.
  rewrite <- (N2Nat.id r). apply Hall. apply in_seq. lia.
Qed.

Lemma append_assoc (a b c : string) : (a ++ b) ++ c = a ++ (b ++ c).
Proof. induction a; simpl; congruence. Qed.

Lemma fixed2_shape (h : N) :
  unsigned_two_decimal_percent false (fixed2 h ++ "%") = true.
Proof.
  unfold fixed2. rewrite !append_assoc.
  destruct (decimal_digits (h / 100)) as [Hd Hne].
  apply unsigned_digits; auto.
  apply two_digits_below_100. apply N.mod_lt. discriminate.
Qed.

Lemma unsigned_starts_with_digit (s : string) :
  unsigned_two_decimal_percent false s = true ->
  two_decimal_percent s = true.
Proof.
  destruct s as [|c s]; [discriminate|].
  cbn [unsigned_two_decimal_percent two_decimal_percent].
  destruct (Ascii.eqb c ".") eqn:Hp; [discriminate|].
  intros H. pose proof H as H'. apply andb_true_iff in H' as [Hc _].
  destruct (digit_not_point c Hc) as [_ ->]. exact H.
Qed.

(** The [.2f] format of a finite number has at least one digit before the
    point and exactly two after it. *)
Lemma format_2f_finite (x : float) :
  is_finite x = true -> two_decimal_percent (format_2f x ++ "%") = true.
Proof.
  unfold is_finite, format_2f.
  destruct (Prim2SF x) as [s|s| |s m e]; try discriminate; intros _.
  - destruct s; reflexivity.
  - destruct s; unfold sign_str.
    + change ("-" ++ fixed2 (hundredths m e)) with (String "-" (fixed2 (hundredths m e))).
      change (String "-" (fixed2 (hundredths m e)) ++ "%")
        with (String "-" (fixed2 (hundredths m e) ++ "%")).
      cbn [two_decimal_percent]. apply fixed2_shape.
    + apply unsigned_starts_with_digit. apply fixed2_shape.
Qed.

(** ** The order of binary64 numbers is transitive *)

#[local] Open Scope Z_scope.

Lemma SFltb_rank (a b : spec_float) :
  SFltb a b = true <-> a <> S754_nan /\ b <> S754_nan /\ rank_lt (rank a) (rank b).
Proof.
  unfold SFltb, rank_lt.
  destruct a as [sa|sa| |sa ma ea], b as [sb|sb| |sb mb eb];
    try destruct sa; try destruct sb; cbn [SFcompare rank];
    try (split; [discriminate | intros (? & ? & ?); try congruence; lia]);
    try (split; [intros _; repeat split; try discriminate; lia | reflexivity]).
  - change (Pos.compare_cont Eq ma mb) with (Pos.compare ma mb).
    rewrite Pos2Z.inj_compare.
    destruct (Z.compare_spec ea eb), (Z.compare_spec (Zpos ma) (Zpos mb));
      cbn [CompOpp];
      (split; [try discriminate; intros _; repeat split; try discriminate; lia
              | try reflexivity; intros (? & ? & ?); lia]).
  - change (Pos.compare_cont Eq ma mb) with (Pos.compare ma mb).
    rewrite Pos2Z.inj_compare.
    destruct (Z.compare_spec ea eb), (Z.compare_spec (Zpos ma) (Zpos mb));
      (split; [try discriminate; intros _; repeat split; try discriminate; lia
              | try reflexivity; intros (? & ? & ?); lia]).
Qed.

Lemma SFltb_trans (a b c : spec_float) :
  SFltb a b = true -> SFltb b c = true -> SFltb a c = true.
Proof.
  rewrite !SFltb_rank. unfold rank_lt.
  intros (Ha & Hb & Hab) (_ & Hc & Hbc). repeat split; auto.
  destruct (rank a) as [[a1 a2] a3], (rank b) as [[b1 b2] b3],
           (rank c) as [[c1 c2] c3]. lia.
Qed.

Lemma ltb_trans (x y z : float) :
  (x <? y)%float = true -> (y <? z)%float = true -> (x <? z)%float = true.
Proof. rewrite !ltb_spec. apply SFltb_trans. Qed.

#[local] Close Scope Z_scope.

(** ** The risk tier *)

Lemma leb_negb_ltb (x c : float) :
  is_nan x = false -> is_nan c = false ->
  (c <=? x)%float = negb (x <? c)%float.
Proof.
  intros Hx Hc. rewrite (ltb_false_leb x c Hx Hc). now rewrite negb_involutive.
Qed.

(** The four tiers in terms of the percentage, for a percentage that is a
    number. *)
Lemma risk_rule (x : float) :
  is_nan x = false ->
  (fst (App.risk x) = "low" <-> (x <? 30)%float = true)
  /\ (fst (App.risk x) = "medium" <->
      (30 <=? x)%float = true /\ (x <? 50)%float = true)
  /\ (fst (App.risk x) = "high" <->
      (50 <=? x)%float = true /\ (x <? 70)%float = true)
  /\ (fst (App.risk x) = "very-high" <-> (70 <=? x)%float = true).
Proof.
  intros Hx.
  rewrite (leb_negb_ltb x 30 Hx eq_refl), (leb_negb_ltb x 50 Hx eq_refl),
          (leb_negb_ltb x 70 Hx eq_refl).
  assert (H35 : (x <? 30)%float = true -> (x <? 50)%float = true)
    by (intros H; apply (ltb_trans x 30 50 H); reflexivity).
  assert (H57 : (x <? 50)%float = true -> (x <? 70)%float = true)
    by (intros H; apply (ltb_trans x 50 70 H); reflexivity).
  unfold App.risk.
  destruct (x <? 30)%float, (x <? 50)%float, (x <? 70)%float; simpl;
    try (specialize (H35 eq_refl); discriminate);
    try (specialize (H57 eq_refl); discriminate);
    repeat split; try discriminate; try tauto; intros [? ?]; discriminate.
Qed.

Lemma probability_percentage_not_nan (p : float) :
  is_probability p = true -> is_nan (p * 100) = false.
Proof.
  intros Hp. pose proof (percentage_is_finite p Hp) as H.
  unfold is_finite, is_nan in *. now destruct (Prim2SF (p * 100)).
Qed.

Lemma App_predict_answer (model : Artifact) (format_exc : exn -> string)
      (form : Flask.MultiDict) (prediction : Z) (p : float) :
  has_all_expected (map fst form) = true ->
  artifact_answer model (expected_frame (form_record form)) = Some (prediction, p) ->
  App.predict model format_exc form =
    (Rendered.by_app (Rendered.customer_id (Flask.to_dict form))
                     (form_record form) prediction p,
     [ EvPredict (expected_frame (form_record form));
       EvPredictProba (expected_frame (form_record form)) ]).
Proof.
  intros Hall Hans. unfold App.predict. rewrite App_predict_try_run.
  apply missing_from_nil in Hall. rewrite Hall.
  rewrite (invoke_answer _ _ _ _ Hans). reflexivity.
Qed.

(** C2.  For a probability [p] returned by the artifact, [0 <= p <= 1],
    the form-rendering handler renders the risk level by the rule: "low"
    iff [p*100 < 30], "medium" iff [30 <= p*100 < 50], "high" iff
    [50 <= p*100 < 70], "very-high" iff [p*100 >= 70], the product and the
    comparisons being those of binary64; and the percentages 29.99, 30.00,
    49.99, 50.00, 69.99 and 70.00 (also as the products of 0.2999, 0.3,
    0.4999, 0.5, 0.6999 and 0.7 with 100) fall in "low", "medium",
    "medium", "high", "high" and "very-high". *)
Theorem risk_tier_by_probability :
  forall (model : Artifact) (format_exc : exn -> string)
         (form : Flask.MultiDict) (prediction : Z) (p : float),
    has_all_expected (map fst form) = true ->
    artifact_answer model (expected_frame (form_record form))
      = Some (prediction, p) ->
    is_probability p = true ->
    let x := (p * 100)%float in
    (exists tier,
        dict_get (fst (App.predict model format_exc form)) "risk_level"
          = Some (VStr tier)
        /\ (tier = "low" <-> (x <? 30)%float = true)
        /\ (tier = "medium" <->
            (30 <=? x)%float = true /\ (x <? 50)%float = true)
        /\ (tier = "high" <->
            (50 <=? x)%float = true /\ (x <? 70)%float = true)
        /\ (tier = "very-high" <-> (70 <=? x)%float = true))
    /\ map (fun percentage => fst (App.risk percentage))
           [29.99; 30.00; 49.99; 50.00; 69.99; 70.00]%float
       = ["low"; "medium"; "medium"; "high"; "high"; "very-high"]
    /\ map (fun probability => fst (App.risk (probability * 100)))
           [0.2999; 0.3; 0.4999; 0.5; 0.6999; 0.7]%float
       = ["low"; "medium"; "medium"; "high"; "high"; "very-high"].
Proof.
  intros model format_exc form prediction p Hall Hans Hp x.
  split; [|split; vm_compute; reflexivity].
  exists (fst (App.risk x)). split.
  - rewrite (App_predict_answer _ _ _ _ _ Hall Hans). reflexivity.
  - apply risk_rule. now apply probability_percentage_not_nan.
Qed.

Lemma risk_tier_by_probability_witness :
  dict_get (fst (App.predict Sample.steady Sample.format_exc Sample.form))
           "risk_level" = Some (VStr "medium")
  /\ (30 <=? 0.4217 * 100)%float = true
  /\ (0.4217 * 100 <? 50)%float = true.
Proof.
  destruct (risk_tier_by_probability Sample.steady Sample.format_exc
              Sample.form 0%Z 0.4217%float eq_refl eq_refl eq_refl)
    as [[tier [Htier [_ [Hmedium _]]]] _].
  assert (Hm : tier = "medium").
  { vm_compute in Htier. now injection Htier as <-. }
  subst tier. split; [exact Htier | exact (proj1 Hmedium eq_refl)].
Defined.

(** ** What the handlers return, case by case *)

Lemma Corrected_predict_answer (model : Artifact) (format_exc : exn -> string)
      (form : Flask.MultiDict) (prediction : Z) (p : float) :
  has_all_expected (map fst form) = true ->
  artifact_answer model (expected_frame (form_record form)) = Some (prediction, p) ->
  AppCorrected.predict model format_exc form =
    (Rendered.by_corrected (Rendered.customer_id (Flask.to_dict form))
                           (form_record form) prediction p,
     [ EvPredict (expected_frame (form_record form));
       EvPredictProba (expected_frame (form_record form)) ]).
Proof.
  intros Hall Hans. unfold AppCorrected.predict.
  rewrite Corrected_predict_try_run.
  apply missing_from_nil in Hall. rewrite Hall.
  rewrite (invoke_answer _ _ _ _ Hans). reflexivity.
Qed.

Lemma api_predict_answer (model : Artifact) (format_exc : exn -> string)
      (body : dict) (prediction : Z) (p : float) :
  has_all_expected (dict_keys body) = true ->
  artifact_answer model (expected_frame (json_record body)) = Some (prediction, p) ->
  AppCorrected.api_predict model format_exc (Ok (VDict body)) =
    ((Rendered.by_api (Rendered.customer_id body) prediction p, 200%Z),
     [ EvPredict (expected_frame (json_record body));
       EvPredictProba (expected_frame (json_record body)) ]).
Proof.
  intros Hall Hans. unfold AppCorrected.api_predict.
  rewrite api_predict_try_run.
  apply missing_from_nil in Hall. rewrite Hall.
  rewrite (invoke_answer _ _ _ _ Hans). reflexivity.
Qed.

(** A request that was handled with success had every expected attribute,
    and the artifact answered on the frame of exactly these. *)
Lemma App_predict_success (model : Artifact) (format_exc : exn -> string)
      (form : Flask.MultiDict) :
  dict_get (fst (App.predict model format_exc form)) "success"
    = Some (VBool true) ->
  exists prediction p,
    has_all_expected (map fst form) = true
    /\ artifact_answer model (expected_frame (form_record form))
       = Some (prediction, p).
Proof.
  unfold App.predict. rewrite App_predict_try_run.
  destruct (missing_from (map fst form)) eqn:Hmiss; [|discriminate].
  apply missing_from_nil in Hmiss.
  destruct (invoke model (expected_frame (form_record form)))
    as [[[z p]|e] t] eqn:Hinv; simpl.
  - intros _. exists z, p. split; [assumption|].
    now apply invoke_ok in Hinv.
  - destruct (is_ValueError e); discriminate.
Qed.

Lemma api_predict_success (model : Artifact) (format_exc : exn -> string)
      (get_json : result value) :
  dict_get (fst (fst (AppCorrected.api_predict model format_exc get_json)))
           "success" = Some (VBool true) ->
  exists body prediction p,
    get_json = Ok (VDict body)
    /\ has_all_expected (dict_keys body) = true
    /\ artifact_answer model (expected_frame (json_record body))
       = Some (prediction, p).
Proof.
  destruct get_json as [[| | | | | |body]|e]; try discriminate.
  unfold AppCorrected.api_predict. rewrite api_predict_try_run.
  destruct (missing_from (dict_keys body)) eqn:Hmiss; [|discriminate].
  apply missing_from_nil in Hmiss.
  destruct (invoke model (expected_frame (json_record body)))
    as [[[z p]|e] t] eqn:Hinv; simpl; [|discriminate].
  intros _. exists body, z, p. repeat split; try assumption.
  now apply invoke_ok in Hinv.
Qed.

(** ** The label and the probability *)

Lemma label_Yes (prediction : Z) : label prediction = "Yes" <-> prediction = 1%Z.
Proof.
  unfold label. destruct (Z.eqb_spec prediction 1); split; intros H;
    try assumption; try reflexivity; try discriminate; contradiction.
Qed.

Lemma label_No (prediction : Z) : label prediction = "No" <-> prediction <> 1%Z.
Proof.
  unfold label. destruct (Z.eqb_spec prediction 1); split; intros H;
    try assumption; try reflexivity; try discriminate; contradiction.
Qed.

(** C3, as stated, fails: an artifact whose decision score is zero
    predicts class 0 with probability one half, and the JSON endpoint
    answers the label "No" next to the probability 0.5. *)
Lemma label_follows_threshold_counterexample :
  ~ (forall (model : Artifact) (format_exc : exn -> string) (body : dict)
            (lbl : string) (p : float),
        let response :=
          fst (fst (AppCorrected.api_predict model format_exc (Ok (VDict body)))) in
        dict_get response "success" = Some (VBool true) ->
        dict_get response "churn_prediction" = Some (VStr lbl) ->
        dict_get response "churn_probability" = Some (VFloat p) ->
        (lbl = "Yes" <-> (0.5 <=? p)%float = true)).
Proof.
  intros H.
  specialize (H Sample.on_the_boundary Sample.format_exc Sample.body
                "No" 0.5%float eq_refl eq_refl eq_refl).
  destruct H as [_ H]. specialize (H eq_refl). discriminate.
Qed.

Lemma Corrected_predict_success (model : Artifact) (format_exc : exn -> string)
      (form : Flask.MultiDict) :
  dict_get (fst (AppCorrected.predict model format_exc form)) "success"
    = Some (VBool true) ->
  exists prediction p,
    has_all_expected (map fst form) = true
    /\ artifact_answer model (expected_frame (form_record form))
       = Some (prediction, p).
Proof.
  unfold AppCorrected.predict. rewrite Corrected_predict_try_run.
  destruct (missing_from (map fst form)) eqn:Hmiss; [|discriminate].
  apply missing_from_nil in Hmiss.
  destruct (invoke model (expected_frame (form_record form)))
    as [[[z p]|e] t] eqn:Hinv; simpl.
  - intros _. exists z, p. split; [assumption|].
    now apply invoke_ok in Hinv.
  - destruct (is_ValueError e); discriminate.
Qed.

(** C3, amended.  For every request handled with success, whichever of
    the two form handlers or the JSON endpoint handled it, the label
    returned is "Yes" exactly when the class the artifact predicted is 1,
    and "No" otherwise; the probability returned is the one the artifact
    gave, from a separate invocation, and no handler compares it with 0.5.
    So the label agrees with [probability >= 0.5] exactly when the
    artifact's predicted class does. *)
Theorem label_follows_predicted_class :
  forall (model : Artifact) (format_exc : exn -> string),
    (forall form : Flask.MultiDict,
        dict_get (fst (App.predict model format_exc form)) "success"
          = Some (VBool true) ->
        exists prediction p,
          artifact_answer model (expected_frame (form_record form))
            = Some (prediction, p)
          /\ dict_get (fst (App.predict model format_exc form)) "churn"
             = Some (VStr (label prediction))
          /\ dict_get (fst (App.predict model format_exc form))
                      "prob_percentage"
             = Some (VFloat (p * 100))
          /\ (label prediction = "Yes" <-> prediction = 1%Z)
          /\ (label prediction = "No" <-> prediction <> 1%Z)
          /\ ((label prediction = "Yes" <-> (0.5 <=? p)%float = true)
              <-> (prediction = 1%Z <-> (0.5 <=? p)%float = true)))
    /\ (forall form : Flask.MultiDict,
        dict_get (fst (AppCorrected.predict model format_exc form)) "success"
          = Some (VBool true) ->
        exists prediction p,
          artifact_answer model (expected_frame (form_record form))
            = Some (prediction, p)
          /\ dict_get (fst (AppCorrected.predict model format_exc form)) "churn"
             = Some (VStr (label prediction))
          /\ dict_get (fst (AppCorrected.predict model format_exc form))
                      "probability"
             = Some (VStr (format_2f (p * 100) ++ "%"))
          /\ (label prediction = "Yes" <-> prediction = 1%Z)
          /\ (label prediction = "No" <-> prediction <> 1%Z)
          /\ ((label prediction = "Yes" <-> (0.5 <=? p)%float = true)
              <-> (prediction = 1%Z <-> (0.5 <=? p)%float = true)))
    /\ (forall get_json : result value,
        dict_get (fst (fst (AppCorrected.api_predict model format_exc get_json)))
                 "success" = Some (VBool true) ->
        exists body prediction p,
          get_json = Ok (VDict body)
          /\ artifact_answer model (expected_frame (json_record body))
             = Some (prediction, p)
          /\ dict_get (fst (fst (AppCorrected.api_predict model format_exc
                                   get_json)))
                      "churn_prediction" = Some (VStr (label prediction))
          /\ dict_get (fst (fst (AppCorrected.api_predict model format_exc
                                   get_json)))
                      "churn_probability" = Some (VFloat p)
          /\ (label prediction = "Yes" <-> prediction = 1%Z)
          /\ (label prediction = "No" <-> prediction <> 1%Z)
          /\ ((label prediction = "Yes" <-> (0.5 <=? p)%float = true)
              <-> (prediction = 1%Z <-> (0.5 <=? p)%float = true))).
Proof.
  intros model format_exc. split; [|split].
  - intros form Hform.
    destruct (App_predict_success _ _ _ Hform) as [z [p [Hall Hans]]].
    exists z, p. rewrite (App_predict_answer _ _ _ _ _ Hall Hans).
    pose proof (label_Yes z). pose proof (label_No z).
    repeat split; try tauto.
  - intros form Hform.
    destruct (Corrected_predict_success _ _ _ Hform) as [z [p [Hall Hans]]].
    exists z, p. rewrite (Corrected_predict_answer _ _ _ _ _ Hall Hans).
    pose proof (label_Yes z). pose proof (label_No z).
    repeat split; try tauto.
  - intros get_json Hapi.
    destruct (api_predict_success _ _ _ Hapi) as [body [z [p [-> [Hall Hans]]]]].
    exists body, z, p. rewrite (api_predict_answer _ _ _ _ _ Hall Hans).
    pose proof (label_Yes z). pose proof (label_No z).
    repeat split; try tauto.
Qed.

Lemma label_follows_predicted_class_witness :
  dict_get (fst (App.predict Sample.on_the_boundary Sample.format_exc Sample.form))
           "churn" = Some (VStr "No")
  /\ dict_get (fst (AppCorrected.predict Sample.on_the_boundary
                      Sample.format_exc Sample.form))
              "churn" = Some (VStr "No")
  /\ dict_get (fst (fst (AppCorrected.api_predict Sample.on_the_boundary
                           Sample.format_exc (Ok (VDict Sample.body)))))
              "churn_probability" = Some (VFloat 0.5).
Proof.
  destruct (label_follows_predicted_class Sample.on_the_boundary
              Sample.format_exc) as [Happ [Hcorrected Hapi]].
  destruct (Happ Sample.form eq_refl) as [z [p [Hans [Hchurn _]]]].
  destruct (Hcorrected Sample.form eq_refl) as [z1 [p1 [Hans1 [Hchurn1 _]]]].
  destruct (Hapi (Ok (VDict Sample.body)) eq_refl)
    as [body [z' [p' [Hbody [Hans' [_ [Hprob _]]]]]]].
  split; [|split].
  - vm_compute in Hans. injection Hans as <- <-. exact Hchurn.
  - vm_compute in Hans1. injection Hans1 as <- <-. exact Hchurn1.
  - assert (Hb : Sample.body = body)
      by exact (f_equal (fun r => match r with
                                  | Ok (VDict d) => d
                                  | _ => []
                                  end) Hbody).
    subst body.
    vm_compute in Hans'. injection Hans' as <- <-. exact Hprob.
Defined.

(** ** Selection by name *)

Lemma flat_map_ext_in {A B : Type} (f g : A -> list B) (l : list A) :
  (forall a, In a l -> f a = g a) -> flat_map f l = flat_map g l.
Proof.
  induction l as [|a l IH]; intros H; simpl; [reflexivity|].
  rewrite (H a (or_introl eq_refl)), IH; [reflexivity|].
  intros b Hb. apply H. now right.
Qed.

(** Two records that hold the same value for every expected attribute give
    the same frame. *)
Lemma expected_frame_ext (r1 r2 : dict) :
  (forall c, In c EXPECTED_COLUMNS -> dict_get r1 c = dict_get r2 c) ->
  expected_frame r1 = expected_frame r2.
Proof.
  intros H. unfold expected_frame. apply flat_map_ext_in.
  intros c Hc. now rewrite (H c Hc).
Qed.

Lemma selected_columns (record : dict) (cols : list string) :
  (forall c, In c cols -> dict_get record c <> None) ->
  columns (flat_map (fun c => match dict_get record c with
                              | Some v => [(c, v)]
                              | None => []
                              end) cols) = cols.
Proof.
  unfold columns. induction cols as [|c cols IH]; intros H; simpl; [reflexivity|].
  rewrite map_app, IH by (intros c' Hc'; apply H; now right).
  specialize (H c (or_introl eq_refl)).
  destruct (dict_get record c); [reflexivity | contradiction].
Qed.

Lemma has_all_expected_spec (names : list string) :
  has_all_expected names = true <->
  forall c, In c EXPECTED_COLUMNS -> In c names.
Proof.
  unfold has_all_expected. rewrite forallb_forall.
  split; intros H c Hc; apply existsb_eqb_In; auto.
Qed.

(** The frame of a complete record has exactly the expected columns, in
    their order: whatever else was submitted is not in it. *)
Lemma expected_frame_columns (record : dict) :
  has_all_expected (dict_keys record) = true ->
  columns (expected_frame record) = EXPECTED_COLUMNS.
Proof.
  intros Hall. apply selected_columns. intros c Hc.
  apply has_column_dict_get. unfold has_column, columns.
  apply existsb_eqb_In. rewrite has_all_expected_spec in Hall. now apply Hall.
Qed.

Lemma form_record_get (form : Flask.MultiDict) (c : string) :
  In c EXPECTED_COLUMNS ->
  dict_get (form_record form) c = dict_get (Flask.to_dict form) c.
Proof.
  intros Hc. unfold form_record. apply dict_get_pop.
  now apply expected_not_customerID.
Qed.

Lemma json_record_get (body : dict) (c : string) :
  In c EXPECTED_COLUMNS -> dict_get (json_record body) c = dict_get body c.
Proof.
  intros Hc. unfold json_record. apply dict_get_pop.
  now apply expected_not_customerID.
Qed.

Lemma form_record_complete (form : Flask.MultiDict) :
  has_all_expected (map fst form) = true ->
  has_all_expected (dict_keys (form_record form)) = true.
Proof.
  rewrite !has_all_expected_spec. intros H c Hc.
  apply existsb_eqb_In.
  change (has_column (form_record form) c = true).
  unfold form_record. rewrite has_column_pop by now apply expected_not_customerID.
  rewrite to_dict_columns. apply existsb_eqb_In. now apply H.
Qed.

Lemma json_record_complete (body : dict) :
  has_all_expected (dict_keys body) = true ->
  has_all_expected (dict_keys (json_record body)) = true.
Proof.
  rewrite !has_all_expected_spec. intros H c Hc.
  apply existsb_eqb_In.
  change (has_column (json_record body) c = true).
  unfold json_record. rewrite has_column_pop by now apply expected_not_customerID.
  apply existsb_eqb_In. now apply H.
Qed.

(** Completeness passes from one record to another that holds the same
    values for the expected attributes. *)
Lemma complete_transfer (d1 d2 : dict) :
  has_all_expected (dict_keys d1) = true ->
  (forall c, In c EXPECTED_COLUMNS -> dict_get d1 c = dict_get d2 c) ->
  has_all_expected (dict_keys d2) = true.
Proof.
  rewrite !has_all_expected_spec. intros H Heq c Hc.
  apply existsb_eqb_In. change (has_column d2 c = true).
  apply has_column_dict_get. rewrite <- (Heq c Hc).
  apply has_column_dict_get. apply existsb_eqb_In. now apply H.
Qed.

Lemma to_dict_complete (form : Flask.MultiDict) :
  has_all_expected (dict_keys (Flask.to_dict form)) = has_all_expected (map fst form).
Proof.
  unfold has_all_expected.
  induction EXPECTED_COLUMNS as [|c cols IH]; simpl; [reflexivity|].
  rewrite IH. f_equal. exact (to_dict_columns form c).
Qed.

Ltac neq_key H :=
  match type of H with
  | ?k <> ?lit =>
      let E := fresh "E" in
      assert (E : String.eqb lit k = false)
        by (apply String.eqb_neq; congruence)
  end.

Lemma by_app_agree (id1 id2 : value) (d1 d2 : dict) (z : Z) (p : float)
      (k : string) :
  k <> "customer_id" -> k <> "data" ->
  dict_get (Rendered.by_app id1 d1 z p) k = dict_get (Rendered.by_app id2 d2 z p) k.
Proof.
  intros H1 H2. neq_key H1. neq_key H2.
  unfold Rendered.by_app. cbn [dict_get]. rewrite E, E0. reflexivity.
Qed.

Lemma by_api_agree (id1 id2 : value) (z : Z) (p : float) (k : string) :
  k <> "customer_id" ->
  dict_get (Rendered.by_api id1 z p) k = dict_get (Rendered.by_api id2 z p) k.
Proof.
  intros H1. neq_key H1.
  unfold Rendered.by_api. cbn [dict_get]. rewrite E. reflexivity.
Qed.


Lemma invoked_on_invoke (model : Artifact) (df : DataFrame) :
  invoked_on df (snd (invoke model df)).
Proof.
  unfold invoked_on.
  destruct (invoke_events model df) as [-> | ->]; simpl; auto.
Qed.

Lemma invoked_on_log (df : DataFrame) (t : list event) (line : string) :
  invoked_on df t -> invoked_on df (t ++ [EvLogError line]).
Proof.
  unfold invoked_on. rewrite filter_app. simpl. now rewrite app_nil_r.
Qed.

(** C5.  Two valid submissions that hold the same value for every expected
    attribute name, in whatever order and with whatever else besides, are
    handled alike: the handler selects exactly the expected attributes by
    name, in the order of [EXPECTED_COLUMNS], so the artifact is invoked on
    one and the same frame, whose columns are the expected ones and no
    other (what else was submitted is dropped by the selection, before the
    artifact sees it); and the two requests have the same trace and the
    same rendering or response but for the identifier and the input
    echoed: the same label, probability, percentage and risk tier. *)
Theorem submissions_with_same_attributes :
  forall (model : Artifact) (format_exc : exn -> string)
         (form1 form2 : Flask.MultiDict) (body1 body2 : dict),
    has_all_expected (map fst form1) = true ->
    (forall c, In c EXPECTED_COLUMNS ->
               dict_get (Flask.to_dict form1) c = dict_get (Flask.to_dict form2) c) ->
    has_all_expected (dict_keys body1) = true ->
    (forall c, In c EXPECTED_COLUMNS -> dict_get body1 c = dict_get body2 c) ->
    let form_frame := expected_frame (form_record form1) in
    let json_frame := expected_frame (json_record body1) in
    let rendered1 := App.predict model format_exc form1 in
    let rendered2 := App.predict model format_exc form2 in
    let answered1 := AppCorrected.api_predict model format_exc (Ok (VDict body1)) in
    let answered2 := AppCorrected.api_predict model format_exc (Ok (VDict body2)) in
    columns form_frame = EXPECTED_COLUMNS
    /\ columns json_frame = EXPECTED_COLUMNS
    /\ expected_frame (form_record form2) = form_frame
    /\ expected_frame (json_record body2) = json_frame
    /\ invoked_on form_frame (snd rendered1)
    /\ invoked_on json_frame (snd answered1)
    /\ snd rendered1 = snd rendered2
    /\ snd answered1 = snd answered2
    /\ (forall k, k <> "customer_id" -> k <> "data" ->
                  dict_get (fst rendered1) k = dict_get (fst rendered2) k)
    /\ snd (fst answered1) = snd (fst answered2)
    /\ (forall k, k <> "customer_id" ->
                  dict_get (fst (fst answered1)) k = dict_get (fst (fst answered2)) k).
Proof.
  intros model format_exc form1 form2 body1 body2 Hall1 Hsame1 Hall2 Hsame2.
  assert (Hall1' : has_all_expected (map fst form2) = true).
  { rewrite <- to_dict_complete in Hall1 |- *.
    now apply (complete_transfer (Flask.to_dict form1)). }
  assert (Hall2' : has_all_expected (dict_keys body2) = true)
    by now apply (complete_transfer body1).
  assert (Hf : expected_frame (form_record form2) = expected_frame (form_record form1)).
  { apply expected_frame_ext. intros c Hc.
    rewrite !form_record_get by assumption. symmetry. now apply Hsame1. }
  assert (Hj : expected_frame (json_record body2) = expected_frame (json_record body1)).
  { apply expected_frame_ext. intros c Hc.
    rewrite !json_record_get by assumption. symmetry. now apply Hsame2. }
  cbv zeta.
  split; [apply expected_frame_columns; now apply form_record_complete|].
  split; [apply expected_frame_columns; now apply json_record_complete|].
  split; [exact Hf|]. split; [exact Hj|].
  unfold App.predict, AppCorrected.api_predict.
  rewrite !App_predict_try_run, !api_predict_try_run, Hf, Hj.
  apply missing_from_nil in Hall1, Hall1', Hall2, Hall2'.
  rewrite Hall1, Hall1', Hall2, Hall2'.
  pose proof (invoked_on_invoke model (expected_frame (form_record form1))) as Hev1.
  pose proof (invoked_on_invoke model (expected_frame (json_record body1))) as Hev2.
  destruct (invoke model (expected_frame (form_record form1))) as [[[z p]|e] t];
    destruct (invoke model (expected_frame (json_record body1))) as [[[z' p']|e'] t'];
    cbn [bind ret fst snd] in *; rewrite ?app_nil_r;
    try destruct (is_ValueError e); cbn [fst snd];
    repeat split; auto using invoked_on_log, by_app_agree, by_api_agree.
Qed.

Lemma submissions_with_same_attributes_witness :
  expected_frame (form_record Sample.shuffled_form)
    = expected_frame (form_record Sample.form)
  /\ snd (App.predict Sample.steady Sample.format_exc Sample.form)
     = snd (App.predict Sample.steady Sample.format_exc Sample.shuffled_form)
  /\ dict_get (fst (App.predict Sample.steady Sample.format_exc Sample.form))
              "risk_level"
     = dict_get (fst (App.predict Sample.steady Sample.format_exc
                                  Sample.shuffled_form)) "risk_level"
  /\ dict_get (fst (fst (AppCorrected.api_predict Sample.steady Sample.format_exc
                           (Ok (VDict Sample.body))))) "churn_probability"
     = dict_get (fst (fst (AppCorrected.api_predict Sample.steady Sample.format_exc
                             (Ok (VDict Sample.shuffled_body)))))
                "churn_probability".
Proof.
  assert (Hform : forall c, In c EXPECTED_COLUMNS ->
            dict_get (Flask.to_dict Sample.form) c
            = dict_get (Flask.to_dict Sample.shuffled_form) c).
  { intros c Hc. unfold EXPECTED_COLUMNS, App.EXPECTED_COLUMNS in Hc.
    simpl in Hc.
    repeat (destruct Hc as [<-|Hc]; [vm_compute; reflexivity|]).
    contradiction. }
  assert (Hbody : forall c, In c EXPECTED_COLUMNS ->
            dict_get Sample.body c = dict_get Sample.shuffled_body c)
    by exact Hform.
  assert (Hall : has_all_expected (map fst Sample.form) = true)
    by (vm_compute; reflexivity).
  assert (Hall' : has_all_expected (dict_keys Sample.body) = true)
    by (vm_compute; reflexivity).
  destruct (submissions_with_same_attributes Sample.steady Sample.format_exc
              Sample.form Sample.shuffled_form Sample.body Sample.shuffled_body
              Hall Hform Hall' Hbody)
    as (_ & _ & Hframe & _ & _ & _ & Htrace & _ & Hkeys & _ & Hapi).
  split; [exact Hframe|]. split; [exact Htrace|]. split.
  - apply Hkeys; discriminate.
  - apply Hapi; discriminate.
Defined.

(** ** Failures *)

Lemma predict_try_raise_agree (model : Artifact) (form : Flask.MultiDict)
      (e : exn) (t : list event) :
  App.predict_try model form = (Raise e, t) <->
  AppCorrected.predict_try model form = (Raise e, t).
Proof.
  rewrite App_predict_try_run, Corrected_predict_try_run.
  destruct (missing_from (map fst form)); [|tauto].
  destruct (invoke model (expected_frame (form_record form))) as [[[z p]|e0] t0];
    simpl; split; intros H; try discriminate; exact H.
Qed.

(** An exception of the [try] block that is not a [ValueError] was raised
    after validation had passed. *)
Lemma raise_not_ValueError_complete (model : Artifact) (form : Flask.MultiDict)
      (e : exn) (t : list event) :
  App.predict_try model form = (Raise e, t) ->
  is_ValueError e = false ->
  has_all_expected (map fst form) = true.
Proof.
  rewrite App_predict_try_run. intros H He. apply missing_from_nil.
  destruct (missing_from (map fst form)); [reflexivity|].
  injection H as <- _. discriminate.
Qed.

(** What is rendered or answered does not depend on the stack trace. *)
Lemma response_ignores_traceback (model : Artifact)
      (format_exc format_exc' : exn -> string)
      (form : Flask.MultiDict) (get_json : result value) :
  fst (App.predict model format_exc form) = fst (App.predict model format_exc' form)
  /\ fst (AppCorrected.predict model format_exc form)
     = fst (AppCorrected.predict model format_exc' form)
  /\ fst (AppCorrected.api_predict model format_exc get_json)
     = fst (AppCorrected.api_predict model format_exc' get_json).
Proof.
  unfold App.predict, AppCorrected.predict, AppCorrected.api_predict.
  destruct (App.predict_try model form) as [[c|e] t];
    destruct (AppCorrected.predict_try model form) as [[c'|e'] t'];
    destruct (AppCorrected.api_predict_try model get_json) as [[r|e''] t''];
    try destruct (is_ValueError e); try destruct (is_ValueError e');
    repeat split.
Qed.

(** C6.  The claim fails on the code at a complete submission on which
    the artifact raises a [ValueError]: the sample form with the tenure
    [abc], and an artifact whose median imputer cannot convert it.
    Validation passes and the exception is raised by the invocation, yet
    both form handlers render it as an "Input Error", the message of a
    structural validation error, and log nothing; the JSON endpoint
    answers the same record with status 500 and logs the stack trace, and
    an exception of another class on the same path is rendered as "Error"
    and logged. *)
Theorem artifact_value_error_rendered_as_input_error :
  has_all_expected (map fst Sample.malformed_form) = true
  /\ App.predict_try Sample.rejecting Sample.malformed_form
     = (Raise Sample.imputer_error,
        [EvPredict (expected_frame (form_record Sample.malformed_form))])
  /\ fst (App.predict Sample.rejecting Sample.format_exc Sample.malformed_form)
     = Rendered.failure "Input Error: " Sample.imputer_error
  /\ logged (snd (App.predict Sample.rejecting Sample.format_exc
                              Sample.malformed_form)) = []
  /\ fst (AppCorrected.predict Sample.rejecting Sample.format_exc
                               Sample.malformed_form)
     = Rendered.failure "Input Error: " Sample.imputer_error
  /\ logged (snd (AppCorrected.predict Sample.rejecting Sample.format_exc
                                       Sample.malformed_form)) = []
  /\ fst (AppCorrected.api_predict Sample.rejecting Sample.format_exc
            (Ok (VDict (Flask.to_dict Sample.malformed_form))))
     = (Rendered.api_error (exn_str Sample.imputer_error), 500%Z)
  /\ logged (snd (AppCorrected.api_predict Sample.rejecting Sample.format_exc
                    (Ok (VDict (Flask.to_dict Sample.malformed_form)))))
     = ["API prediction failed: " ++ Sample.format_exc Sample.imputer_error]
  /\ fst (App.predict Sample.broken Sample.format_exc Sample.malformed_form)
     = Rendered.failure "Error: " Sample.unpickled_error
  /\ logged (snd (App.predict Sample.broken Sample.format_exc
                              Sample.malformed_form))
     = ["Prediction failed: " ++ Sample.format_exc Sample.unpickled_error].
Proof.
  repeat split; vm_compute; reflexivity.
Qed.

(** X17.  The handlers tell failures apart by the class of the exception
    alone.  An exception of the [try] block of a form handler that is not
    a [ValueError] was raised after validation had passed; it is rendered
    with [success=False] and the short message ["Error: " + str(e)]
    (["Prediction Error: " + str(e)] in the corrected variant), and the
    stack trace is written to the server log.  A [ValueError], whether it
    reports missing columns or was raised by the artifact, is rendered as
    ["Input Error: " + str(e)] and is not logged.  The JSON endpoint
    answers every exception with [str(e)], [success=False] and status 500,
    and logs the stack trace.  In no case does what is rendered or answered
    depend on the stack trace. *)
Theorem failures_by_exception_class :
  forall (model : Artifact) (format_exc : exn -> string),
    (forall (form : Flask.MultiDict) (e : exn) (t : list event),
        App.predict_try model form = (Raise e, t) ->
        (is_ValueError e = false ->
           has_all_expected (map fst form) = true
           /\ App.predict model format_exc form
              = ([ ("error", VStr ("Error: " ++ exn_str e));
                   ("data", VDict []);
                   ("success", VBool false) ],
                 (t ++ [EvLogError ("Prediction failed: " ++ format_exc e)])%list)
           /\ AppCorrected.predict model format_exc form
              = ([ ("error", VStr ("Prediction Error: " ++ exn_str e));
                   ("data", VDict []);
                   ("success", VBool false) ],
                 (t ++ [EvLogError ("Prediction failed: " ++ format_exc e)])%list))
        /\ (is_ValueError e = true ->
              App.predict model format_exc form
              = ([ ("error", VStr ("Input Error: " ++ exn_str e));
                   ("data", VDict []);
                   ("success", VBool false) ], t)
              /\ AppCorrected.predict model format_exc form
                 = App.predict model format_exc form
              /\ logged t = []))
    /\ (forall (get_json : result value) (e : exn) (t : list event),
           AppCorrected.api_predict_try model get_json = (Raise e, t) ->
           AppCorrected.api_predict model format_exc get_json
           = (([ ("error", VStr (exn_str e)); ("success", VBool false) ],
               500%Z),
              (t ++ [EvLogError ("API prediction failed: " ++ format_exc e)])%list))
    /\ (forall (form : Flask.MultiDict) (get_json : result value)
               (format_exc' : exn -> string),
          fst (App.predict model format_exc' form)
            = fst (App.predict model format_exc form)
          /\ fst (AppCorrected.predict model format_exc' form)
             = fst (AppCorrected.predict model format_exc form)
          /\ fst (AppCorrected.api_predict model format_exc' get_json)
             = fst (AppCorrected.api_predict model format_exc get_json)).
Proof.
  intros model format_exc. split; [|split].
  - intros form e t Hform.
    pose proof (proj1 (predict_try_raise_agree _ _ _ _) Hform) as Hcorr.
    split.
    + intros He.
      split; [now apply (raise_not_ValueError_complete model form e t)|].
      unfold App.predict, AppCorrected.predict.
      rewrite Hform, Hcorr, He. split; reflexivity.
    + intros He. unfold App.predict, AppCorrected.predict.
      rewrite Hform, Hcorr, He. repeat split.
      rewrite App_predict_try_run in Hform.
      destruct (missing_from (map fst form)).
      * pose proof (invoke_events model (expected_frame (form_record form)))
          as Hev.
        destruct (invoke model (expected_frame (form_record form)))
          as [[[z p]|e0] t0]; simpl in Hform; [discriminate|].
        injection Hform as _ <-. simpl in Hev. now destruct Hev as [-> | ->].
      * now injection Hform as _ <-.
  - intros get_json e t Hapi.
    unfold AppCorrected.api_predict. now rewrite Hapi.
  - intros form get_json format_exc'. apply response_ignores_traceback.
Qed.

Lemma failures_by_exception_class_witness :
  fst (App.predict Sample.broken Sample.format_exc Sample.form)
    = [ ("error",
         VStr "Error: 'SimpleImputer' object has no attribute '_fill_dtype'");
        ("data", VDict []);
        ("success", VBool false) ]
  /\ logged (snd (App.predict Sample.broken Sample.format_exc Sample.form))
     = ["Prediction failed: Traceback (most recent call last): ... 'SimpleImputer' object has no attribute '_fill_dtype'"]
  /\ fst (AppCorrected.api_predict Sample.broken Sample.format_exc (Ok VNone))
     = ([ ("error", VStr "'NoneType' object has no attribute 'pop'");
          ("success", VBool false) ], 500%Z).
Proof.
  assert (Hform : App.predict_try Sample.broken Sample.form
                  = (Raise Sample.unpickled_error,
                     [EvPredict (expected_frame (form_record Sample.form))]))
    by (vm_compute; reflexivity).
  assert (Hapi : AppCorrected.api_predict_try Sample.broken (Ok VNone)
                 = (Raise (mkExn AttributeError
                             "'NoneType' object has no attribute 'pop'"), []))
    by (vm_compute; reflexivity).
  destruct (failures_by_exception_class Sample.broken Sample.format_exc)
    as (Hforms & Hjson & _).
  destruct (Hforms Sample.form _ _ Hform) as (Hother & _).
  destruct (Hother eq_refl) as (_ & Happ & _).
  rewrite Happ, (Hjson (Ok VNone) _ _ Hapi). repeat split.
Defined.

(** ** The JSON endpoint *)

Lemma customer_id_echo (d : dict) :
  Rendered.customer_id d = match dict_get d "customerID" with
                           | Some v => v
                           | None => VNone
                           end.
Proof.
  unfold Rendered.customer_id, dict_pop. now destruct (dict_get d "customerID").
Qed.

(** Every answer of the endpoint is the object of a success with status
    200, or an error object with status 400 or 500. *)
Lemma api_predict_cases (model : Artifact) (format_exc : exn -> string)
      (get_json : result value) :
  (exists customer_id prediction p,
      fst (AppCorrected.api_predict model format_exc get_json)
      = (Rendered.by_api customer_id prediction p, 200%Z))
  \/ (exists message status,
         fst (AppCorrected.api_predict model format_exc get_json)
         = ([ ("error", VStr message); ("success", VBool false) ], status)
         /\ (status = 400%Z \/ status = 500%Z)).
Proof.
  unfold AppCorrected.api_predict.
  destruct get_json as [v|e].
  - destruct v as [| | | | | |body];
      try (right; eexists; exists 500%Z; split; [reflexivity | now right]).
    rewrite api_predict_try_run.
    destruct (missing_from (dict_keys body)).
    + destruct (invoke model (expected_frame (json_record body)))
        as [[[z p]|e] t]; simpl.
      * left. now exists (Rendered.customer_id body), z, p.
      * right. eexists; exists 500%Z; split; [reflexivity | now right].
    + right. eexists; exists 400%Z; split; [reflexivity | now left].
  - right. eexists; exists 500%Z; split; [reflexivity | now right].
Qed.

Lemma label_Yes_or_No (prediction : Z) :
  label prediction = "Yes" \/ label prediction = "No".
Proof. unfold label. destruct (prediction =? 1)%Z; auto. Qed.

(** C7.  A valid request to the JSON endpoint (an object that holds every
    expected attribute, on whose frame the artifact answers with a class
    and a probability [0 <= p <= 1]) is answered with status 200 and the
    object of exactly five fields: [success] true, the identifier of the
    caller ([None] when there was none), the label "Yes" or "No", the
    probability as the float the artifact gave, and the confidence, which
    is the percentage with exactly two decimal places.  And whatever the
    request, an answer that is not this object is an error object with a
    message, [success] false and status 400 or 500. *)
Theorem api_predict_response :
  forall (model : Artifact) (format_exc : exn -> string)
         (body : dict) (prediction : Z) (p : float),
    has_all_expected (dict_keys body) = true ->
    artifact_answer model (expected_frame (json_record body))
      = Some (prediction, p) ->
    is_probability p = true ->
    (exists customer_id lbl confidence,
        fst (AppCorrected.api_predict model format_exc (Ok (VDict body)))
        = ([ ("success", VBool true);
             ("customer_id", customer_id);
             ("churn_prediction", VStr lbl);
             ("churn_probability", VFloat p);
             ("confidence", VStr confidence) ], 200%Z)
        /\ customer_id = match dict_get body "customerID" with
                         | Some v => v
                         | None => VNone
                         end
        /\ (lbl = "Yes" \/ lbl = "No")
        /\ confidence = format_2f (p * 100) ++ "%"
        /\ two_decimal_percent confidence = true)
    /\ (forall get_json : result value,
           (exists customer_id prediction p,
               fst (AppCorrected.api_predict model format_exc get_json)
               = (Rendered.by_api customer_id prediction p, 200%Z))
           \/ (exists message status,
                  fst (AppCorrected.api_predict model format_exc get_json)
                  = ([ ("error", VStr message); ("success", VBool false) ], status)
                  /\ (status = 400%Z \/ status = 500%Z))).
Proof.
  intros model format_exc body prediction p Hall Hans Hp.
  split; [|intros get_json; apply api_predict_cases].
  exists (Rendered.customer_id body), (label prediction),
         (format_2f (p * 100) ++ "%").
  rewrite (api_predict_answer _ _ _ _ _ Hall Hans).
  split; [reflexivity|]. split; [apply customer_id_echo|].
  split; [apply label_Yes_or_No|]. split; [reflexivity|].
  apply format_2f_finite. now apply percentage_is_finite.
Qed.

Lemma api_predict_response_witness :
  fst (AppCorrected.api_predict Sample.steady Sample.format_exc
         (Ok (VDict Sample.body)))
  = ([ ("success", VBool true);
       ("customer_id", VStr "CUST001");
       ("churn_prediction", VStr "No");
       ("churn_probability", VFloat 0.4217);
       ("confidence", VStr "42.17%") ], 200%Z)
  /\ two_decimal_percent "42.17%" = true.
Proof.
  assert (Hall : has_all_expected (dict_keys Sample.body) = true)
    by (vm_compute; reflexivity).
  assert (Hans : artifact_answer Sample.steady
                   (expected_frame (json_record Sample.body))
                 = Some (0%Z, 0.4217%float)) by reflexivity.
  assert (Hp : is_probability 0.4217 = true) by reflexivity.
  destruct (api_predict_response Sample.steady Sample.format_exc Sample.body
              0%Z 0.4217%float Hall Hans Hp)
    as [(cid & lbl & conf & Hresp & _ & _ & Hconf & Htwo) _].
  split.
  - vm_compute. reflexivity.
  - subst conf. exact Htwo.
Defined.

(** ** The two variants of the form handler *)

Lemma by_corrected_without_risk (customer_id : value) (data : dict)
      (z : Z) (p : float) :
  without_keys risk_keys (Rendered.by_app customer_id data z p)
  = Rendered.by_corrected customer_id data z p.
Proof. reflexivity. Qed.

Lemma by_app_by_corrected_agree (customer_id : value) (data : dict)
      (z : Z) (p : float) (k : string) :
  ~ In k risk_keys ->
  dict_get (Rendered.by_app customer_id data z p) k
  = dict_get (Rendered.by_corrected customer_id data z p) k.
Proof.
  intros Hk.
  assert (E1 : String.eqb "prob_percentage" k = false)
    by (apply String.eqb_neq; intros <-; apply Hk; simpl; auto).
  assert (E2 : String.eqb "risk_level" k = false)
    by (apply String.eqb_neq; intros <-; apply Hk; simpl; auto).
  assert (E3 : String.eqb "risk_message" k = false)
    by (apply String.eqb_neq; intros <-; apply Hk; simpl; auto).
  unfold Rendered.by_app, Rendered.by_corrected. cbn [dict_get].
  now rewrite E1, E2, E3.
Qed.

Lemma failure_agree (prefix prefix' : string) (e : exn) (k : string) :
  k <> "error" ->
  dict_get (Rendered.failure prefix e) k = dict_get (Rendered.failure prefix' e) k.
Proof.
  intros Hk. neq_key Hk. unfold Rendered.failure. cbn [dict_get].
  now rewrite E.
Qed.

(** C9.  The predict handler of [app.py] and that of [app_corrected.py]
    leave the same trace on every form submission, and render the same
    context but for two things: [app.py] adds the percentage as a number,
    the risk level and the risk message; and a failure that is not a
    [ValueError] is reported as ["Error: ..."] by one and as
    ["Prediction Error: ..."] by the other.  In particular, a submission
    with the expected attributes gets the same churn label, the same
    probability and the same two-decimal percentage string from both, and
    a submission with missing columns gets the same "Input Error" from
    both. *)
Theorem form_handlers_agree :
  forall (model : Artifact) (format_exc : exn -> string) (form : Flask.MultiDict),
    let rendered := App.predict model format_exc form in
    let corrected := AppCorrected.predict model format_exc form in
    snd rendered = snd corrected
    /\ (forall k, k <> "error" -> ~ In k risk_keys ->
                  dict_get (fst rendered) k = dict_get (fst corrected) k)
    /\ (without_keys risk_keys (fst rendered) = fst corrected
        \/ exists e,
             is_ValueError e = false
             /\ has_all_expected (map fst form) = true
             /\ fst rendered = Rendered.failure "Error: " e
             /\ fst corrected = Rendered.failure "Prediction Error: " e)
    /\ (forall prediction p,
           has_all_expected (map fst form) = true ->
           artifact_answer model (expected_frame (form_record form))
             = Some (prediction, p) ->
           dict_get (fst rendered) "churn" = Some (VStr (label prediction))
           /\ dict_get (fst corrected) "churn" = Some (VStr (label prediction))
           /\ dict_get (fst rendered) "probability"
              = Some (VStr (format_2f (p * 100) ++ "%"))
           /\ dict_get (fst corrected) "probability"
              = Some (VStr (format_2f (p * 100) ++ "%"))
           /\ dict_get (fst rendered) "prob_percentage"
              = Some (VFloat (p * 100)))
    /\ (has_all_expected (map fst form) = false ->
        fst rendered = fst corrected
        /\ fst rendered
           = Rendered.failure "Input Error: "
                              (Rendered.missing_error (map fst form))).
Proof.
  intros model format_exc form. cbv zeta.
  repeat apply conj.
  - unfold App.predict, AppCorrected.predict.
    rewrite App_predict_try_run, Corrected_predict_try_run.
    destruct (missing_from (map fst form)); [|reflexivity].
    destruct (invoke model _) as [[[z p]|e] t]; simpl; [reflexivity|].
    now destruct (is_ValueError e).
  - intros k Hk Hrisk. unfold App.predict, AppCorrected.predict.
    rewrite App_predict_try_run, Corrected_predict_try_run.
    destruct (missing_from (map fst form)); [|reflexivity].
    destruct (invoke model _) as [[[z p]|e] t]; simpl.
    + now apply by_app_by_corrected_agree.
    + destruct (is_ValueError e); [reflexivity|].
      now apply (failure_agree "Error: " "Prediction Error: ").
  - unfold App.predict, AppCorrected.predict.
    rewrite App_predict_try_run, Corrected_predict_try_run.
    destruct (missing_from (map fst form)) eqn:Hmiss; [|now left].
    apply missing_from_nil in Hmiss.
    destruct (invoke model _) as [[[z p]|e] t]; simpl; [now left|].
    destruct (is_ValueError e) eqn:He; [now left|].
    right. now exists e.
  - intros prediction p Hall Hans.
    rewrite (App_predict_answer _ _ _ _ _ Hall Hans),
            (Corrected_predict_answer _ _ _ _ _ Hall Hans).
    repeat split.
  - intros Hall. unfold App.predict, AppCorrected.predict.
    rewrite App_predict_try_run, Corrected_predict_try_run.
    destruct (missing_from (map fst form)) eqn:Hmiss.
    + apply missing_from_nil in Hmiss. congruence.
    + split; reflexivity.
Qed.

Lemma form_handlers_agree_witness :
  dict_get (fst (App.predict Sample.steady Sample.format_exc Sample.form))
           "probability" = Some (VStr "42.17%")
  /\ dict_get (fst (AppCorrected.predict Sample.steady Sample.format_exc
                      Sample.form)) "probability" = Some (VStr "42.17%")
  /\ fst (App.predict Sample.steady Sample.format_exc Sample.incomplete_form)
     = fst (AppCorrected.predict Sample.steady Sample.format_exc
              Sample.incomplete_form).
Proof.
  destruct (form_handlers_agree Sample.steady Sample.format_exc Sample.form)
    as (_ & _ & _ & Hsame & _).
  destruct (Hsame 0%Z 0.4217%float ltac:(vm_compute; reflexivity) eq_refl)
    as (_ & _ & Happ & Hcorr & _).
  destruct (form_handlers_agree Sample.steady Sample.format_exc
              Sample.incomplete_form) as (_ & _ & _ & _ & Hmissing).
  destruct (Hmissing ltac:(vm_compute; reflexivity)) as [Heq _].
  split; [exact Happ|]. split; [exact Hcorr | exact Heq].
Defined.

(** ** The pipeline builder *)

Import Sklearn.

(** C8, as stated, fails: what [build_pipeline] returns holds no
    classifier. *)
Lemma build_pipeline_counterexample :
  ~ (forall num_attribs cat_attribs : list string,
        contains_classifier (Main.build_pipeline num_attribs cat_attribs) = true).
Proof. intros H. specialize (H ["tenure"] ["Contract"]). discriminate H. Qed.

(** C8, amended.  The builder is a function of the two lists of names: it
    returns the column transformer that sends the numeric attributes
    through median imputation and standard scaling and the categorical
    attributes through most-frequent imputation and one-hot encoding with
    unknown values ignored and the first category dropped.  It returns no
    classifier: the training branch puts what the builder returned as the
    step "preprocessing" before the step "classifier", a logistic
    regression with balanced class weights and at most 1000 iterations. *)
Theorem build_pipeline_is_the_preprocessor :
  forall num_attribs cat_attribs : list string,
    Main.build_pipeline num_attribs cat_attribs
    = ColumnTransformer
        [ ("num",
           Pipeline [ ("imputer", SimpleImputer "median");
                      ("scaler", StandardScaler) ],
           num_attribs);
          ("cat",
           Pipeline [ ("imputer", SimpleImputer "most_frequent");
                      ("onehot", OneHotEncoder "ignore" "first") ],
           cat_attribs) ]
    /\ contains_classifier (Main.build_pipeline num_attribs cat_attribs) = false
    /\ (exists steps,
           Main.final_model num_attribs cat_attribs = Pipeline steps
           /\ named_step steps "preprocessing"
              = Some (Main.build_pipeline num_attribs cat_attribs)
           /\ named_step steps "classifier"
              = Some (LogisticRegression 1000 "balanced")
           /\ List.length steps = 2%nat)
    /\ contains_classifier (Main.final_model num_attribs cat_attribs) = true.
Proof.
  intros num_attribs cat_attribs.
  split; [reflexivity|]. split; [reflexivity|]. split; [|reflexivity].
  eexists. split; [reflexivity|]. repeat split.
Qed.

(** ** The label mapping *)

Lemma map_churn_cell (c : Main.cell) :
  match c with
  | Main.Text s =>
      match find (fun kv => String.eqb (fst kv) s) [("Yes", 1%Z); ("No", 0%Z)] with
      | Some kv => Some (snd kv)
      | None => None
      end
  | Main.NaN => None
  end
  = match c with
    | Main.Text s => if String.eqb s "Yes" then Some 1%Z
                     else if String.eqb s "No" then Some 0%Z
                     else None
    | Main.NaN => None
    end.
Proof.
  destruct c as [s|]; [|reflexivity].
  cbn [find fst snd].
  rewrite (String.eqb_sym "Yes" s), (String.eqb_sym "No" s).
  destruct (String.eqb s "Yes"); [reflexivity|].
  now destruct (String.eqb s "No").
Qed.

(** C10, amended.  The label mapping of the training branch is total and
    keeps every row in its place: the cell "Yes" becomes 1, the cell "No"
    becomes 0, and every other cell (another capitalisation, a value with
    spaces around it, any other text, an absent value) becomes a missing
    value, without an error at the mapping step. *)
Theorem map_churn_labels :
  forall (churn : list Main.cell),
    List.length (Main.map_churn churn) = List.length churn
    /\ (forall (i : nat) (c : Main.cell),
           nth_error churn i = Some c ->
           nth_error (Main.map_churn churn) i
           = Some match c with
                  | Main.Text s => if String.eqb s "Yes" then Some 1%Z
                                   else if String.eqb s "No" then Some 0%Z
                                   else None
                  | Main.NaN => None
                  end)
    /\ Main.map_churn
         [ Main.Text "Yes"; Main.Text "No"; Main.Text "yes"; Main.Text "YES";
           Main.Text " Yes"; Main.Text "No "; Main.Text ""; Main.Text "1";
           Main.NaN ]
       = [ Some 1%Z; Some 0%Z; None; None; None; None; None; None; None ].
Proof.
  intros churn. split; [|split; [|reflexivity]].
  - unfold Main.map_churn, Main.Series_map. apply length_map.
  - intros i c Hi.
    unfold Main.map_churn, Main.Series_map.
    rewrite nth_error_map, Hi. cbn [option_map].
    f_equal. apply map_churn_cell.
Qed.

(* ================================================================= *)
(** * Further properties of the handlers *)

(** ** What [to_dict] keeps *)

Lemma dict_get_app (d d' : dict) (k : string) :
  dict_get (d ++ d')%list k = match dict_get d k with
                              | Some v => Some v
                              | None => dict_get d' k
                              end.
Proof.
  induction d as [|[k' v] d IH]; simpl; [reflexivity|].
  now destruct (String.eqb k' k).
Qed.

Lemma dict_get_None_mem (d : dict) (k : string) :
  dict_get d k = None <-> dict_mem d k = false.
Proof.
  rewrite dict_mem_has_column, <- not_true_iff_false, has_column_dict_get.
  destruct (dict_get d k); split; intros H; try congruence.
  exfalso. apply H. discriminate.
Qed.

Lemma to_dict_fold_get (form : Flask.MultiDict) :
  forall (acc : dict) (k : string),
    dict_get
      (fold_left
         (fun acc kv => if dict_mem acc (fst kv) then acc
                        else (acc ++ [(fst kv, VStr (snd kv))])%list)
         form acc) k
    = match dict_get acc k with
      | Some v => Some v
      | None => cell (first_value form k)
      end.
Proof.
  unfold cell, first_value.
  induction form as [|[k' v] form IH]; intros acc k; cbn [fold_left find fst snd].
  - now destruct (dict_get acc k).
  - rewrite IH. destruct (dict_mem acc k') eqn:Hmem.
    + destruct (dict_get acc k) eqn:Hget; [reflexivity|].
      destruct (String.eqb_spec k' k) as [->|Hne]; [|reflexivity].
      apply dict_get_None_mem in Hget. congruence.
    + rewrite dict_get_app. destruct (dict_get acc k) eqn:Hget; [reflexivity|].
      cbn [dict_get]. now destruct (String.eqb k' k).
Qed.

(** [to_dict] holds, under each name, the first value submitted for it. *)
Lemma to_dict_get (form : Flask.MultiDict) (k : string) :
  dict_get (Flask.to_dict form) k = cell (first_value form k).
Proof. unfold Flask.to_dict. now rewrite to_dict_fold_get. Qed.

Lemma to_dict_fold_app (form form' : Flask.MultiDict) (acc : dict) :
  fold_left
    (fun acc kv => if dict_mem acc (fst kv) then acc
                   else (acc ++ [(fst kv, VStr (snd kv))])%list)
    (form ++ form')%list acc
  = fold_left
      (fun acc kv => if dict_mem acc (fst kv) then acc
                     else (acc ++ [(fst kv, VStr (snd kv))])%list)
      form'
      (fold_left
         (fun acc kv => if dict_mem acc (fst kv) then acc
                        else (acc ++ [(fst kv, VStr (snd kv))])%list)
         form acc).
Proof. apply fold_left_app. Qed.

(** A field under a name that was submitted before is ignored. *)
Lemma to_dict_repeated (before after : Flask.MultiDict) (k v : string) :
  In k (map fst before) ->
  Flask.to_dict (before ++ (k, v) :: after)%list
  = Flask.to_dict (before ++ after)%list.
Proof.
  intros Hin. unfold Flask.to_dict. rewrite !to_dict_fold_app.
  cbn [fold_left fst snd].
  rewrite dict_mem_has_column, to_dict_fold_columns.
  apply existsb_eqb_In in Hin. rewrite Hin. reflexivity.
Qed.

Lemma to_dict_fold_keys (form : Flask.MultiDict) :
  forall acc : dict,
    NoDup (dict_keys acc) ->
    NoDup (dict_keys
             (fold_left
                (fun acc kv => if dict_mem acc (fst kv) then acc
                               else (acc ++ [(fst kv, VStr (snd kv))])%list)
                form acc)).
Proof.
  induction form as [|[k v] form IH]; intros acc Hacc; cbn [fold_left fst snd];
    [assumption|].
  apply IH. destruct (dict_mem acc k) eqn:Hmem; [assumption|].
  unfold dict_keys. rewrite map_app. cbn [map fst].
  apply NoDup_app; [assumption | repeat constructor; intros [] |].
  intros x Hx [<-|[]].
  rewrite dict_mem_has_column in Hmem.
  apply existsb_eqb_In in Hx. unfold has_column, columns in Hmem. congruence.
Qed.

(** A dictionary has each key once. *)
Lemma to_dict_keys_unique (form : Flask.MultiDict) :
  NoDup (dict_keys (Flask.to_dict form)).
Proof. apply to_dict_fold_keys. constructor. Qed.

(** ** What the artifact is given *)

Lemma selected_get (record : dict) (c : string) (cols : list string) :
  dict_get (flat_map (fun c => match dict_get record c with
                               | Some v => [(c, v)]
                               | None => []
                               end) cols) c
  = if existsb (String.eqb c) cols then dict_get record c else None.
Proof.
  induction cols as [|a cols IH]; [reflexivity|].
  cbn [flat_map existsb]. rewrite dict_get_app, IH.
  destruct (String.eqb_spec c a) as [<-|Hne]; cbn [orb].
  - destruct (dict_get record c) eqn:Hc; cbn [dict_get].
    + now rewrite String.eqb_refl.
    + now destruct (existsb (String.eqb c) cols).
  - destruct (dict_get record a); cbn [dict_get]; [|reflexivity].
    assert (String.eqb a c = false) as -> by (apply String.eqb_neq; congruence).
    reflexivity.
Qed.

(** The frame holds, for an expected column, what the record holds. *)
Lemma expected_frame_get (record : dict) (c : string) :
  In c EXPECTED_COLUMNS ->
  dict_get (expected_frame record) c = dict_get record c.
Proof.
  intros Hc. unfold expected_frame. rewrite selected_get.
  apply existsb_eqb_In in Hc. now rewrite Hc.
Qed.

Lemma App_predict_invoked_on (model : Artifact) (format_exc : exn -> string)
      (form : Flask.MultiDict) :
  has_all_expected (map fst form) = true ->
  invoked_on (expected_frame (form_record form))
             (snd (App.predict model format_exc form)).
Proof.
  intros Hall. unfold App.predict. rewrite App_predict_try_run.
  apply missing_from_nil in Hall. rewrite Hall.
  pose proof (invoked_on_invoke model (expected_frame (form_record form))) as H.
  destruct (invoke model _) as [[[z p]|e] t]; cbn [bind ret fst snd] in *.
  - now rewrite app_nil_r.
  - destruct (is_ValueError e); cbn [snd]; auto using invoked_on_log.
Qed.

Lemma Corrected_predict_invoked_on (model : Artifact)
      (format_exc : exn -> string) (form : Flask.MultiDict) :
  has_all_expected (map fst form) = true ->
  invoked_on (expected_frame (form_record form))
             (snd (AppCorrected.predict model format_exc form)).
Proof.
  intros Hall. unfold AppCorrected.predict. rewrite Corrected_predict_try_run.
  apply missing_from_nil in Hall. rewrite Hall.
  pose proof (invoked_on_invoke model (expected_frame (form_record form))) as H.
  destruct (invoke model _) as [[[z p]|e] t]; cbn [bind ret fst snd] in *.
  - now rewrite app_nil_r.
  - destruct (is_ValueError e); cbn [snd]; auto using invoked_on_log.
Qed.

Lemma api_predict_invoked_on (model : Artifact) (format_exc : exn -> string)
      (body : dict) :
  has_all_expected (dict_keys body) = true ->
  invoked_on (expected_frame (json_record body))
             (snd (AppCorrected.api_predict model format_exc (Ok (VDict body)))).
Proof.
  intros Hall. unfold AppCorrected.api_predict. rewrite api_predict_try_run.
  apply missing_from_nil in Hall. rewrite Hall.
  pose proof (invoked_on_invoke model (expected_frame (json_record body))) as H.
  destruct (invoke model _) as [[[z p]|e] t]; cbn [bind ret fst snd] in *.
  - now rewrite app_nil_r.
  - auto using invoked_on_log.
Qed.

(** X1.  The handlers pass the submission to the artifact as it came: for
    a complete form, each cell of the frame on which the artifact is invoked
    is the first value submitted under the column's name, a string, also
    for the numeric attributes; for a complete JSON object it is the value
    of the object, whatever its type.  Nothing is converted, mapped or
    filled in on the way. *)
Theorem raw_values_reach_the_artifact :
  forall (model : Artifact) (format_exc : exn -> string)
         (form : Flask.MultiDict) (body : dict),
    has_all_expected (map fst form) = true ->
    has_all_expected (dict_keys body) = true ->
    let form_frame := expected_frame (form_record form) in
    let json_frame := expected_frame (json_record body) in
    invoked_on form_frame (snd (App.predict model format_exc form))
    /\ invoked_on form_frame (snd (AppCorrected.predict model format_exc form))
    /\ invoked_on json_frame
         (snd (AppCorrected.api_predict model format_exc (Ok (VDict body))))
    /\ (forall c, In c EXPECTED_COLUMNS ->
          exists v, first_value form c = Some v
                    /\ dict_get form_frame c = Some (VStr v))
    /\ (forall c, In c EXPECTED_COLUMNS ->
          exists v, dict_get body c = Some v
                    /\ dict_get json_frame c = Some v).
Proof.
  intros model format_exc form body Hform Hbody form_frame json_frame.
  split; [now apply App_predict_invoked_on|].
  split; [now apply Corrected_predict_invoked_on|].
  split; [now apply api_predict_invoked_on|].
  split; intros c Hc.
  - subst form_frame.
    rewrite expected_frame_get, form_record_get, to_dict_get by assumption.
    rewrite has_all_expected_spec in Hform. specialize (Hform c Hc).
    apply existsb_eqb_In in Hform. rewrite <- to_dict_columns in Hform.
    apply has_column_dict_get in Hform. rewrite to_dict_get in Hform.
    destruct (first_value form c) as [v|]; [|contradiction].
    now exists v.
  - subst json_frame.
    rewrite expected_frame_get, json_record_get by assumption.
    rewrite has_all_expected_spec in Hbody. specialize (Hbody c Hc).
    apply existsb_eqb_In in Hbody.
    change (has_column body c = true) in Hbody.
    apply has_column_dict_get in Hbody.
    destruct (dict_get body c) as [v|]; [|contradiction].
    now exists v.
Qed.

Lemma raw_values_reach_the_artifact_witness :
  dict_get (expected_frame (form_record Sample.form)) "tenure"
    = Some (VStr "1")
  /\ dict_get (expected_frame (form_record Sample.form)) "MonthlyCharges"
     = Some (VStr "70.35").
Proof.
  destruct (raw_values_reach_the_artifact Sample.steady Sample.format_exc
              Sample.form Sample.body
              ltac:(vm_compute; reflexivity) ltac:(vm_compute; reflexivity))
    as (_ & _ & _ & Hform & _).
  split.
  - destruct (Hform "tenure" ltac:(apply existsb_eqb_In; reflexivity))
      as [v [Hv Hcell]].
    vm_compute in Hv. injection Hv as <-. exact Hcell.
  - destruct (Hform "MonthlyCharges" ltac:(apply existsb_eqb_In; reflexivity))
      as [v [Hv Hcell]].
    vm_compute in Hv. injection Hv as <-. exact Hcell.
Defined.

(** ** Repeated fields *)

(** X2.  A form field under a name that was already submitted is ignored,
    wherever it comes after the first and whatever its value: the handler
    renders the same context and leaves the same trace as without it. *)
Theorem repeated_field_ignored :
  forall (model : Artifact) (format_exc : exn -> string)
         (before after : Flask.MultiDict) (k v : string),
    In k (map fst before) ->
    App.predict model format_exc (before ++ (k, v) :: after)%list
    = App.predict model format_exc (before ++ after)%list
    /\ AppCorrected.predict model format_exc (before ++ (k, v) :: after)%list
       = AppCorrected.predict model format_exc (before ++ after)%list.
Proof.
  intros model format_exc before after k v Hin.
  unfold App.predict, App.predict_try, AppCorrected.predict,
    AppCorrected.predict_try.
  rewrite (to_dict_repeated before after k v Hin). split; reflexivity.
Qed.

Lemma repeated_field_ignored_witness :
  App.predict Sample.steady Sample.format_exc
    (Sample.form ++ [("tenure", "72"); ("customerID", "CUST009")])%list
  = App.predict Sample.steady Sample.format_exc Sample.form.
Proof.
  assert (H1 : In "tenure" (map fst Sample.form))
    by (apply existsb_eqb_In; reflexivity).
  assert (H2 : In "customerID" (map fst Sample.form))
    by (apply existsb_eqb_In; reflexivity).
  destruct (repeated_field_ignored Sample.steady Sample.format_exc
              Sample.form [("customerID", "CUST009")] "tenure" "72" H1)
    as [Ha _].
  destruct (repeated_field_ignored Sample.steady Sample.format_exc
              Sample.form [] "customerID" "CUST009" H2) as [Hb _].
  rewrite Ha, Hb, app_nil_r. reflexivity.
Defined.

(** ** The identifier and the input echoed *)

Lemma dict_get_remove_same (d : dict) (k : string) :
  dict_get (dict_remove d k) k = None.
Proof.
  unfold dict_remove. induction d as [|[k' v] d IH]; [reflexivity|].
  cbn [filter fst]. destruct (String.eqb k' k) eqn:Hk; cbn [negb]; [exact IH|].
  cbn [dict_get]. now rewrite Hk.
Qed.

Lemma dict_get_pop_same (d : dict) (k : string) :
  dict_get (snd (dict_pop d k)) k = None.
Proof.
  unfold dict_pop. destruct (dict_get d k) eqn:Hk; cbn [snd];
    [apply dict_get_remove_same | exact Hk].
Qed.

Lemma dict_keys_remove_unique (d : dict) (k : string) :
  NoDup (dict_keys d) -> NoDup (dict_keys (dict_remove d k)).
Proof.
  unfold dict_keys, dict_remove.
  induction d as [|[k' v] d IH]; intros Hd; [constructor|].
  inversion Hd as [|? ? Hnot Hrest]; subst.
  cbn [filter fst]. destruct (negb (String.eqb k' k)); [|now apply IH].
  cbn [map fst]. constructor; [|now apply IH].
  intros Hin. apply Hnot. apply in_map_iff in Hin as [[k'' v''] [Heq Hin]].
  apply filter_In in Hin as [Hin _]. apply in_map_iff. now exists (k'', v'').
Qed.

Lemma dict_keys_pop_unique (d : dict) (k : string) :
  NoDup (dict_keys d) -> NoDup (dict_keys (snd (dict_pop d k))).
Proof.
  intros Hd. unfold dict_pop.
  destruct (dict_get d k); cbn [snd]; [now apply dict_keys_remove_unique | exact Hd].
Qed.

(** X3.  On success the form handler echoes the submission without the
    identifier: the [data] rendered holds every other name submitted,
    expected or not, once, with the first value submitted under it, and
    never the key [customerID]; [customer_id] is the first identifier
    submitted, or [None] when there was none. *)
Theorem echoed_input :
  forall (model : Artifact) (format_exc : exn -> string)
         (form : Flask.MultiDict),
    dict_get (fst (App.predict model format_exc form)) "success"
      = Some (VBool true) ->
    exists data,
      dict_get (fst (App.predict model format_exc form)) "data"
        = Some (VDict data)
      /\ dict_get data "customerID" = None
      /\ (forall k, k <> "customerID" ->
                    dict_get data k = cell (first_value form k))
      /\ NoDup (dict_keys data)
      /\ dict_get (fst (App.predict model format_exc form)) "customer_id"
         = Some (identifier (cell (first_value form "customerID"))).
Proof.
  intros model format_exc form Hok.
  destruct (App_predict_success _ _ _ Hok) as [z [p [Hall Hans]]].
  rewrite (App_predict_answer _ _ _ _ _ Hall Hans).
  exists (form_record form). split; [reflexivity|].
  unfold form_record.
  split; [apply dict_get_pop_same|].
  split; [intros k Hk; rewrite dict_get_pop by assumption; apply to_dict_get|].
  split; [apply dict_keys_pop_unique, to_dict_keys_unique|].
  cbn [Rendered.by_app dict_get fst]. cbv beta zeta. cbn [String.eqb Ascii.eqb Bool.eqb].
  rewrite customer_id_echo, to_dict_get. reflexivity.
Qed.

Lemma echoed_input_witness :
  exists data,
    dict_get (fst (App.predict Sample.steady Sample.format_exc
                     Sample.shuffled_form)) "data" = Some (VDict data)
    /\ dict_get data "customerID" = None
    /\ dict_get data "campaign" = Some (VStr "spring").
Proof.
  destruct (echoed_input Sample.steady Sample.format_exc Sample.shuffled_form
              eq_refl) as [data (Hdata & Hid & Hother & _)].
  exists data. split; [exact Hdata|]. split; [exact Hid|].
  rewrite (Hother "campaign") by discriminate. reflexivity.
Defined.

(** ** The order of the invocations *)

Lemma invoke_trace (model : Artifact) (df : DataFrame) :
  snd (invoke model df)
  = match model_predict model df with
    | Ok (_ :: _) => [EvPredict df; EvPredictProba df]
    | _ => [EvPredict df]
    end.
Proof.
  unfold invoke, call_predict, call_predict_proba.
  destruct (model_predict model df) as [[|z preds]|e]; try reflexivity.
  destruct (model_predict_proba model df) as [[|[|p0 [|p row]] probs]|e];
    reflexivity.
Qed.

Lemma filter_invocations_log (t : list event) (line : string) :
  filter is_invocation (t ++ [EvLogError line]) = filter is_invocation t.
Proof. rewrite filter_app. cbn. apply app_nil_r. Qed.

Lemma invocations_of_invoke (model : Artifact) (df : DataFrame) :
  filter is_invocation (snd (invoke model df)) = snd (invoke model df).
Proof. now destruct (invoke_events model df) as [-> | ->]. Qed.

Lemma App_predict_invocations (model : Artifact) (format_exc : exn -> string)
      (form : Flask.MultiDict) :
  has_all_expected (map fst form) = true ->
  filter is_invocation (snd (App.predict model format_exc form))
  = snd (invoke model (expected_frame (form_record form))).
Proof.
  intros Hall. unfold App.predict. rewrite App_predict_try_run.
  apply missing_from_nil in Hall. rewrite Hall.
  rewrite <- invocations_of_invoke.
  destruct (invoke model _) as [[[z p]|e] t]; cbn [bind ret fst snd].
  - now rewrite app_nil_r.
  - destruct (is_ValueError e); cbn [snd]; now rewrite ?filter_invocations_log.
Qed.

Lemma Corrected_predict_invocations (model : Artifact)
      (format_exc : exn -> string) (form : Flask.MultiDict) :
  has_all_expected (map fst form) = true ->
  filter is_invocation (snd (AppCorrected.predict model format_exc form))
  = snd (invoke model (expected_frame (form_record form))).
Proof.
  intros Hall. unfold AppCorrected.predict. rewrite Corrected_predict_try_run.
  apply missing_from_nil in Hall. rewrite Hall.
  rewrite <- invocations_of_invoke.
  destruct (invoke model _) as [[[z p]|e] t]; cbn [bind ret fst snd].
  - now rewrite app_nil_r.
  - destruct (is_ValueError e); cbn [snd]; now rewrite ?filter_invocations_log.
Qed.

Lemma api_predict_invocations (model : Artifact) (format_exc : exn -> string)
      (body : dict) :
  has_all_expected (dict_keys body) = true ->
  filter is_invocation
    (snd (AppCorrected.api_predict model format_exc (Ok (VDict body))))
  = snd (invoke model (expected_frame (json_record body))).
Proof.
  intros Hall. unfold AppCorrected.api_predict. rewrite api_predict_try_run.
  apply missing_from_nil in Hall. rewrite Hall.
  rewrite <- invocations_of_invoke.
  destruct (invoke model _) as [[[z p]|e] t]; cbn [bind ret fst snd].
  - now rewrite app_nil_r.
  - now rewrite filter_invocations_log.
Qed.

(** X4.  For a complete submission a handler invokes [predict] once, first
    and on the selected frame, and [predict_proba] once after it exactly
    when [predict] returned an array with an entry; when [predict] raised
    or returned an empty array, [predict_proba] is never invoked.  Nothing
    is invoked a second time. *)
Theorem predict_proba_only_after_predict :
  forall (model : Artifact) (format_exc : exn -> string)
         (form : Flask.MultiDict) (body : dict),
    has_all_expected (map fst form) = true ->
    has_all_expected (dict_keys body) = true ->
    let form_frame := expected_frame (form_record form) in
    let json_frame := expected_frame (json_record body) in
    filter is_invocation (snd (App.predict model format_exc form))
    = match model_predict model form_frame with
      | Ok (_ :: _) => [EvPredict form_frame; EvPredictProba form_frame]
      | _ => [EvPredict form_frame]
      end
    /\ filter is_invocation (snd (AppCorrected.predict model format_exc form))
       = filter is_invocation (snd (App.predict model format_exc form))
    /\ filter is_invocation
         (snd (AppCorrected.api_predict model format_exc (Ok (VDict body))))
       = match model_predict model json_frame with
         | Ok (_ :: _) => [EvPredict json_frame; EvPredictProba json_frame]
         | _ => [EvPredict json_frame]
         end.
Proof.
  intros model format_exc form body Hform Hbody form_frame json_frame.
  subst form_frame json_frame.
  rewrite (App_predict_invocations _ _ _ Hform),
          (Corrected_predict_invocations _ _ _ Hform),
          (api_predict_invocations _ _ _ Hbody), !invoke_trace.
  repeat split.
Qed.

Lemma predict_proba_only_after_predict_witness :
  filter is_invocation
    (snd (App.predict Edge.no_rows Sample.format_exc Sample.form))
  = [EvPredict (expected_frame (form_record Sample.form))]
  /\ filter is_invocation
       (snd (AppCorrected.api_predict Sample.steady Sample.format_exc
               (Ok (VDict Sample.body))))
     = [ EvPredict (expected_frame (json_record Sample.body));
         EvPredictProba (expected_frame (json_record Sample.body)) ].
Proof.
  destruct (predict_proba_only_after_predict Edge.no_rows Sample.format_exc
              Sample.form Sample.body
              ltac:(vm_compute; reflexivity) ltac:(vm_compute; reflexivity))
    as (Hform & _ & _).
  destruct (predict_proba_only_after_predict Sample.steady Sample.format_exc
              Sample.form Sample.body
              ltac:(vm_compute; reflexivity) ltac:(vm_compute; reflexivity))
    as (_ & _ & Hjson).
  split; [exact Hform | exact Hjson].
Defined.

(** ** Arrays without the entry read *)

Lemma invoke_short (model : Artifact) (df : DataFrame) :
  short_answer model df = true ->
  exists e, exn_cls e = IndexError
            /\ fst (invoke model df) = Raise e
            /\ (model_predict model df = Ok [] ->
                exn_str e = "index 0 is out of bounds for axis 0 with size 0").
Proof.
  unfold short_answer, invoke, call_predict, call_predict_proba.
  destruct (model_predict model df) as [[|z preds]|e]; try discriminate.
  - intros _. eexists. split; [|split]; [| reflexivity | intros _; reflexivity].
    reflexivity.
  - destruct (model_predict_proba model df) as [[|[|p0 [|p row]] probs]|e];
      try discriminate; intros _;
      (eexists; split; [|split]; [| reflexivity | discriminate]; reflexivity).
Qed.

(** X5.  When the artifact raises nothing but returns an array without
    the entry a handler reads (no prediction, no row of probabilities, or
    a first row with fewer than two entries), indexing raises
    [IndexError] and the request fails as an unclassified failure: the
    form handlers render ["Error: ..."] (["Prediction Error: ..."]) with
    [success=False] and log the stack trace, the JSON endpoint answers
    status 500.  No label or probability is made up. *)
Theorem short_arrays_fail :
  forall (model : Artifact) (format_exc : exn -> string),
    (forall form : Flask.MultiDict,
        has_all_expected (map fst form) = true ->
        short_answer model (expected_frame (form_record form)) = true ->
        exists e,
          exn_cls e = IndexError
          /\ fst (App.predict model format_exc form)
             = [ ("error", VStr ("Error: " ++ exn_str e));
                 ("data", VDict []);
                 ("success", VBool false) ]
          /\ fst (AppCorrected.predict model format_exc form)
             = [ ("error", VStr ("Prediction Error: " ++ exn_str e));
                 ("data", VDict []);
                 ("success", VBool false) ]
          /\ logged (snd (App.predict model format_exc form))
             = ["Prediction failed: " ++ format_exc e]
          /\ logged (snd (AppCorrected.predict model format_exc form))
             = ["Prediction failed: " ++ format_exc e]
          /\ (model_predict model (expected_frame (form_record form)) = Ok [] ->
              exn_str e = "index 0 is out of bounds for axis 0 with size 0"))
    /\ (forall body : dict,
        has_all_expected (dict_keys body) = true ->
        short_answer model (expected_frame (json_record body)) = true ->
        exists e,
          exn_cls e = IndexError
          /\ fst (AppCorrected.api_predict model format_exc (Ok (VDict body)))
             = ([ ("error", VStr (exn_str e)); ("success", VBool false) ],
                500%Z)
          /\ logged (snd (AppCorrected.api_predict model format_exc
                            (Ok (VDict body))))
             = ["API prediction failed: " ++ format_exc e]
          /\ (model_predict model (expected_frame (json_record body)) = Ok [] ->
              exn_str e = "index 0 is out of bounds for axis 0 with size 0")).
Proof.
  intros model format_exc. split.
  - intros form Hform Hshort.
    destruct (invoke_short _ _ Hshort) as (e & Hcls & Hinv & Hmsg).
    pose proof (invoke_events model (expected_frame (form_record form))) as Hev.
    assert (Hcatch : is_ValueError e = false)
      by (unfold is_ValueError; now rewrite Hcls).
    exists e. split; [exact Hcls|].
    unfold App.predict, AppCorrected.predict.
    rewrite App_predict_try_run, Corrected_predict_try_run.
    apply missing_from_nil in Hform. rewrite Hform.
    destruct (invoke model (expected_frame (form_record form))) as [r t].
    cbn [fst snd] in *. subst r. cbn [bind]. rewrite Hcatch. cbn [fst snd].
    unfold logged. rewrite !flat_map_app.
    repeat split; try exact Hmsg;
      destruct Hev as [-> | ->]; reflexivity.
  - intros body Hbody Hshort.
    destruct (invoke_short _ _ Hshort) as (e & Hcls & Hinv & Hmsg).
    pose proof (invoke_events model (expected_frame (json_record body))) as Hev.
    exists e. split; [exact Hcls|].
    unfold AppCorrected.api_predict. rewrite api_predict_try_run.
    apply missing_from_nil in Hbody. rewrite Hbody.
    destruct (invoke model (expected_frame (json_record body))) as [r t].
    cbn [fst snd] in *. subst r. cbn [bind fst snd].
    unfold logged. rewrite !flat_map_app.
    repeat split; try exact Hmsg;
      destruct Hev as [-> | ->]; reflexivity.
Qed.

Lemma short_arrays_fail_witness :
  fst (App.predict Edge.no_rows Sample.format_exc Sample.form)
  = [ ("error",
       VStr "Error: index 0 is out of bounds for axis 0 with size 0");
      ("data", VDict []);
      ("success", VBool false) ]
  /\ fst (AppCorrected.api_predict Edge.no_rows Sample.format_exc
            (Ok (VDict Sample.body)))
     = ([ ("error", VStr "index 0 is out of bounds for axis 0 with size 0");
          ("success", VBool false) ], 500%Z)
  /\ exists e,
       exn_cls e = IndexError
       /\ fst (AppCorrected.api_predict Edge.one_class Sample.format_exc
                 (Ok (VDict Sample.body)))
          = ([ ("error", VStr (exn_str e)); ("success", VBool false) ], 500%Z).
Proof.
  destruct (short_arrays_fail Edge.one_class Sample.format_exc)
    as [_ Hone].
  destruct (Hone Sample.body ltac:(vm_compute; reflexivity) eq_refl)
    as (e1 & Hcls1 & Hapi1 & _).
  destruct (short_arrays_fail Edge.no_rows Sample.format_exc)
    as [Hforms Hbodies].
  destruct (Hforms Sample.form ltac:(vm_compute; reflexivity) eq_refl)
    as (e & _ & Happ & _ & _ & _ & Hmsg).
  destruct (Hbodies Sample.body ltac:(vm_compute; reflexivity) eq_refl)
    as (e' & _ & Hapi & _ & Hmsg').
  rewrite (Hmsg eq_refl) in Happ. rewrite (Hmsg' eq_refl) in Hapi.
  split; [exact Happ|]. split; [exact Hapi|].
  exists e1. split; [exact Hcls1 | exact Hapi1].
Defined.

(** ** The status of the JSON endpoint *)

Lemma api_predict_not_object (model : Artifact) (format_exc : exn -> string)
      (v : value) :
  (forall d, v <> VDict d) ->
  exists e,
    (exn_cls e = AttributeError \/ exn_cls e = TypeError)
    /\ AppCorrected.api_predict model format_exc (Ok v)
       = (([ ("error", VStr (exn_str e)); ("success", VBool false) ], 500%Z),
          [EvLogError ("API prediction failed: " ++ format_exc e)]).
Proof.
  intros Hv.
  destruct v as [| | | | | |d];
    try (eexists; split; [|reflexivity]; left; reflexivity).
  - eexists; split; [|reflexivity]. right; reflexivity.
  - now destruct (Hv d).
Qed.

Lemma value_is_dict (v : value) :
  (exists d, v = VDict d) \/ (forall d, v <> VDict d).
Proof. destruct v; try (right; discriminate). left. now eexists. Qed.

(** X6.  The JSON endpoint answers with one of three statuses, and each
    tells what happened: 200 exactly when the body is an object with every
    expected attribute on whose frame the artifact answered; 400 exactly
    when the body is an object that lacks an expected attribute, and then
    nothing was invoked or logged; 500 in every other case, and then the
    answer carries [str(e)] of an exception and its stack trace is logged,
    once.  Nothing is logged for a 200 or a 400. *)
Theorem api_status_tells_the_outcome :
  forall (model : Artifact) (format_exc : exn -> string)
         (get_json : result value),
    let answer := AppCorrected.api_predict model format_exc get_json in
    let status := snd (fst answer) in
    (status = 200%Z \/ status = 400%Z \/ status = 500%Z)
    /\ (status = 200%Z <->
        exists body prediction p,
          get_json = Ok (VDict body)
          /\ has_all_expected (dict_keys body) = true
          /\ artifact_answer model (expected_frame (json_record body))
             = Some (prediction, p))
    /\ (status = 400%Z <->
        exists body,
          get_json = Ok (VDict body)
          /\ has_all_expected (dict_keys body) = false)
    /\ (status = 400%Z -> snd answer = [])
    /\ (status = 500%Z ->
        exists e,
          fst (fst answer)
          = [ ("error", VStr (exn_str e)); ("success", VBool false) ]
          /\ logged (snd answer) = ["API prediction failed: " ++ format_exc e])
    /\ (status <> 500%Z -> logged (snd answer) = []).
Proof.
  intros model format_exc get_json. cbv zeta.
  destruct get_json as [v|e].
  - destruct (value_is_dict v) as [[body ->]|Hv].
    + unfold AppCorrected.api_predict. rewrite api_predict_try_run.
      destruct (missing_from (dict_keys body)) as [|c rest] eqn:Hmiss.
      * pose proof (proj1 (missing_from_nil _) Hmiss) as Hall.
        pose proof (invoke_events model (expected_frame (json_record body)))
          as Hev.
        destruct (invoke model (expected_frame (json_record body)))
          as [[[z p]|e] t] eqn:Hinv; cbn [bind ret fst snd] in *.
        -- apply invoke_ok in Hinv as [Hans ->].
           repeat split; auto; try discriminate; try congruence.
           ++ intros _. now exists body, z, p.
           ++ intros (b & ? & Hb). congruence.
        -- repeat split; auto; try discriminate.
           ++ intros (b & z & p & Hb & _ & Hans).
              injection Hb as <-. apply invoke_answer in Hans. congruence.
           ++ intros (b & Hb & Hb'). injection Hb as <-. congruence.
           ++ intros _. exists e. split; [reflexivity|].
              unfold logged. rewrite flat_map_app.
              now destruct Hev as [-> | ->].
           ++ congruence.
      * assert (Hall : has_all_expected (dict_keys body) = false).
        { destruct (has_all_expected (dict_keys body)) eqn:H; [|reflexivity].
          apply missing_from_nil in H. congruence. }
        cbn [bind ret fst snd].
        repeat split; auto; try discriminate.
        -- intros (b & z & p & Hb & Hb' & _). injection Hb as <-. congruence.
        -- intros _. now exists body.
    + destruct (api_predict_not_object model format_exc v Hv) as (e & _ & ->).
      cbn [fst snd].
      repeat split; auto; try discriminate.
      * intros (b & z & p & Hb & _). injection Hb as ->. now destruct (Hv b).
      * intros (b & Hb & _). injection Hb as ->. now destruct (Hv b).
      * intros _. now exists e.
      * congruence.
  - cbn. repeat split; auto; try discriminate.
    + intros (b & z & p & Hb & _). discriminate.
    + intros (b & Hb & _). discriminate.
    + intros _. now exists e.
    + congruence.
Qed.

(** X7.  A body that is no JSON object (null, a boolean, a number, a
    string or an array) is answered with status 500, not 400: popping the
    identifier raises [AttributeError] (for an array, [TypeError]); and so
    is a body that [get_json] refuses.  Validation is not reached and the
    artifact is not invoked; the failure is logged. *)
Theorem body_that_is_no_object :
  forall (model : Artifact) (format_exc : exn -> string) (v : value),
    (forall d, v <> VDict d) ->
    (exists e,
        (exn_cls e = AttributeError \/ exn_cls e = TypeError)
        /\ AppCorrected.api_predict model format_exc (Ok v)
           = (([ ("error", VStr (exn_str e)); ("success", VBool false) ],
               500%Z),
              [EvLogError ("API prediction failed: " ++ format_exc e)]))
    /\ (forall e,
           AppCorrected.api_predict model format_exc (Raise e)
           = (([ ("error", VStr (exn_str e)); ("success", VBool false) ],
               500%Z),
              [EvLogError ("API prediction failed: " ++ format_exc e)])).
Proof.
  intros model format_exc v Hv. split.
  - now apply api_predict_not_object.
  - intros e. reflexivity.
Qed.

Lemma body_that_is_no_object_witness :
  exists e,
    (exn_cls e = AttributeError \/ exn_cls e = TypeError)
    /\ AppCorrected.api_predict Sample.steady Sample.format_exc (Ok (VList []))
       = (([ ("error", VStr (exn_str e)); ("success", VBool false) ], 500%Z),
          [EvLogError ("API prediction failed: " ++ Sample.format_exc e)]).
Proof.
  assert (Hv : forall d, VList [] <> VDict d) by discriminate.
  exact (proj1 (body_that_is_no_object Sample.steady Sample.format_exc
                  (VList []) Hv)).
Defined.

(** ** The JSON endpoint and the form handler *)

(** X8.  The JSON endpoint and the corrected form handler treat one and the
    same record alike: for a form and the object that holds its fields,
    the endpoint invokes the artifact as the form handler does, and its
    [success], [churn_prediction], [confidence] and [customer_id] are the
    form handler's [success], [churn], [probability] and [customer_id];
    it answers 200 exactly when the form handler renders a success. *)
Theorem endpoint_agrees_with_form_handler :
  forall (model : Artifact) (format_exc : exn -> string)
         (form : Flask.MultiDict),
    let rendered := AppCorrected.predict model format_exc form in
    let answered :=
      AppCorrected.api_predict model format_exc (Ok (VDict (Flask.to_dict form))) in
    filter is_invocation (snd answered) = filter is_invocation (snd rendered)
    /\ dict_get (fst (fst answered)) "success"
       = dict_get (fst rendered) "success"
    /\ dict_get (fst (fst answered)) "churn_prediction"
       = dict_get (fst rendered) "churn"
    /\ dict_get (fst (fst answered)) "confidence"
       = dict_get (fst rendered) "probability"
    /\ dict_get (fst (fst answered)) "customer_id"
       = dict_get (fst rendered) "customer_id"
    /\ (snd (fst answered) = 200%Z <->
        dict_get (fst rendered) "success" = Some (VBool true)).
Proof.
  intros model format_exc form. cbv zeta.
  unfold AppCorrected.predict, AppCorrected.api_predict.
  rewrite Corrected_predict_try_run, api_predict_try_run.
  change (json_record (Flask.to_dict form)) with (form_record form).
  assert (Hkeys : missing_from (dict_keys (Flask.to_dict form))
                  = missing_from (map fst form)).
  { unfold missing_from. apply filter_ext. intros c.
    f_equal. exact (to_dict_columns form c). }
  rewrite Hkeys.
  destruct (missing_from (map fst form)) as [|c rest].
  - destruct (invoke model (expected_frame (form_record form)))
      as [[[z p]|e] t]; cbn [bind ret fst snd]; rewrite ?app_nil_r.
    + repeat split.
    + destruct (is_ValueError e); cbn [fst snd];
        rewrite ?filter_invocations_log;
        repeat split; try reflexivity; discriminate.
  - cbn. repeat split; discriminate.
Qed.

(** ** The risk tier grows with the percentage *)

#[local] Open Scope Z_scope.

Ltac rank_order :=
  split;
  [ try discriminate; intros _; repeat split; try discriminate;
    first [ left; lia | right; repeat f_equal; lia ]
  | first
      [ reflexivity
      | intros (? & ? & [?|Heq]);
        [ try congruence; lia
        | try congruence; injection Heq; intros; lia ] ] ].

Lemma SFleb_rank (a b : spec_float) :
  SFleb a b = true <->
  a <> S754_nan /\ b <> S754_nan /\ rank_le (rank a) (rank b).
Proof.
  unfold SFleb, rank_le, rank_lt.
  destruct a as [sa|sa| |sa ma ea], b as [sb|sb| |sb mb eb];
    try destruct sa; try destruct sb; cbn [SFcompare rank];
    try rank_order.
  - change (Pos.compare_cont Eq ma mb) with (Pos.compare ma mb).
    rewrite Pos2Z.inj_compare.
    destruct (Z.compare_spec ea eb), (Z.compare_spec (Zpos ma) (Zpos mb));
      cbn [CompOpp]; rank_order.
  - change (Pos.compare_cont Eq ma mb) with (Pos.compare ma mb).
    rewrite Pos2Z.inj_compare.
    destruct (Z.compare_spec ea eb), (Z.compare_spec (Zpos ma) (Zpos mb));
      rank_order.
Qed.

Lemma leb_ltb_trans (x y c : float) :
  (x <=? y)%float = true -> (y <? c)%float = true -> (x <? c)%float = true.
Proof.
  rewrite leb_spec, !ltb_spec, SFleb_rank, !SFltb_rank.
  unfold rank_le, rank_lt.
  intros (Hx & Hy & Hxy) (_ & Hc & Hyc). repeat split; auto.
  destruct (rank (Prim2SF x)) as [[x1 x2] x3],
           (rank (Prim2SF y)) as [[y1 y2] y3],
           (rank (Prim2SF c)) as [[c1 c2] c3].
  destruct Hxy as [Hxy|Hxy]; [lia|]. injection Hxy as -> -> ->. exact Hyc.
Qed.

#[local] Close Scope Z_scope.

(** X9.  The risk tier never falls as the percentage grows: for two
    percentages [x <= y], the tier of [x] is the tier of [y] or a lower
    one, in the order low, medium, high, very-high. *)
Theorem risk_tier_monotone :
  forall x y : float,
    (x <=? y)%float = true ->
    (tier_rank (fst (App.risk x)) <= tier_rank (fst (App.risk y)))%nat.
Proof.
  intros x y Hxy. unfold App.risk.
  pose proof (leb_ltb_trans x y 30 Hxy) as H30.
  pose proof (leb_ltb_trans x y 50 Hxy) as H50.
  pose proof (leb_ltb_trans x y 70 Hxy) as H70.
  destruct (y <? 30)%float.
  - rewrite (H30 eq_refl). apply le_n.
  - destruct (y <? 50)%float.
    + rewrite (H50 eq_refl). destruct (x <? 30)%float; cbn; auto.
    + destruct (y <? 70)%float.
      * rewrite (H70 eq_refl).
        destruct (x <? 30)%float, (x <? 50)%float; cbn; auto.
      * destruct (x <? 30)%float, (x <? 50)%float, (x <? 70)%float;
          cbn; auto.
Qed.

Lemma risk_tier_monotone_witness :
  (tier_rank (fst (App.risk 29.99)) <= tier_rank (fst (App.risk 70)))%nat.
Proof. exact (risk_tier_monotone 29.99 70 eq_refl). Defined.

(** ** A probability that is not a number *)

Lemma nan_percentage (p : float) :
  is_nan p = true -> Prim2SF (p * 100) = S754_nan.
Proof.
  unfold is_nan. intros Hp. rewrite mul_spec.
  destruct (Prim2SF p); try discriminate. reflexivity.
Qed.

Lemma nan_not_below (x c : float) :
  Prim2SF x = S754_nan -> (x <? c)%float = false.
Proof. intros Hx. rewrite ltb_spec, Hx. reflexivity. Qed.

(** X10.  When the artifact gives a probability that is not a number, the
    form handler of [app.py] still renders a success: every comparison of
    the if-chain fails, so the risk level is "very-high" with the message
    "VERY HIGH RISK", and the percentage is rendered as ["nan%"], which is
    no two-decimal percentage. *)
Theorem not_a_number_is_very_high :
  forall (model : Artifact) (format_exc : exn -> string)
         (form : Flask.MultiDict) (prediction : Z) (p : float),
    has_all_expected (map fst form) = true ->
    artifact_answer model (expected_frame (form_record form))
      = Some (prediction, p) ->
    is_nan p = true ->
    let context := fst (App.predict model format_exc form) in
    dict_get context "success" = Some (VBool true)
    /\ dict_get context "risk_level" = Some (VStr "very-high")
    /\ dict_get context "risk_message" = Some (VStr "VERY HIGH RISK")
    /\ dict_get context "probability" = Some (VStr "nan%")
    /\ two_decimal_percent "nan%" = false.
Proof.
  intros model format_exc form z p Hall Hans Hp. cbv zeta.
  rewrite (App_predict_answer _ _ _ _ _ Hall Hans).
  pose proof (nan_percentage p Hp) as Hx.
  unfold Rendered.by_app, App.risk, format_2f.
  rewrite !(nan_not_below _ _ Hx), Hx. repeat split.
Qed.

Lemma not_a_number_is_very_high_witness :
  dict_get (fst (App.predict Edge.undefined Sample.format_exc Sample.form))
           "risk_level" = Some (VStr "very-high")
  /\ dict_get (fst (App.predict Edge.undefined Sample.format_exc Sample.form))
              "probability" = Some (VStr "nan%").
Proof.
  destruct (not_a_number_is_very_high Edge.undefined Sample.format_exc
              Sample.form 0%Z nan ltac:(vm_compute; reflexivity)
              eq_refl eq_refl)
    as (_ & Hlevel & _ & Hprob & _).
  split; [exact Hlevel | exact Hprob].
Defined.

(* ================================================================= *)
(** * The script [main.py] *)

(** ** Tables *)

Lemma find_column_set (cols : list (string * list value))
      (name : string) (cells : list value) (c : string) :
  find (fun x => String.eqb (fst x) c) (set_column cols name cells)
  = if String.eqb name c then Some (name, cells)
    else find (fun x => String.eqb (fst x) c) cols.
Proof.
  induction cols as [|[n k] rest IH]; cbn [set_column find fst].
  - destruct (String.eqb name c); reflexivity.
  - destruct (String.eqb n name) eqn:Hn; cbn [find fst].
    + apply String.eqb_eq in Hn. subst n.
      destruct (String.eqb name c); reflexivity.
    + destruct (String.eqb n c) eqn:Hc.
      * apply String.eqb_eq in Hc. rewrite <- Hc, String.eqb_sym, Hn.
        reflexivity.
      * exact IH.
Qed.

Lemma column_set_column (n : nat) (cols : list (string * list value))
      (name : string) (cells : list value) (c : string) :
  column (mkTable n (set_column cols name cells)) c
  = if String.eqb name c then Ok cells else column (mkTable n cols) c.
Proof.
  unfold column. cbn [table_columns]. rewrite find_column_set.
  destruct (String.eqb name c); reflexivity.
Qed.

Lemma labels_set_column (cols : list (string * list value))
      (name : string) (cells : list value) :
  map fst (set_column cols name cells)
  = if existsb (String.eqb name) (map fst cols) then map fst cols
    else (map fst cols ++ [name])%list.
Proof.
  induction cols as [|[n k] rest IH]; cbn [set_column map fst existsb app].
  - reflexivity.
  - rewrite (String.eqb_sym name n).
    destruct (String.eqb n name); cbn [map fst orb].
    + reflexivity.
    + rewrite IH. destruct (existsb (String.eqb name) (map fst rest)); reflexivity.
Qed.

Lemma well_formed_set_column (n : nat) (cols : list (string * list value))
      (name : string) (cells : list value) :
  List.length cells = n ->
  well_formed (mkTable n cols) = true ->
  well_formed (mkTable n (set_column cols name cells)) = true.
Proof.
  unfold well_formed. cbn [nrows table_columns]. intros Hlen.
  induction cols as [|[k c] rest IH]; cbn [set_column forallb snd]; intros H.
  - rewrite Hlen, Nat.eqb_refl. reflexivity.
  - apply andb_true_iff in H. destruct H as [H1 H2].
    destruct (String.eqb k name); cbn [forallb snd].
    + rewrite Hlen, Nat.eqb_refl, H2. reflexivity.
    + rewrite H1, (IH H2). reflexivity.
Qed.

Lemma column_length (df : Table) (c : string) (cells : list value) :
  well_formed df = true -> column df c = Ok cells ->
  List.length cells = nrows df.
Proof.
  unfold well_formed, column. intros Hwf.
  destruct (find _ _) as [x|] eqn:Hfind; [|discriminate].
  intros H. injection H as <-.
  apply find_some in Hfind. destruct Hfind as [Hin _].
  rewrite forallb_forall in Hwf. apply Nat.eqb_eq. exact (Hwf x Hin).
Qed.

Lemma column_present (df : Table) (c : string) :
  In c (labels df) -> exists cells, column df c = Ok cells.
Proof.
  unfold labels, column. intros Hin.
  destruct (find _ _) as [x|] eqn:Hfind; [eexists; reflexivity|].
  exfalso. apply in_map_iff in Hin. destruct Hin as [x [Hx Hin]].
  pose proof (find_none _ _ Hfind x Hin) as Hno. cbn beta in Hno.
  rewrite Hx, String.eqb_refl in Hno. discriminate.
Qed.

Lemma column_absent (df : Table) (c : string) :
  ~ In c (labels df) -> column df c = Raise (mkExn KeyError (quote c)).
Proof.
  unfold labels, column. intros Hnot.
  destruct (find _ _) as [x|] eqn:Hfind; [|reflexivity].
  exfalso. apply Hnot. apply find_some in Hfind. destruct Hfind as [Hin Heq].
  apply String.eqb_eq in Heq. apply in_map_iff. exists x. split; assumption.
Qed.

Lemma column_ok_present (df : Table) (c : string) (cells : list value) :
  column df c = Ok cells -> In c (labels df).
Proof.
  intros H. destruct (in_dec string_dec c (labels df)) as [Hin|Hnot]; [exact Hin|].
  rewrite (column_absent df c Hnot) in H. discriminate.
Qed.

Lemma setitem_fits (df : Table) (name : string) (cells : list value) :
  List.length cells = nrows df ->
  setitem df name cells
  = Ok (mkTable (nrows df) (set_column (table_columns df) name cells)).
Proof.
  intros H. unfold setitem. rewrite H, Nat.eqb_refl. reflexivity.
Qed.

Lemma setitem_table (n : nat) (cols : list (string * list value))
      (name : string) (cells : list value) :
  List.length cells = n ->
  setitem (mkTable n cols) name cells
  = Ok (mkTable n (set_column cols name cells)).
Proof.
  intros H. apply (setitem_fits (mkTable n cols)). exact H.
Qed.

Lemma well_formed_blank (k : nat) (cols : list (string * list value)) :
  well_formed (mkTable k (map (fun c => (fst c, repeat NaN k)) cols)) = true.
Proof.
  unfold well_formed. cbn [nrows table_columns].
  induction cols as [|c rest IH]; cbn [map forallb snd]; [reflexivity|].
  rewrite repeat_length, Nat.eqb_refl. exact IH.
Qed.

Lemma setitem_well_formed (df df' : Table) (name : string) (cells : list value) :
  well_formed df = true -> setitem df name cells = Ok df' ->
  well_formed df' = true.
Proof.
  intros Hwf. unfold setitem.
  destruct (Nat.eqb (List.length cells) (nrows df)) eqn:Hlen.
  - intros H. injection H as <-. apply Nat.eqb_eq in Hlen.
    apply well_formed_set_column; [exact Hlen|]. destruct df; exact Hwf.
  - destruct (Nat.eqb (nrows df) 0); [|discriminate].
    intros H. injection H as <-.
    apply well_formed_set_column; [reflexivity|]. apply well_formed_blank.
Qed.

(** ** Batch inference *)

(** The run of the [else] branch, by the step that fails first. *)
Lemma inference_run (model : Script.BatchArtifact) (test_data : Table) :
  Script.inference model test_data
  = match Script.batch_predict model test_data with
    | Raise e => (Raise e, [Script.Predicted test_data])
    | Ok churn_predictions =>
        match Script.batch_predict_proba model test_data with
        | Raise e =>
            (Raise e, [Script.Predicted test_data;
                       Script.ProbaPredicted test_data])
        | Ok churn_probabilities =>
            match
              Script.then_
                (setitem test_data "Churn_Prediction"
                         (map VInt churn_predictions)) (fun df1 =>
              Script.then_ (take_column 1 churn_probabilities) (fun second =>
              Script.then_
                (setitem df1 "Churn_Probability" (map VFloat second))
                (fun df2 =>
              Script.then_ (column df2 "Churn_Prediction") (fun predictions =>
              setitem df2 "Churn_Label"
                      (map Script.churn_label predictions)))))
            with
            | Ok out =>
                (Ok out, [Script.Predicted test_data;
                          Script.ProbaPredicted test_data;
                          Script.WrittenCsv Script.OUTPUT_FILE out])
            | Raise e =>
                (Raise e, [Script.Predicted test_data;
                           Script.ProbaPredicted test_data])
            end
        end
    end.
Proof.
  unfold Script.inference, Script.and_then, Script.pure, Script.then_.
  destruct (Script.batch_predict model test_data) as [preds|e]; [|reflexivity].
  destruct (Script.batch_predict_proba model test_data) as [probs|e]; [|reflexivity].
  destruct (setitem test_data "Churn_Prediction" (map VInt preds)) as [df1|e];
    [|reflexivity].
  destruct (take_column 1 probs) as [second|e]; [|reflexivity].
  destruct (setitem df1 "Churn_Probability" (map VFloat second)) as [df2|e];
    [|reflexivity].
  destruct (column df2 "Churn_Prediction") as [predictions|e]; [|reflexivity].
  destruct (setitem df2 "Churn_Label" (map Script.churn_label predictions))
    as [out|e]; reflexivity.
Qed.

(** Setting a column leaves every other column as it is, when the cells
    fit the rows. *)
Lemma setitem_column (df df' : Table) (name : string) (cells : list value)
      (c : string) :
  List.length cells = nrows df ->
  setitem df name cells = Ok df' ->
  nrows df' = nrows df
  /\ column df' c = (if String.eqb name c then Ok cells else column df c)
  /\ labels df'
     = (if existsb (String.eqb name) (labels df) then labels df
        else (labels df ++ [name])%list).
Proof.
  intros Hlen. rewrite (setitem_fits df name cells Hlen).
  intros H. injection H as <-. split; [reflexivity|]. split.
  - rewrite column_set_column. destruct df; reflexivity.
  - unfold labels. cbn [table_columns]. apply labels_set_column.
Qed.

(** X11.  (main.py lines 94-114, the inference branch.)  The artifact is
    invoked on the table as read, no column selected or removed; the output
    file is written once, after both invocations and only when every step
    succeeded; a failure leaves no file written and is the exception
    raised, which the script does not catch. *)
Theorem inference_writes_only_on_success
        (model : Script.BatchArtifact) (test_data : Table) :
  match Script.inference model test_data with
  | (Ok out, t) =>
      t = [Script.Predicted test_data; Script.ProbaPredicted test_data;
           Script.WrittenCsv Script.OUTPUT_FILE out]
  | (Raise e, t) =>
      Script.written t = []
      /\ ((t = [Script.Predicted test_data]
           /\ Script.batch_predict model test_data = Raise e)
          \/ (t = [Script.Predicted test_data;
                   Script.ProbaPredicted test_data]
              /\ exists churn_predictions,
                   Script.batch_predict model test_data = Ok churn_predictions))
  end.
Proof.
  rewrite inference_run.
  destruct (Script.batch_predict model test_data) as [preds|e].
  - destruct (Script.batch_predict_proba model test_data) as [probs|e].
    + match goal with
      | |- context [match ?r with Ok out => _ | Raise e => _ end] =>
          destruct r as [out|e]
      end.
      * reflexivity.
      * split; [reflexivity|]. right. split; [reflexivity|].
        exists preds. reflexivity.
    + split; [reflexivity|]. right. split; [reflexivity|].
      exists preds. reflexivity.
  - split; [reflexivity|]. left. split; reflexivity.
Qed.

Lemma existsb_eqb_absent (c : string) (names : list string) :
  ~ In c names -> existsb (String.eqb c) names = false.
Proof.
  intros Hnot. destruct (existsb (String.eqb c) names) eqn:H; [|reflexivity].
  exfalso. apply Hnot. apply (existsb_eqb_In c names). exact H.
Qed.

(** X12.  (main.py lines 99-114.)  When the artifact answers with one class
    per row of the table and an array of probabilities whose second column
    has one entry per row, the run succeeds and writes a table with the
    same rows, every column of the input as it was read, and the three
    columns [Churn_Prediction] (the classes), [Churn_Probability] (the
    second column of the array) and [Churn_Label]; where the input had none
    of the three names they are added at the end in this order. *)
Theorem inference_output
        (model : Script.BatchArtifact) (test_data : Table)
        (churn_predictions : list Z) (churn_probabilities : list (list float))
        (second : list float) :
  Script.batch_predict model test_data = Ok churn_predictions ->
  Script.batch_predict_proba model test_data = Ok churn_probabilities ->
  List.length churn_predictions = nrows test_data ->
  nth_error churn_probabilities 1 = Some second ->
  List.length second = nrows test_data ->
  exists out,
    Script.inference model test_data
    = (Ok out, [Script.Predicted test_data; Script.ProbaPredicted test_data;
                Script.WrittenCsv Script.OUTPUT_FILE out])
    /\ nrows out = nrows test_data
    /\ column out "Churn_Prediction" = Ok (map VInt churn_predictions)
    /\ column out "Churn_Probability" = Ok (map VFloat second)
    /\ column out "Churn_Label"
       = Ok (map (fun z => Script.churn_label (VInt z)) churn_predictions)
    /\ (forall c, c <> "Churn_Prediction" -> c <> "Churn_Probability" ->
                  c <> "Churn_Label" -> column out c = column test_data c)
    /\ (~ In "Churn_Prediction" (labels test_data) ->
        ~ In "Churn_Probability" (labels test_data) ->
        ~ In "Churn_Label" (labels test_data) ->
        labels out
        = (labels test_data
             ++ ["Churn_Prediction"; "Churn_Probability"; "Churn_Label"])%list).
Proof.
  intros Hpred Hproba Hlen1 Hsecond Hlen2.
  destruct test_data as [n cols]. cbn [nrows] in Hlen1, Hlen2.
  assert (Htake : take_column 1 churn_probabilities = Ok second)
    by (unfold take_column; rewrite Hsecond; reflexivity).
  assert (Hrun :
    Script.then_
      (setitem (mkTable n cols) "Churn_Prediction"
               (map VInt churn_predictions)) (fun df1 =>
    Script.then_ (take_column 1 churn_probabilities) (fun second =>
    Script.then_
      (setitem df1 "Churn_Probability" (map VFloat second)) (fun df2 =>
    Script.then_ (column df2 "Churn_Prediction") (fun predictions =>
    setitem df2 "Churn_Label" (map Script.churn_label predictions)))))
    = Ok (mkTable n
            (set_column
               (set_column
                  (set_column cols "Churn_Prediction"
                              (map VInt churn_predictions))
                  "Churn_Probability" (map VFloat second))
               "Churn_Label"
               (map Script.churn_label (map VInt churn_predictions))))).
  { assert (F1 : List.length (map VInt churn_predictions) = n)
      by (rewrite length_map; exact Hlen1).
    assert (F2 : List.length (map VFloat second) = n)
      by (rewrite length_map; exact Hlen2).
    assert (F3 : List.length
                   (map Script.churn_label (map VInt churn_predictions)) = n)
      by (rewrite !length_map; exact Hlen1).
    rewrite (setitem_table _ _ _ _ F1). cbn [Script.then_].
    rewrite Htake. cbn [Script.then_].
    rewrite (setitem_table _ _ _ _ F2). cbn [Script.then_].
    rewrite !column_set_column.
    change (String.eqb "Churn_Probability" "Churn_Prediction") with false.
    change (String.eqb "Churn_Prediction" "Churn_Prediction") with true.
    cbn [Script.then_].
    rewrite (setitem_table _ _ _ _ F3).
    reflexivity. }
  rewrite inference_run, Hpred, Hproba, Hrun.
  eexists. split; [reflexivity|]. split; [reflexivity|].
  split; [|split; [|split; [|split]]].
  - rewrite !column_set_column. reflexivity.
  - rewrite !column_set_column.
    change (String.eqb "Churn_Label" "Churn_Probability") with false.
    change (String.eqb "Churn_Probability" "Churn_Probability") with true.
    reflexivity.
  - rewrite !column_set_column.
    change (String.eqb "Churn_Label" "Churn_Label") with true.
    cbn iota. rewrite map_map. reflexivity.
  - intros c H1 H2 H3. rewrite !column_set_column.
    neq_key H1. neq_key H2. neq_key H3. rewrite E, E0, E1. reflexivity.
  - intros H1 H2 H3. unfold labels in *. cbn [table_columns] in *.
    rewrite !labels_set_column.
    rewrite (existsb_eqb_absent _ _ H1).
    rewrite existsb_app, (existsb_eqb_absent _ _ H2).
    cbn [existsb orb].
    change (String.eqb "Churn_Probability" "Churn_Prediction") with false.
    cbn [orb].
    rewrite !existsb_app, (existsb_eqb_absent _ _ H3).
    cbn [existsb orb].
    change (String.eqb "Churn_Label" "Churn_Prediction") with false.
    change (String.eqb "Churn_Label" "Churn_Probability") with false.
    cbn [orb]. rewrite <- !app_assoc. reflexivity.
Qed.

Lemma inference_output_witness :
  exists out,
    Script.inference Script.two_answers Script.two_customers
    = (Ok out, [Script.Predicted Script.two_customers;
                Script.ProbaPredicted Script.two_customers;
                Script.WrittenCsv Script.OUTPUT_FILE out])
    /\ column out "Churn_Probability" = Ok [VFloat 0.75; VFloat 0.125]
    /\ column out "Churn_Label" = Ok [VStr "Yes"; VStr "No"]
    /\ labels out
       = ["customerID"; "tenure"; "Contract";
          "Churn_Prediction"; "Churn_Probability"; "Churn_Label"].
Proof.
  destruct (inference_output Script.two_answers Script.two_customers
              [1%Z; 0%Z] [[0.25; 0.875]%float; [0.75; 0.125]%float]
              [0.75; 0.125]%float
              eq_refl eq_refl eq_refl eq_refl eq_refl)
    as [out [Hrun [_ [_ [Hproba [Hlabel [_ Hlabels]]]]]]].
  exists out. split; [exact Hrun|]. split; [exact Hproba|].
  split; [exact Hlabel|]. apply Hlabels; vm_compute; intuition discriminate.
Defined.

(** X13.  (main.py lines 99-104.)  With an array of fewer than two columns of
    probabilities, as an artifact fitted on a single class returns it, the
    run ends in the [IndexError] of [[:, 1]] after both invocations, and
    writes no file. *)
Theorem inference_needs_two_classes
        (model : Script.BatchArtifact) (test_data : Table)
        (churn_predictions : list Z) (churn_probabilities : list (list float)) :
  Script.batch_predict model test_data = Ok churn_predictions ->
  Script.batch_predict_proba model test_data = Ok churn_probabilities ->
  List.length churn_predictions = nrows test_data ->
  List.length churn_probabilities < 2 ->
  Script.inference model test_data
  = (Raise (mkExn IndexError
              ("index 1 is out of bounds for axis 1 with size "
                 ++ decimal (N.of_nat (List.length churn_probabilities)))),
     [Script.Predicted test_data; Script.ProbaPredicted test_data]).
Proof.
  intros Hpred Hproba Hlen Hshort.
  assert (F1 : List.length (map VInt churn_predictions) = nrows test_data)
    by (rewrite length_map; exact Hlen).
  assert (Htake : nth_error churn_probabilities 1 = None)
    by (apply nth_error_None; lia).
  rewrite inference_run, Hpred, Hproba, (setitem_fits _ _ _ F1).
  cbn [Script.then_]. unfold take_column. rewrite Htake. reflexivity.
Qed.

Lemma inference_needs_two_classes_witness :
  Script.inference Script.single_class Script.two_customers
  = (Raise (mkExn IndexError "index 1 is out of bounds for axis 1 with size 1"),
     [Script.Predicted Script.two_customers;
      Script.ProbaPredicted Script.two_customers]).
Proof.
  apply (inference_needs_two_classes Script.single_class Script.two_customers
           [0%Z; 0%Z] [[1; 1]%float] eq_refl eq_refl eq_refl).
  cbn [List.length]. lia.
Defined.

Lemma column_blank (n k : nat) (cols : list (string * list value))
      (c : string) :
  column (mkTable k (map (fun x => (fst x, repeat NaN k)) cols)) c
  = match column (mkTable n cols) c with
    | Ok _ => Ok (repeat NaN k)
    | Raise e => Raise e
    end.
Proof.
  unfold column. cbn [table_columns].
  induction cols as [|[m cells] rest IH]; [reflexivity|].
  cbn [map find fst]. destruct (String.eqb m c); [reflexivity|exact IH].
Qed.

(** What an assignment leaves in the column assigned and in another one. *)
Lemma setitem_columns (df df' : Table) (name : string) (cells : list value)
      (c : string) :
  setitem df name cells = Ok df' ->
  column df' name = Ok cells
  /\ (name <> c ->
      column df' c = column df c
      \/ column df' c = Ok (repeat NaN (nrows df'))).
Proof.
  unfold setitem. intros H.
  destruct (Nat.eqb (List.length cells) (nrows df)).
  - injection H as <-. rewrite !column_set_column, String.eqb_refl.
    split; [reflexivity|]. intros Hc. apply String.eqb_neq in Hc.
    rewrite Hc. left. destruct df; reflexivity.
  - destruct (Nat.eqb (nrows df) 0); [|discriminate].
    injection H as <-. rewrite !column_set_column, String.eqb_refl.
    split; [reflexivity|]. intros Hc. apply String.eqb_neq in Hc.
    rewrite Hc. cbn [nrows].
    rewrite (column_blank (nrows df) _ (table_columns df) c).
    destruct df as [n cols]. cbn [nrows table_columns].
    destruct (column (mkTable n cols) c) as [old|e]; [right|left]; reflexivity.
Qed.

(** X14.  (main.py lines 99-109, against app.py line 66.)  In every table the
    run writes, the [Churn_Prediction] column holds the classes the
    artifact returned (or missing values only), and the label of a row is
    read off that column: [Yes] for class 1, [No] for class 0 and a missing
    value for anything else, whereas the request handlers label every class
    other than 1 as [No]. *)
Theorem batch_label_follows_prediction_column
        (model : Script.BatchArtifact) (test_data out : Table)
        (t : list Script.effect) :
  well_formed test_data = true ->
  Script.inference model test_data = (Ok out, t) ->
  (exists churn_predictions cells,
      Script.batch_predict model test_data = Ok churn_predictions
      /\ column out "Churn_Prediction" = Ok cells
      /\ (cells = map VInt churn_predictions
          \/ cells = repeat NaN (nrows out))
      /\ column out "Churn_Label" = Ok (map Script.churn_label cells))
  /\ (forall z : Z,
         Script.churn_label (VInt z) = VStr (Request.label z)
         <-> (z = 0 \/ z = 1)%Z)
  /\ (forall z : Z, z <> 0%Z -> z <> 1%Z ->
         Script.churn_label (VInt z) = NaN /\ Request.label z = "No").
Proof.
  intros Hwf Hrun. split; [|split].
  - rewrite inference_run in Hrun.
    destruct (Script.batch_predict model test_data) as [preds|e];
      [|discriminate].
    destruct (Script.batch_predict_proba model test_data) as [probs|e];
      [|discriminate].
    destruct (setitem test_data "Churn_Prediction" (map VInt preds))
      as [df1|e] eqn:H1; cbn [Script.then_] in Hrun; [|discriminate].
    destruct (take_column 1 probs) as [second|e];
      cbn [Script.then_] in Hrun; [|discriminate].
    destruct (setitem df1 "Churn_Probability" (map VFloat second))
      as [df2|e] eqn:H2; cbn [Script.then_] in Hrun; [|discriminate].
    destruct (column df2 "Churn_Prediction") as [cells|e] eqn:Hcol;
      cbn [Script.then_] in Hrun; [|discriminate].
    destruct (setitem df2 "Churn_Label" (map Script.churn_label cells))
      as [df3|e] eqn:H3; [|discriminate].
    injection Hrun as <- _.
    pose proof (setitem_well_formed _ _ _ _ Hwf H1) as Hwf1.
    pose proof (setitem_well_formed _ _ _ _ Hwf1 H2) as Hwf2.
    pose proof (column_length _ _ _ Hwf2 Hcol) as Hlen.
    assert (Hlen3 : List.length (map Script.churn_label cells) = nrows df2)
      by (rewrite length_map; exact Hlen).
    destruct (setitem_column _ _ _ _ "Churn_Prediction" Hlen3 H3)
      as [Hn3 [Hc3 _]].
    destruct (setitem_column _ _ _ _ "Churn_Label" Hlen3 H3)
      as [_ [Hl3 _]].
    exists preds, cells. split; [reflexivity|].
    split; [rewrite Hc3; exact Hcol|]. split; [|exact Hl3].
    destruct (setitem_columns _ _ _ _ "Churn_Prediction" H1) as [Hp1 _].
    destruct (setitem_columns _ _ _ _ "Churn_Prediction" H2) as [_ Hp2].
    destruct Hp2 as [Hsame|Hblank]; [discriminate| |].
    + left. rewrite Hsame, Hp1 in Hcol. injection Hcol as <-. reflexivity.
    + right. rewrite Hblank in Hcol. injection Hcol as <-.
      rewrite Hn3. reflexivity.
  - intros z. unfold Request.label.
    destruct z as [|[p|p|]|p]; cbn; split; intros H;
      try discriminate; try (destruct H; discriminate); try reflexivity;
      try (left; reflexivity); try (right; reflexivity).
  - intros z H0 H1. unfold Request.label.
    destruct z as [|[p|p|]|p]; cbn; try (split; reflexivity); congruence.
Qed.

Lemma batch_label_follows_prediction_column_witness :
  well_formed Script.two_customers = true
  /\ exists out t,
       Script.inference Script.three_classes Script.two_customers = (Ok out, t)
       /\ column out "Churn_Prediction" = Ok [VInt 2; VInt 0]
       /\ column out "Churn_Label" = Ok [NaN; VStr "No"]
       /\ Request.label 2 = "No".
Proof.
  split; [reflexivity|].
  eexists. eexists. split; [reflexivity|].
  destruct (batch_label_follows_prediction_column
              Script.three_classes Script.two_customers _ _
              eq_refl eq_refl) as [[preds [cells [_ [Hp [_ Hl]]]]] [_ Hother]].
  assert (Hcells : cells = [VInt 2; VInt 0]).
  { vm_compute in Hp. injection Hp as <-. reflexivity. }
  subst cells. split; [exact Hp|]. split; [exact Hl|].
  apply (Hother 2%Z); discriminate.
Defined.

(** ** The training table *)

Lemma find_filter_columns (names : list string) (c : string)
      (cols : list (string * list value)) :
  existsb (String.eqb c) names = false ->
  find (fun x => String.eqb (fst x) c)
       (filter (fun x => negb (existsb (String.eqb (fst x)) names)) cols)
  = find (fun x => String.eqb (fst x) c) cols.
Proof.
  intros Hc. induction cols as [|[n k] rest IH]; [reflexivity|].
  cbn [filter find fst].
  destruct (String.eqb n c) eqn:Hn.
  - apply String.eqb_eq in Hn. subst n. rewrite Hc. cbn [negb find fst].
    rewrite String.eqb_refl. reflexivity.
  - destruct (negb (existsb (String.eqb n) names)); cbn [find fst].
    + rewrite Hn. exact IH.
    + exact IH.
Qed.

Lemma labels_filter_columns (names : list string)
      (cols : list (string * list value)) :
  map fst (filter (fun x => negb (existsb (String.eqb (fst x)) names)) cols)
  = filter (fun n => negb (existsb (String.eqb n) names)) (map fst cols).
Proof.
  induction cols as [|[n k] rest IH]; [reflexivity|].
  cbn [filter map fst].
  destruct (negb (existsb (String.eqb n) names)); cbn [map fst];
    rewrite IH; reflexivity.
Qed.

(** [drop] with every name a column. *)
Lemma drop_present (df : Table) (names : list string) :
  (forall n, In n names -> In n (labels df)) ->
  drop df names
  = Ok (mkTable (nrows df)
          (filter (fun c => negb (existsb (String.eqb (fst c)) names))
                  (table_columns df))).
Proof.
  intros Hall. unfold drop.
  assert (Hnone : filter (fun n => negb (existsb (String.eqb n) (labels df)))
                         names = []).
  { induction names as [|n rest IH]; [reflexivity|]. cbn [filter].
    assert (Hn : existsb (String.eqb n) (labels df) = true)
      by (apply (existsb_eqb_In n (labels df)); apply Hall; left; reflexivity).
    rewrite Hn. cbn [negb]. apply IH. intros m Hm. apply Hall. right. exact Hm. }
  rewrite Hnone. reflexivity.
Qed.

(** [drop] fails unless every name is a column. *)
Lemma drop_ok_present (df df' : Table) (names : list string) (n : string) :
  drop df names = Ok df' -> In n names -> In n (labels df).
Proof.
  unfold drop. intros H Hin.
  destruct (filter (fun n => negb (existsb (String.eqb n) (labels df))) names)
    as [|a absent] eqn:Hf; [|discriminate].
  destruct (existsb (String.eqb n) (labels df)) eqn:Hn.
  - apply (existsb_eqb_In n (labels df)). exact Hn.
  - exfalso.
    assert (Hmem : In n (filter (fun n => negb (existsb (String.eqb n) (labels df)))
                                names)).
    { apply filter_In. split; [exact Hin|]. rewrite Hn. reflexivity. }
    rewrite Hf in Hmem. exact Hmem.
Qed.

Section Coercion.

Variable to_numeric : list value -> list value.
Hypothesis to_numeric_length :
  forall series, List.length (to_numeric series) = List.length series.

(** The loop over the numeric columns coerces each of them where it stands
    and touches nothing else. *)
Lemma convert_spec (cols : list string) :
  forall df : Table,
    well_formed df = true ->
    NoDup cols ->
    (forall c, In c cols -> In c (labels df)) ->
    exists df',
      Script.convert to_numeric cols df = Ok df'
      /\ nrows df' = nrows df
      /\ labels df' = labels df
      /\ well_formed df' = true
      /\ forall c,
           column df' c
           = if existsb (String.eqb c) cols
             then Script.then_ (column df c) (fun s => Ok (to_numeric s))
             else column df c.
Proof.
  induction cols as [|c0 rest IH]; intros df Hwf Hnd Hall.
  - exists df. repeat split; try reflexivity. exact Hwf.
  - cbn [Script.convert].
    destruct (column_present df c0 (Hall c0 (or_introl eq_refl)))
      as [series Hseries].
    rewrite Hseries. cbn [Script.then_].
    assert (Hlen : List.length (to_numeric series) = nrows df).
    { rewrite to_numeric_length. exact (column_length df c0 series Hwf Hseries). }
    pose proof (setitem_fits df c0 (to_numeric series) Hlen) as Hset.
    rewrite Hset. cbn [Script.then_].
    pose proof (setitem_well_formed _ _ _ _ Hwf Hset) as Hwf1.
    assert (Hlabels1 :
              labels (mkTable (nrows df)
                        (set_column (table_columns df) c0 (to_numeric series)))
              = labels df).
    { unfold labels. cbn [table_columns]. rewrite labels_set_column.
      assert (Hin : existsb (String.eqb c0) (map fst (table_columns df)) = true)
        by (apply (existsb_eqb_In c0 (map fst (table_columns df)));
            apply (Hall c0); left; reflexivity).
      rewrite Hin. reflexivity. }
    inversion Hnd as [|? ? Hnotin Hnd']. subst.
    destruct (IH _ Hwf1 Hnd') as [df' [Hrun [Hn [Hl [Hwf' Hcol]]]]].
    { intros c Hc. rewrite Hlabels1. apply Hall. right. exact Hc. }
    exists df'. split; [exact Hrun|]. split; [exact Hn|].
    split; [rewrite Hl; exact Hlabels1|]. split; [exact Hwf'|].
    intros c. rewrite (Hcol c), column_set_column.
    cbn [existsb]. rewrite (String.eqb_sym c c0).
    destruct (String.eqb c0 c) eqn:Hc; cbn [orb].
    + apply String.eqb_eq in Hc. subst c.
      rewrite (existsb_eqb_absent c0 rest Hnotin), Hseries. reflexivity.
    + destruct df; reflexivity.
Qed.

(** The loop fails unless each of its columns exists. *)
Lemma convert_ok_present (cols : list string) :
  forall df df' : Table,
    Script.convert to_numeric cols df = Ok df' ->
    labels df' = labels df /\ forall c, In c cols -> In c (labels df).
Proof.
  induction cols as [|c0 rest IH]; intros df df' H.
  - injection H as <-. split; [reflexivity|]. intros c [].
  - cbn [Script.convert] in H.
    destruct (column df c0) as [series|e] eqn:Hseries;
      cbn [Script.then_] in H; [|discriminate].
    destruct (setitem df c0 (to_numeric series)) as [df1|e] eqn:Hset;
      cbn [Script.then_] in H; [|discriminate].
    pose proof (column_ok_present df c0 series Hseries) as Hin0.
    assert (Hl1 : labels df1 = labels df).
    { assert (Hex : existsb (String.eqb c0) (map fst (table_columns df)) = true)
        by (apply (existsb_eqb_In c0 (map fst (table_columns df))); exact Hin0).
      unfold setitem in Hset.
      destruct (Nat.eqb (List.length (to_numeric series)) (nrows df)).
      - injection Hset as <-. unfold labels. cbn [table_columns].
        rewrite labels_set_column, Hex. reflexivity.
      - destruct (Nat.eqb (nrows df) 0); [|discriminate].
        injection Hset as <-. unfold labels. cbn [table_columns].
        rewrite labels_set_column.
        assert (Hblank :
                  map fst
                      (map (fun c : string * list value =>
                              (fst c,
                               repeat NaN (List.length (to_numeric series))))
                           (table_columns df))
                  = map fst (table_columns df))
          by (rewrite map_map; apply map_ext; reflexivity).
        rewrite Hblank, Hex. reflexivity. }
    destruct (IH df1 df' H) as [Hl Hall]. split.
    + rewrite Hl. exact Hl1.
    + intros c [<-|Hc]; [exact Hin0|]. rewrite <- Hl1. apply Hall. exact Hc.
Qed.

End Coercion.

Lemma setitem_labels_present (df df' : Table) (name : string)
      (cells : list value) :
  In name (labels df) -> setitem df name cells = Ok df' ->
  labels df' = labels df.
Proof.
  intros Hin Hset.
  assert (Hex : existsb (String.eqb name) (map fst (table_columns df)) = true)
    by (apply (existsb_eqb_In name (map fst (table_columns df))); exact Hin).
  unfold setitem in Hset.
  destruct (Nat.eqb (List.length cells) (nrows df)).
  - injection Hset as <-. unfold labels. cbn [table_columns].
    rewrite labels_set_column, Hex. reflexivity.
  - destruct (Nat.eqb (nrows df) 0); [|discriminate].
    injection Hset as <-. unfold labels. cbn [table_columns].
    rewrite labels_set_column.
    assert (Hblank :
              map fst
                  (map (fun c : string * list value =>
                          (fst c, repeat NaN (List.length cells)))
                       (table_columns df))
              = map fst (table_columns df))
      by (rewrite map_map; apply map_ext; reflexivity).
    rewrite Hblank, Hex. reflexivity.
Qed.

Lemma column_drop (n : nat) (cols : list (string * list value))
      (names : list string) (c : string) :
  existsb (String.eqb c) names = false ->
  column (mkTable n
            (filter (fun x => negb (existsb (String.eqb (fst x)) names)) cols))
         c
  = column (mkTable n cols) c.
Proof.
  intros Hc. unfold column. cbn [table_columns].
  rewrite (find_filter_columns names c cols Hc). reflexivity.
Qed.

Lemma length_map_churn (churn : list value) :
  List.length (map Script.of_label (Main.map_churn (map Script.as_cell churn)))
  = List.length churn.
Proof.
  unfold Main.map_churn, Main.Series_map. rewrite !length_map. reflexivity.
Qed.

(** X15.  (main.py lines 42-56.)  For a table that holds the four numeric
    columns, [Churn] and [customerID], and a coercion that keeps the length
    of a column, the preparation succeeds; the labels are the mapped
    [Churn] column of the table read; the features have the rows of the
    table, the coerced cells in the four numeric columns and the cells as
    read in every other column. *)
Theorem training_table
        (to_numeric : list value -> list value) (churn_data : Table) :
  (forall series, List.length (to_numeric series) = List.length series) ->
  well_formed churn_data = true ->
  (forall c, In c ("Churn" :: "customerID" :: Script.true_num_cols) ->
             In c (labels churn_data)) ->
  exists customer_features churn_labels churn,
    Script.prepare to_numeric churn_data = Ok (customer_features, churn_labels)
    /\ column churn_data "Churn" = Ok churn
    /\ churn_labels
       = map Script.of_label (Main.map_churn (map Script.as_cell churn))
    /\ List.length churn_labels = nrows churn_data
    /\ nrows customer_features = nrows churn_data
    /\ well_formed customer_features = true
    /\ forall c, c <> "Churn" -> c <> "customerID" ->
         column customer_features c
         = if existsb (String.eqb c) Script.true_num_cols
           then Script.then_ (column churn_data c)
                             (fun series => Ok (to_numeric series))
           else column churn_data c.
Proof.
  intros Hnum Hwf Hall.
  assert (Hnd : NoDup Script.true_num_cols).
  { unfold Script.true_num_cols.
    repeat constructor; cbn [In]; intuition discriminate. }
  destruct (convert_spec to_numeric Hnum Script.true_num_cols churn_data Hwf Hnd)
    as [df1 [Hconv [Hn1 [Hl1 [Hwf1 Hcol1]]]]].
  { intros c Hc. apply Hall. right. right. exact Hc. }
  destruct (column_present churn_data "Churn" (Hall _ (or_introl eq_refl)))
    as [churn Hchurn].
  assert (Hchurn1 : column df1 "Churn" = Ok churn).
  { rewrite (Hcol1 "Churn"). exact Hchurn. }
  pose proof (column_length df1 "Churn" churn Hwf1 Hchurn1) as Hlenchurn.
  assert (Hfit : List.length
                   (map Script.of_label
                        (Main.map_churn (map Script.as_cell churn)))
                 = nrows df1)
    by (rewrite length_map_churn; exact Hlenchurn).
  pose proof (setitem_fits df1 "Churn" _ Hfit) as Hset.
  pose proof (setitem_well_formed _ _ _ _ Hwf1 Hset) as Hwf2.
  assert (Hl2 : labels (mkTable (nrows df1)
                          (set_column (table_columns df1) "Churn"
                             (map Script.of_label
                                (Main.map_churn (map Script.as_cell churn)))))
                = labels churn_data).
  { rewrite <- Hl1. refine (setitem_labels_present df1 _ "Churn" _ _ Hset).
    rewrite Hl1. apply Hall. left. reflexivity. }
  exists (mkTable (nrows df1)
            (filter (fun c => negb (existsb (String.eqb (fst c))
                                            ["Churn"; "customerID"]))
                    (set_column (table_columns df1) "Churn"
                       (map Script.of_label
                          (Main.map_churn (map Script.as_cell churn)))))).
  exists (map Script.of_label (Main.map_churn (map Script.as_cell churn))).
  exists churn.
  split; [|split; [exact Hchurn|split; [reflexivity|split; [|split; [|split]]]]].
  - unfold Script.prepare. rewrite Hconv. cbn [Script.then_].
    rewrite Hchurn1. cbn [Script.then_]. rewrite Hset. cbn [Script.then_].
    rewrite drop_present.
    + cbn [Script.then_ nrows table_columns]. rewrite column_set_column.
      rewrite String.eqb_refl. reflexivity.
    + intros n Hn. rewrite Hl2. apply Hall.
      destruct Hn as [<-|[<-|[]]]; [left|right; left]; reflexivity.
  - rewrite Hfit. exact Hn1.
  - exact Hn1.
  - unfold well_formed in *. cbn [nrows table_columns] in *.
    rewrite forallb_forall in *. intros x Hx.
    apply filter_In in Hx. destruct Hx as [Hx _]. exact (Hwf2 x Hx).
  - intros c Hc1 Hc2. neq_key Hc1. neq_key Hc2.
    rewrite column_drop.
    + rewrite column_set_column, E. rewrite <- (Hcol1 c).
      destruct df1; reflexivity.
    + cbn [existsb]. rewrite (String.eqb_sym c "Churn"), E.
      rewrite (String.eqb_sym c "customerID"), E0. reflexivity.
Qed.

Lemma training_table_witness :
  exists customer_features,
    Script.prepare Script.as_read Script.three_labelled
    = Ok (customer_features, [VInt 1; VInt 0; NaN])
    /\ nrows customer_features = 3
    /\ column customer_features "Partner"
       = Ok [VStr "Yes"; VStr "No"; VStr "No"]
    /\ column customer_features "tenure" = Ok [VInt 1; VInt 40; VInt 7].
Proof.
  destruct (training_table Script.as_read Script.three_labelled)
    as [features [churn_labels [churn [Hrun [Hchurn [Hlabels [_ [Hn [_ Hcol]]]]]]]]].
  - intros series. reflexivity.
  - reflexivity.
  - intros c Hc. vm_compute in Hc. vm_compute. tauto.
  - exists features. vm_compute in Hchurn. injection Hchurn as <-.
    split; [rewrite Hrun, Hlabels; reflexivity|]. split; [exact Hn|].
    split; [apply (Hcol "Partner"); discriminate|].
    apply (Hcol "tenure"); discriminate.
Defined.

(** X16.  (main.py lines 44-56.)  The preparation succeeds only on a table
    that holds the four numeric columns, [Churn] and [customerID]; the
    features it returns are then the columns of the table read in their
    order without [Churn] and [customerID], so the target never is a
    feature. *)
Theorem features_without_target
        (to_numeric : list value -> list value)
        (churn_data customer_features : Table) (churn_labels : list value) :
  Script.prepare to_numeric churn_data = Ok (customer_features, churn_labels) ->
  (forall c, In c ("Churn" :: "customerID" :: Script.true_num_cols) ->
             In c (labels churn_data))
  /\ labels customer_features
     = filter (fun c => negb (existsb (String.eqb c) ["Churn"; "customerID"]))
              (labels churn_data)
  /\ ~ In "Churn" (labels customer_features)
  /\ ~ In "customerID" (labels customer_features).
Proof.
  unfold Script.prepare. intros H.
  destruct (Script.convert to_numeric Script.true_num_cols churn_data)
    as [df1|e] eqn:Hconv; cbn [Script.then_] in H; [|discriminate].
  destruct (column df1 "Churn") as [churn|e] eqn:Hchurn;
    cbn [Script.then_] in H; [|discriminate].
  destruct (setitem df1 "Churn" _) as [df2|e] eqn:Hset;
    cbn [Script.then_] in H; [|discriminate].
  destruct (drop df2 ["Churn"; "customerID"]) as [features|e] eqn:Hdrop;
    cbn [Script.then_] in H; [|discriminate].
  destruct (column df2 "Churn") as [labels2|e];
    cbn [Script.then_] in H; [|discriminate].
  injection H as <- _.
  destruct (convert_ok_present to_numeric _ _ _ Hconv) as [Hl1 Hnum].
  pose proof (column_ok_present df1 "Churn" churn Hchurn) as Hin1.
  pose proof (setitem_labels_present df1 df2 "Churn" _ Hin1 Hset) as Hl2.
  assert (Hlabels : labels features
                    = filter (fun c => negb (existsb (String.eqb c)
                                                     ["Churn"; "customerID"]))
                             (labels churn_data)).
  { rewrite <- Hl1, <- Hl2.
    rewrite (drop_present df2 ["Churn"; "customerID"]) in Hdrop.
    - injection Hdrop as <-.
      exact (labels_filter_columns ["Churn"; "customerID"] (table_columns df2)).
    - intros n Hn. exact (drop_ok_present df2 features _ n Hdrop Hn). }
  split; [|split; [exact Hlabels|split]].
  - intros c [<-|[<-|Hc]].
    + rewrite <- Hl1. exact Hin1.
    + rewrite <- Hl1, <- Hl2.
      apply (drop_ok_present df2 features ["Churn"; "customerID"] _ Hdrop).
      right. left. reflexivity.
    + apply Hnum. exact Hc.
  - rewrite Hlabels. intros Hin. apply filter_In in Hin.
    destruct Hin as [_ Hin]. discriminate Hin.
  - rewrite Hlabels. intros Hin. apply filter_In in Hin.
    destruct Hin as [_ Hin]. discriminate Hin.
Qed.

Lemma features_without_target_witness :
  exists customer_features churn_labels,
    Script.prepare Script.as_read Script.three_labelled
    = Ok (customer_features, churn_labels)
    /\ labels customer_features
       = ["SeniorCitizen"; "Partner"; "tenure"; "MonthlyCharges";
          "TotalCharges"].
Proof.
  eexists. eexists. split; [reflexivity|].
  exact (proj1 (proj2 (features_without_target
                         Script.as_read Script.three_labelled _ _ eq_refl))).
Defined.

(** ** Labels that are missing *)

Lemma split_refuses_missing_labels
      (draw : Table -> list value -> result (list nat * list nat))
      (customer_features : Table) (churn_labels : list value) :
  In NaN churn_labels ->
  Script.split draw customer_features churn_labels
  = Raise (mkExn ValueError "Input y contains NaN.").
Proof.
  intros Hin. unfold Script.split.
  assert (Hex : existsb Script.is_missing churn_labels = true)
    by (apply existsb_exists; exists NaN; split; [exact Hin|reflexivity]).
  rewrite Hex. reflexivity.
Qed.

(** C10, as stated, fails: a training table with a malformed label is not
    accepted.  The label [no] of its third customer passes the mapping as
    a missing value, and the stratified split that follows refuses the
    labels with [ValueError], also when it would draw for any labels it
    is given. *)
Lemma malformed_labels_counterexample :
  ~ (forall (draw : Table -> list value -> result (list nat * list nat))
            (churn_data : Table),
        well_formed churn_data = true ->
        (forall c, In c ("Churn" :: "customerID" :: Script.true_num_cols) ->
                   In c (labels churn_data)) ->
        (forall customer_features churn_labels,
            exists indices,
              draw customer_features churn_labels = Ok indices) ->
        exists sets,
          Script.training_sets draw Script.as_read churn_data = Ok sets).
Proof.
  intros H.
  destruct (H Script.all_for_training Script.three_labelled eq_refl)
    as [sets Hsets].
  - intros c Hc. vm_compute in Hc. vm_compute. tauto.
  - intros customer_features churn_labels. eexists. reflexivity.
  - assert (Hrun : Script.training_sets Script.all_for_training Script.as_read
                                        Script.three_labelled
                   = Raise (mkExn ValueError "Input y contains NaN."))
      by (vm_compute; reflexivity).
    rewrite Hrun in Hsets. discriminate Hsets.
Qed.
